(** * Nebular Cassini bot: the per-user session state machine

    A shallow embedding of the session core of the bot (src/bot):
    - [database/crud.py]: users, progress records, sessions and the
      navigation stack, the review queue;
    - [handlers/navigation.py]: screen transitions, back and home;
    - [handlers/quiz_handler.py] and [handlers/game_handler.py]: the quiz
      and game engines;
    - [utils/lock_manager.py]: the administrative lock check.

    The database is a record of tables.  A table that the code reads with
    [query(...).filter(...).first()] is a list of rows in table order; the
    sessions table, which has a uniqueness constraint on its key, is a
    finite map.  Handlers are written in a state-and-exception monad over
    the database.  What the transport and the clock return is an input of
    each handler ([Env]).  Python floats are IEEE binary64 numbers
    ([PrimFloat]); Python ints are [Z]. *)

From Stdlib Require Import ZArith Lia List Bool String Ascii.
From Stdlib Require Import PrimFloat FloatOps SpecFloat.
From stdpp Require Import base tactics option list strings pretty gmap.
Import ListNotations.

Local Open Scope string_scope.
Local Open Scope list_scope.
Local Open Scope Z_scope.

(** ** Python values *)

(** The exceptions the modelled code can raise.  [OperationalError] is the
    database driver's. *)
Inductive Exn : Type :=
| IndexError
| KeyError
| TypeError
| ValueError
| OverflowError
| ZeroDivisionError
| OperationalError.

Inductive Res (A : Type) : Type :=
| Ok (a : A)
| Raise (e : Exn).
Arguments Ok {A} a.
Arguments Raise {A} e.

Definition is_ok {A} (r : Res A) : bool :=
  match r with Ok _ => true | Raise _ => false end.

(** [l[i]]: a negative index counts from the end, anything outside
    [-len, len) raises [IndexError]. *)
Definition py_index {A} (l : list A) (i : Z) : Res A :=
  let n := Z.of_nat (length l) in
  if (i <? - n) || (n <=? i) then Raise IndexError
  else match l !! Z.to_nat (if i <? 0 then i + n else i) with
       | Some x => Ok x
       | None => Raise IndexError
       end.

(** [l[-n:]]: the last [n] elements. *)
Definition py_last_n {A} (n : nat) (l : list A) : list A :=
  drop (length l - n)%nat l.

(** [float(z)], rounded to nearest even. *)
Definition float_of_Z (z : Z) : float :=
  SF2Prim (binary_normalize prec emax z 0 false).

(** [a / b] on ints: true division.  Python rounds the exact quotient; for
    operands below 2^53 in absolute value (list lengths and scores) that is
    the quotient of the two conversions. *)
Definition py_truediv (a b : Z) : Res float :=
  if b =? 0 then Raise ZeroDivisionError
  else Ok (float_of_Z a / float_of_Z b)%float.

(** [int(x)] on a float: truncation towards zero. *)
Definition py_int (x : float) : Res Z :=
  match Prim2SF x with
  | S754_nan => Raise ValueError
  | S754_infinity _ => Raise OverflowError
  | S754_zero _ => Ok 0
  | S754_finite s m e =>
      let a := match e with
               | Zneg k => Z.pos m / 2 ^ Z.pos k
               | _ => Z.pos m * 2 ^ e
               end in
      Ok (if s then - a else a)
  end.

(** [x > n] for a float [x] and an int [n]: Python compares the exact
    values, not the conversion of [n]. *)
Definition float_gt_int (x : float) (n : Z) : bool :=
  match Prim2SF x with
  | S754_nan => false
  | S754_infinity s => negb s
  | S754_zero _ => n <? 0
  | S754_finite s m e =>
      let v := if s then Z.neg m else Z.pos m in
      match e with
      | Zneg k => n * 2 ^ Z.pos k <? v
      | _ => n <? v * 2 ^ e
      end
  end.

(** ** Python strings (ASCII text) *)

Module PyStr.

Definition startswith (s p : string) : bool := String.prefix p s.

(** [needle in s] *)
Fixpoint contains (needle s : string) : bool :=
  String.prefix needle s ||
  match s with
  | EmptyString => false
  | String _ s' => contains needle s'
  end.

Definition is_digit (c : ascii) : bool :=
  let n := nat_of_ascii c in (48 <=? n)%nat && (n <=? 57)%nat.

Definition is_upper (c : ascii) : bool :=
  let n := nat_of_ascii c in (65 <=? n)%nat && (n <=? 90)%nat.

Definition is_lower (c : ascii) : bool :=
  let n := nat_of_ascii c in (97 <=? n)%nat && (n <=? 122)%nat.

Definition is_space (c : ascii) : bool :=
  let n := nat_of_ascii c in
  ((9 <=? n)%nat && (n <=? 13)%nat) || ((28 <=? n)%nat && (n <=? 32)%nat).

Fixpoint all_chars (p : ascii -> bool) (s : string) : bool :=
  match s with
  | EmptyString => true
  | String c s' => p c && all_chars p s'
  end.

(** [s.isdigit()] *)
Definition isdigit (s : string) : bool :=
  match s with
  | EmptyString => false
  | _ => all_chars is_digit s
  end.

(** The digits of a decimal literal: single underscores may stand between
    two digits ([1_2] is 12), nowhere else. *)
Fixpoint digits_value (acc : Z) (after_digit : bool) (s : string) : Res Z :=
  match s with
  | EmptyString => if after_digit then Ok acc else Raise ValueError
  | String c s' =>
      if is_digit c
      then digits_value (10 * acc + (Z.of_nat (nat_of_ascii c) - 48)) true s'
      else if Ascii.eqb c "_" && after_digit then digits_value acc false s'
      else Raise ValueError
  end.

Fixpoint count_chars (p : ascii -> bool) (s : string) : nat :=
  match s with
  | EmptyString => O
  | String c s' => if p c then S (count_chars p s') else count_chars p s'
  end.

(** [sys.get_int_max_str_digits()], the default. *)
Definition MAX_STR_DIGITS : nat := 4300.

Definition unsigned (s : string) : Res Z :=
  if (MAX_STR_DIGITS <? count_chars is_digit s)%nat then Raise ValueError
  else digits_value 0 false s.

(** [str(n)] *)
Definition str (n : Z) : string := pretty n.

Fixpoint replace_from (old new s : string) (skip : nat) : string :=
  match s with
  | EmptyString => EmptyString
  | String c s' =>
      match skip with
      | S k => replace_from old new s' k
      | O =>
          if String.prefix old s
          then new +:+ replace_from old new s' (String.length old - 1)
          else String c (replace_from old new s' O)
      end
  end.

(** [s.replace(old, new)] for a non-empty [old]. *)
Definition replace (s old new : string) : string :=
  match old with
  | EmptyString => s
  | _ => replace_from old new s O
  end.

(** [s.split(sep)] for a one-character separator. *)
Fixpoint split (sep : ascii) (s : string) : list string :=
  match s with
  | EmptyString => [EmptyString]
  | String c s' =>
      if Ascii.eqb c sep then EmptyString :: split sep s'
      else match split sep s' with
           | h :: t => String c h :: t
           | [] => [String c EmptyString]
           end
  end.

Fixpoint lstrip (s : string) : string :=
  match s with
  | String c s' => if is_space c then lstrip s' else s
  | EmptyString => EmptyString
  end.

Fixpoint rstrip (s : string) : string :=
  match s with
  | EmptyString => EmptyString
  | String c s' =>
      match rstrip s' with
      | EmptyString => if is_space c then EmptyString else String c EmptyString
      | r => String c r
      end
  end.

(** [s.strip()] *)
Definition strip (s : string) : string := rstrip (lstrip s).

Definition to_upper (c : ascii) : ascii :=
  if is_lower c then ascii_of_nat (nat_of_ascii c - 32) else c.

Definition to_lower (c : ascii) : ascii :=
  if is_upper c then ascii_of_nat (nat_of_ascii c + 32) else c.

Fixpoint map_chars (f : ascii -> ascii) (s : string) : string :=
  match s with
  | EmptyString => EmptyString
  | String c s' => String (f c) (map_chars f s')
  end.

(** [int(s)]: a decimal literal of ASCII digits, with single underscores
    between digits, blanks around it and a sign; a literal of more than
    4300 digits is refused like a malformed one. *)
Definition int (s : string) : Res Z :=
  match strip s with
  | String "+" d => unsigned d
  | String "-" d => match unsigned d with Ok n => Ok (- n) | Raise e => Raise e end
  | d => unsigned d
  end.

(** [s.upper()] *)
Definition upper (s : string) : string := map_chars to_upper s.

Fixpoint title_from (in_word : bool) (s : string) : string :=
  match s with
  | EmptyString => EmptyString
  | String c s' =>
      let cased := is_upper c || is_lower c in
      String (if in_word then to_lower c else to_upper c) (title_from cased s')
  end.

(** [s.title()] *)
Definition title (s : string) : string := title_from false s.

Fixpoint span (p : ascii -> bool) (s : string) : string * string :=
  match s with
  | String c s' =>
      if p c then let '(a, b) := span p s' in (String c a, b)
      else (EmptyString, s)
  | EmptyString => (EmptyString, EmptyString)
  end.

Definition strip_prefix (p s : string) : option string :=
  if String.prefix p s
  then Some (String.substring (String.length p) (String.length s - String.length p) s)
  else None.

(** One match of [([A-Z]+)_G([0-9]+)_U([0-9]+)] at the start of [s]: the
    three groups and the length of the match.  The three runs are
    followed by a character outside their class, so the greedy match is
    the only one. *)
Definition match_unit_id (s : string) : option (string * string * string * nat) :=
  let '(code, r1) := span is_upper s in
  match code with
  | EmptyString => None
  | _ =>
      match strip_prefix "_G" r1 with
      | None => None
      | Some r2 =>
          let '(g, r3) := span is_digit r2 in
          match g with
          | EmptyString => None
          | _ =>
              match strip_prefix "_U" r3 with
              | None => None
              | Some r4 =>
                  let '(u, _) := span is_digit r4 in
                  match u with
                  | EmptyString => None
                  | _ => Some (code, g, u,
                               (String.length code + 2 + String.length g + 2
                                + String.length u)%nat)
                  end
              end
          end
      end
  end.

Fixpoint findall_unit_ids_from (s : string) (skip : nat)
  : list (string * string * string) :=
  match s with
  | EmptyString => []
  | String _ s' =>
      match skip with
      | S k => findall_unit_ids_from s' k
      | O =>
          match match_unit_id s with
          | Some (code, g, u, n) => (code, g, u) :: findall_unit_ids_from s' (n - 1)
          | None => findall_unit_ids_from s' O
          end
      end
  end.

(** [re.findall(r'([A-Z]+)_G([0-9]+)_U([0-9]+)', s)] *)
Definition findall_unit_ids (s : string) : list (string * string * string) :=
  findall_unit_ids_from s O.

End PyStr.

(** ** Data model (database/models.py)

    Each table row is a record in a module of its own, so that the columns
    keep their names.  A timestamp ([datetime]) is a number of microseconds. *)

Module User.
Record t := mk {
  id : Z;
  telegram_id : Z;
  current_grade : Z;
  streak_count : Z;
  last_activity : Z;
  total_xp : Z
}.
Definition set_streak (streak : Z) (now : Z) (u : t) : t :=
  mk (id u) (telegram_id u) (current_grade u) streak now (total_xp u).
Definition set_total_xp (xp : Z) (u : t) : t :=
  mk (id u) (telegram_id u) (current_grade u) (streak_count u) (last_activity u) xp.
End User.

(** A question as the question bank supplies it.  [answer] is the
    alternative key the game handler falls back to. *)
Module Question.
Record t := mk {
  question_id : string;
  correct_answer : string;
  answer : option string;
  explanation : option string;
  source_unit : option string
}.
End Question.

Module HistoryEntry.
Record t := mk {
  q_id : string;
  selected : option string;
  correct : string;
  is_correct : bool
}.
End HistoryEntry.

(** The JSON object kept in [sessions.quiz_state].  The keys every start
    function writes are plain fields; [mode], [last_feedback], [start_time]
    and [duration] are written by the game starts only.  The key [unit] is
    [unit_name] here. *)
Module QuizState.
Record t := mk {
  mode : option string;
  subject : string;
  grade : string;
  unit_name : string;
  unit_id : string;
  questions : list Question.t;
  current_index : Z;
  score : Z;
  history : list HistoryEntry.t;
  last_feedback : option string;
  start_time : option float;
  duration : option Z
}.
Definition set_current_index (i : Z) (q : t) : t :=
  mk (mode q) (subject q) (grade q) (unit_name q) (unit_id q) (questions q)
     i (score q) (history q) (last_feedback q) (start_time q) (duration q).
Definition set_score (s : Z) (q : t) : t :=
  mk (mode q) (subject q) (grade q) (unit_name q) (unit_id q) (questions q)
     (current_index q) s (history q) (last_feedback q) (start_time q) (duration q).
Definition set_history (h : list HistoryEntry.t) (q : t) : t :=
  mk (mode q) (subject q) (grade q) (unit_name q) (unit_id q) (questions q)
     (current_index q) (score q) h (last_feedback q) (start_time q) (duration q).
Definition set_last_feedback (f : string) (q : t) : t :=
  mk (mode q) (subject q) (grade q) (unit_name q) (unit_id q) (questions q)
     (current_index q) (score q) (history q) (Some f) (start_time q) (duration q).
End QuizState.

Module Progress.
Record t := mk {
  user_id : Z;
  subject : string;
  grade : Z;
  unit_id : string;
  current_phase : string;
  baseline_accuracy : float;
  balanced_accuracy : float;
  exam_accuracy : float;
  questions_attempted : Z;
  questions_correct : Z;
  completion_percent : float;
  unlocked_balanced : bool;
  unlocked_exam : bool
}.
Definition set_current_phase (ph : string) (p : t) : t :=
  mk (user_id p) (subject p) (grade p) (unit_id p) ph
     (baseline_accuracy p) (balanced_accuracy p) (exam_accuracy p)
     (questions_attempted p) (questions_correct p) (completion_percent p)
     (unlocked_balanced p) (unlocked_exam p).
Definition set_baseline_accuracy (a : float) (p : t) : t :=
  mk (user_id p) (subject p) (grade p) (unit_id p) (current_phase p)
     a (balanced_accuracy p) (exam_accuracy p)
     (questions_attempted p) (questions_correct p) (completion_percent p)
     (unlocked_balanced p) (unlocked_exam p).
Definition set_balanced_accuracy (a : float) (p : t) : t :=
  mk (user_id p) (subject p) (grade p) (unit_id p) (current_phase p)
     (baseline_accuracy p) a (exam_accuracy p)
     (questions_attempted p) (questions_correct p) (completion_percent p)
     (unlocked_balanced p) (unlocked_exam p).
Definition set_exam_accuracy (a : float) (p : t) : t :=
  mk (user_id p) (subject p) (grade p) (unit_id p) (current_phase p)
     (baseline_accuracy p) (balanced_accuracy p) a
     (questions_attempted p) (questions_correct p) (completion_percent p)
     (unlocked_balanced p) (unlocked_exam p).
Definition set_unlocked_balanced (b : bool) (p : t) : t :=
  mk (user_id p) (subject p) (grade p) (unit_id p) (current_phase p)
     (baseline_accuracy p) (balanced_accuracy p) (exam_accuracy p)
     (questions_attempted p) (questions_correct p) (completion_percent p)
     b (unlocked_exam p).
Definition set_unlocked_exam (b : bool) (p : t) : t :=
  mk (user_id p) (subject p) (grade p) (unit_id p) (current_phase p)
     (baseline_accuracy p) (balanced_accuracy p) (exam_accuracy p)
     (questions_attempted p) (questions_correct p) (completion_percent p)
     (unlocked_balanced p) b.
Definition set_counts (attempted correct : Z) (p : t) : t :=
  mk (user_id p) (subject p) (grade p) (unit_id p) (current_phase p)
     (baseline_accuracy p) (balanced_accuracy p) (exam_accuracy p)
     attempted correct (completion_percent p)
     (unlocked_balanced p) (unlocked_exam p).
Definition set_completion_percent (c : float) (p : t) : t :=
  mk (user_id p) (subject p) (grade p) (unit_id p) (current_phase p)
     (baseline_accuracy p) (balanced_accuracy p) (exam_accuracy p)
     (questions_attempted p) (questions_correct p) c
     (unlocked_balanced p) (unlocked_exam p).
End Progress.

(** [navigation_stack] is the decoded JSON array: the top of the stack is
    the last element. *)
Module Session.
Record t := mk {
  current_screen : string;
  current_param : option string;
  navigation_stack : list (string * option string);
  last_message_id : option Z;
  quiz_state : option QuizState.t
}.
Definition top (s : t) : option (string * option string) :=
  last (navigation_stack s).
Definition current (s : t) : string * option string :=
  (current_screen s, current_param s).
End Session.

Module ReviewQueue.
Record t := mk {
  user_id : Z;
  subject : string;
  grade : Z;
  unit_name : string;
  question_id : string;
  status : string;
  added_at : Z
}.
Definition touch (status' : string) (now : Z) (r : t) : t :=
  mk (user_id r) (subject r) (grade r) (unit_name r) (question_id r) status' now.
End ReviewQueue.

Module SystemLock.
Record t := mk {
  lock_type : string;
  lock_target : string;
  is_locked : bool
}.
End SystemLock.

Module DB.
Record t := mk {
  users : list User.t;
  progress : list Progress.t;
  sessions : gmap Z Session.t;
  review_queue : list ReviewQueue.t;
  system_locks : list SystemLock.t
}.
Definition set_users (v : list User.t) (d : t) : t :=
  mk v (progress d) (sessions d) (review_queue d) (system_locks d).
Definition set_progress (v : list Progress.t) (d : t) : t :=
  mk (users d) v (sessions d) (review_queue d) (system_locks d).
Definition set_sessions (v : gmap Z Session.t) (d : t) : t :=
  mk (users d) (progress d) v (review_queue d) (system_locks d).
Definition set_review_queue (v : list ReviewQueue.t) (d : t) : t :=
  mk (users d) (progress d) (sessions d) v (system_locks d).
Definition empty : t := mk [] [] ∅ [] [].
End DB.

(** What one handler invocation reads from the outside world. *)
Record Env := {
  utcnow : Z;                 (* datetime.utcnow() *)
  time_time : float;          (* time.time(), first reading of the handler *)
  time_present : float;       (* time.time() in present_game_question *)
  render_result : option Z    (* message id from render_screen; None: nothing changed *)
}.

(** ** The handler monad: database state and exceptions

    Every crud function commits on its own, so what was written before an
    exception stays written. *)

Definition M (A : Type) : Type := DB.t -> Res A * DB.t.

Definition ret {A} (a : A) : M A := fun db => (Ok a, db).
Definition raise {A} (e : Exn) : M A := fun db => (Raise e, db).
Definition lift {A} (r : Res A) : M A := fun db => (r, db).
Definition bind {A B} (m : M A) (k : A -> M B) : M B :=
  fun db =>
    match m db with
    | (Ok a, db') => k a db'
    | (Raise e, db') => (Raise e, db')
    end.

Notation "x <- m ;; k" := (bind m (fun x => k))
  (at level 100, m at next level, right associativity).
Notation "'run' m ;; k" := (bind m (fun _ => k))
  (at level 100, m at next level, right associativity).

(** First row that satisfies [p], as [query.filter(p).first()]. *)
Definition first {A} (p : A -> bool) (rows : list A) : option A := find p rows.

(** Writing back the row [first] returned. *)
Fixpoint update_first {A} (p : A -> bool) (f : A -> A) (rows : list A) : list A :=
  match rows with
  | [] => []
  | r :: rows' => if p r then f r :: rows' else r :: update_first p f rows'
  end.

Definition str_eqb (a b : string) : bool := bool_decide (a = b).

(** ** database/crud.py *)

Definition PHASE_UNLOCK_THRESHOLD : float := 80%float.

Definition hours (n : Z) : Z := n * 3600 * 1000000.

Definition has_telegram_id (telegram_id : Z) (u : User.t) : bool :=
  User.telegram_id u =? telegram_id.

Definition has_id (user_id : Z) (u : User.t) : bool := User.id u =? user_id.

Definition next_id (rows : list User.t) : Z :=
  1 + fold_right Z.max 0 (map User.id rows).

(** Handlers call it with [username=None] and [full_name="User"]: an
    existing row is returned as it is. *)
Definition get_or_create_user (now : Z) (telegram_id : Z) : M User.t :=
  fun db =>
    match first (has_telegram_id telegram_id) (DB.users db) with
    | Some user => (Ok user, db)
    | None =>
        let user := User.mk (next_id (DB.users db)) telegram_id 9 0 now 0 in
        (Ok user, DB.set_users (DB.users db ++ [user]) db)
    end.

Definition streak_step (now : Z) (user : User.t) : User.t :=
  let time_diff := now - User.last_activity user in
  if time_diff <? hours 24 then User.set_streak (User.streak_count user) now user
  else if (hours 24 <=? time_diff) && (time_diff <? hours 48)
       then User.set_streak (User.streak_count user + 1) now user
       else User.set_streak 1 now user.

Definition update_user_streak (now : Z) (user_id : Z) : M Z :=
  fun db =>
    match first (has_id user_id) (DB.users db) with
    | None => (Ok 0, db)
    | Some user =>
        (Ok (User.streak_count (streak_step now user)),
         DB.set_users (update_first (has_id user_id) (streak_step now) (DB.users db)) db)
    end.

(** The integer columns are 64-bit: a commit that writes 2^63 or more
    raises [OverflowError] and stores nothing. *)
Definition SQLITE_INT_LIMIT : Z := 2 ^ 63.

(** [n / 100] on an integer: the quotient is rounded to the nearest float,
    and [OverflowError] is raised when that is beyond the largest one, that
    is from [100 * (2^1024 - 2^970)] on in absolute value. *)
Definition TRUEDIV_100_LIMIT : Z := 100 * (2 ^ 1024 - 2 ^ 970).

(** [add_xp] also keeps [weekly_xp] and [level]; nothing modelled here
    reads them, and they are not columns of [User.t] ([weekly_xp] gets the
    amounts [total_xp] gets, from zero at each weekly reset, and [level] is
    far below [total_xp]).  The level is [int((total_xp / 100) ** 0.5) + 1]:
    the division raises [OverflowError] on a huge total; on a negative total
    the power is a complex number and [int] raises [TypeError]; both come
    before the commit, which raises [OverflowError] from 2^63 on. *)
Definition add_xp (user_id : Z) (xp_amount : Z) : M Z :=
  fun db =>
    match first (has_id user_id) (DB.users db) with
    | None => (Ok 0, db)
    | Some user =>
        let total_xp := User.total_xp user + xp_amount in
        if TRUEDIV_100_LIMIT <=? Z.abs total_xp then (Raise OverflowError, db)
        else if total_xp <? 0 then (Raise TypeError, db)
        else if SQLITE_INT_LIMIT <=? total_xp then (Raise OverflowError, db)
        else
          let grant := fun u => User.set_total_xp (User.total_xp u + xp_amount) u in
          (Ok total_xp, DB.set_users (update_first (has_id user_id) grant (DB.users db)) db)
    end.

Definition is_progress (user_id : Z) (unit_id : string) (p : Progress.t) : bool :=
  (Progress.user_id p =? user_id) && str_eqb (Progress.unit_id p) unit_id.

(** A fresh row with the column defaults. *)
Definition new_progress (user_id : Z) (unit_id subject : string) (grade : Z) : Progress.t :=
  Progress.mk user_id subject grade unit_id "BASELINE"
              0%float 0%float 0%float 0 0 0%float false false.

(** Lines 180-198 of crud.py: the phase's accuracy, the unlock flag of the
    next phase, then the current phase as the highest unlocked one. *)
Definition set_phase_accuracy (phase : string) (accuracy : float) (p : Progress.t) : Progress.t :=
  if str_eqb phase "BASELINE" then
    let p := Progress.set_baseline_accuracy accuracy p in
    if (PHASE_UNLOCK_THRESHOLD <=? accuracy)%float
    then Progress.set_unlocked_balanced true p else p
  else if str_eqb phase "BALANCED" then
    let p := Progress.set_balanced_accuracy accuracy p in
    if (PHASE_UNLOCK_THRESHOLD <=? accuracy)%float
    then Progress.set_unlocked_exam true p else p
  else if str_eqb phase "EXAM_BIASED" then
    Progress.set_exam_accuracy accuracy p
  else p.

Definition highest_unlocked (p : Progress.t) : string :=
  if Progress.unlocked_exam p then "EXAM_BIASED"
  else if Progress.unlocked_balanced p then "BALANCED"
  else "BASELINE".

Definition phase_step (phase : string) (accuracy : float) (p : Progress.t) : Progress.t :=
  let p := set_phase_accuracy phase accuracy p in
  Progress.set_current_phase (highest_unlocked p) p.

Definition update_phase_progress (user_id : Z) (unit_id subject : string) (grade : Z)
    (phase : string) (accuracy : float) : M Progress.t :=
  fun db =>
    match first (is_progress user_id unit_id) (DB.progress db) with
    | Some progress =>
        (Ok (phase_step phase accuracy progress),
         DB.set_progress
           (update_first (is_progress user_id unit_id) (phase_step phase accuracy)
                         (DB.progress db)) db)
    | None =>
        let progress := phase_step phase accuracy (new_progress user_id unit_id subject grade) in
        (Ok progress, DB.set_progress (DB.progress db ++ [progress]) db)
    end.

Definition attempt_step (correct : bool) (p : Progress.t) : Res Progress.t :=
  let attempted := Progress.questions_attempted p + 1 in
  let right := if correct then Progress.questions_correct p + 1
               else Progress.questions_correct p in
  let p := Progress.set_counts attempted right p in
  if 0 <? attempted then
    match py_truediv right attempted with
    | Ok ratio => Ok (Progress.set_completion_percent (ratio * 100)%float p)
    | Raise e => Raise e
    end
  else Ok p.

Definition record_quiz_attempt (user_id : Z) (unit_id subject : string) (grade : Z)
    (correct : bool) : M Progress.t :=
  fun db =>
    match first (is_progress user_id unit_id) (DB.progress db) with
    | Some progress =>
        match attempt_step correct progress with
        | Ok p' =>
            (Ok p', DB.set_progress
                      (update_first (is_progress user_id unit_id) (fun _ => p')
                                    (DB.progress db)) db)
        | Raise e => (Raise e, db)
        end
    | None =>
        match attempt_step correct (new_progress user_id unit_id subject grade) with
        | Ok p' => (Ok p', DB.set_progress (DB.progress db ++ [p']) db)
        | Raise e => (Raise e, db)
        end
    end.

Definition new_session : Session.t := Session.mk "SCR_WELCOME" None [] None None.

Definition get_or_create_session (user_id : Z) : M Session.t :=
  fun db =>
    match DB.sessions db !! user_id with
    | Some session => (Ok session, db)
    | None => (Ok new_session,
               DB.set_sessions (<[user_id := new_session]> (DB.sessions db)) db)
    end.

(** [if screen:] *)
Definition truthy (s : option string) : option string :=
  match s with
  | Some EmptyString => None
  | _ => s
  end.

(** Lines 305-312: the previous (screen, param) is appended and the list
    cut to its last ten entries. *)
Definition push_previous (session : Session.t) : list (string * option string) :=
  let nav_stack := Session.navigation_stack session
                   ++ [(Session.current_screen session, Session.current_param session)] in
  if (10 <? length nav_stack)%nat then py_last_n 10 nav_stack else nav_stack.

Definition session_step (screen current_param : option string) (message_id : option Z)
    (quiz_state : option QuizState.t) (add_to_nav_stack : bool) (session : Session.t)
    : Session.t :=
  let session :=
    match truthy screen with
    | Some scr =>
        let nav_stack :=
          if add_to_nav_stack && negb (str_eqb (Session.current_screen session) scr)
          then push_previous session
          else Session.navigation_stack session in
        Session.mk scr current_param nav_stack
                   (Session.last_message_id session) (Session.quiz_state session)
    | None => session
    end in
  let session :=
    match message_id with
    | Some _ => Session.mk (Session.current_screen session) (Session.current_param session)
                           (Session.navigation_stack session) message_id
                           (Session.quiz_state session)
    | None => session
    end in
  match quiz_state with
  | Some _ => Session.mk (Session.current_screen session) (Session.current_param session)
                         (Session.navigation_stack session) (Session.last_message_id session)
                         quiz_state
  | None => session
  end.

(** A row that [SessionModel(user_id=...)] made has no column value before
    the commit: decoding its navigation stack raises, and the insert fills
    the defaults. *)
Definition update_session_state (user_id : Z) (screen current_param : option string)
    (message_id : option Z) (quiz_state : option QuizState.t) (add_to_nav_stack : bool)
    : M Session.t :=
  fun db =>
    match DB.sessions db !! user_id with
    | Some session =>
        let session' := session_step screen current_param message_id quiz_state
                                     add_to_nav_stack session in
        (Ok session', DB.set_sessions (<[user_id := session']> (DB.sessions db)) db)
    | None =>
        match truthy screen with
        | Some scr =>
            if add_to_nav_stack then (Raise TypeError, db)
            else
              let session' := Session.mk scr current_param [] message_id quiz_state in
              (Ok session', DB.set_sessions (<[user_id := session']> (DB.sessions db)) db)
        | None =>
            let session' := Session.mk "SCR_HUB" None [] message_id quiz_state in
            (Ok session', DB.set_sessions (<[user_id := session']> (DB.sessions db)) db)
        end
    end.

Definition pop_navigation_stack (user_id : Z) : M (option (string * option string)) :=
  fun db =>
    match DB.sessions db !! user_id with
    | None => (Ok None, db)
    | Some session =>
        match last (Session.navigation_stack session) with
        | None => (Ok None, db)
        | Some (previous_screen, previous_param) =>
            let session' :=
              Session.mk previous_screen previous_param
                         (removelast (Session.navigation_stack session))
                         (Session.last_message_id session) (Session.quiz_state session) in
            (Ok (Some (previous_screen, previous_param)),
             DB.set_sessions (<[user_id := session']> (DB.sessions db)) db)
        end
    end.

Definition is_review (user_id : Z) (question_id : string) (r : ReviewQueue.t) : bool :=
  (ReviewQueue.user_id r =? user_id) && str_eqb (ReviewQueue.question_id r) question_id.

Definition add_to_review_queue (now : Z) (user_id : Z) (question_id status subject : string)
    (grade : Z) (unit_name : string) : M ReviewQueue.t :=
  fun db =>
    match first (is_review user_id question_id) (DB.review_queue db) with
    | Some existing =>
        (Ok (ReviewQueue.touch status now existing),
         DB.set_review_queue
           (update_first (is_review user_id question_id) (ReviewQueue.touch status now)
                         (DB.review_queue db)) db)
    | None =>
        let item := ReviewQueue.mk user_id subject grade unit_name question_id status now in
        (Ok item, DB.set_review_queue (DB.review_queue db ++ [item]) db)
    end.

Definition remove_from_review_queue (user_id : Z) (question_id : string) : M unit :=
  fun db =>
    (Ok tt,
     DB.set_review_queue
       (List.filter (fun r => negb (is_review user_id question_id r)) (DB.review_queue db)) db).

(** ** handlers/navigation.py

    The renderer and the transport are collaborators: a handler's result is
    the screen it asked them to show ([None]: it returned before asking),
    and [render_result] is what they answered. *)

Inductive View : Type :=
| Nav (screen_id : string) (param : option string)
| QuizPres (target_screen : string) (curr_index total_count : Z) (question : Question.t)
| QuizFb (is_correct : bool) (correct_option_letter : string)
| QuizSum (target_screen : string)
          (correct_count incorrect_count skipped_count accuracy_percentage xp_reward : Z)
          (curr_phase : string)
| GamePres (question : Question.t)
| GameSum (reason : string) (score xp_earned : Z).

Definition navigate_to (env : Env) (telegram_id : Z) (screen_id : string)
    (param : option string) (add_to_stack : bool) : M (option View) :=
  user <- get_or_create_user (utcnow env) telegram_id ;;
  run get_or_create_session (User.id user) ;;
  match render_result env with
  | None => ret (Some (Nav screen_id param))
  | Some message_id =>
      run update_session_state (User.id user) (Some screen_id) param (Some message_id)
                               None add_to_stack ;;
      ret (Some (Nav screen_id param))
  end.

(** The assignment [session.navigation_stack = "[]"] is made on an object
    that no database session tracks any more: it is never written. *)
Definition go_home (env : Env) (telegram_id : Z) : M (option View) :=
  user <- get_or_create_user (utcnow env) telegram_id ;;
  run get_or_create_session (User.id user) ;;
  run update_session_state (User.id user) (Some "SCR_HUB") None None None false ;;
  navigate_to env telegram_id "SCR_HUB" None false.

Definition go_back (env : Env) (telegram_id : Z) : M (option View) :=
  user <- get_or_create_user (utcnow env) telegram_id ;;
  previous <- pop_navigation_stack (User.id user) ;;
  match previous with
  | Some (previous_screen, previous_param) =>
      navigate_to env telegram_id previous_screen previous_param false
  | None => go_home env telegram_id
  end.

(** ** handlers/game_handler.py *)

(** [if msg: update_session_state(user.id, message_id=msg.message_id)] *)
Definition save_message_id (env : Env) (user_id : Z) : M unit :=
  match render_result env with
  | Some message_id =>
      run update_session_state user_id None None (Some message_id) None false ;;
      ret tt
  | None => ret tt
  end.

(** [d[key]] on a key that only some states carry. *)
Definition key {A} (v : option A) : M A :=
  match v with
  | Some a => ret a
  | None => raise KeyError
  end.

Definition mode_is (quiz_state : QuizState.t) (m : string) : bool :=
  bool_decide (QuizState.mode quiz_state = Some m).

Definition xp_per_correct (mode : string) : Z :=
  if str_eqb mode "SURVIVAL" then 20 else 15.

Definition show_game_summary (env : Env) (telegram_id : Z) (reason : string)
    : M (option View) :=
  user <- get_or_create_user (utcnow env) telegram_id ;;
  session <- get_or_create_session (User.id user) ;;
  match Session.quiz_state session with
  | None => ret None
  | Some state =>
      mode <- key (QuizState.mode state) ;;
      let xp_earned := QuizState.score state * xp_per_correct mode in
      run save_message_id env (User.id user) ;;
      ret (Some (GameSum reason (QuizState.score state) xp_earned))
  end.

(** Of the header only what can raise is kept: the remaining time and its
    share of the duration. *)
Definition present_game_question (env : Env) (telegram_id : Z) : M (option View) :=
  user <- get_or_create_user (utcnow env) telegram_id ;;
  session <- get_or_create_session (User.id user) ;;
  match Session.quiz_state session with
  | None => ret None
  | Some state =>
      mode <- key (QuizState.mode state) ;;
      expired <-
        (if str_eqb mode "SPEEDRUN" then
           start_time <- key (QuizState.start_time state) ;;
           duration <- key (QuizState.duration state) ;;
           ret (float_gt_int (time_present env - start_time)%float duration)
         else ret false) ;;
      if expired : bool then show_game_summary env telegram_id "⏱️ Time's up!"
      else
        let idx := QuizState.current_index state in
        if Z.of_nat (length (QuizState.questions state)) <=? idx
        then show_game_summary env telegram_id "🏆 All Questions Completed!"
        else
          q <- lift (py_index (QuizState.questions state) idx) ;;
          run (if str_eqb mode "SPEEDRUN" then
                 start_time <- key (QuizState.start_time state) ;;
                 duration <- key (QuizState.duration state) ;;
                 remaining <- lift (py_int (float_of_Z duration
                                            - (time_present env - start_time))%float) ;;
                 run lift (py_truediv (Z.max remaining 0) duration) ;;
                 ret tt
               else ret tt) ;;
          run save_message_id env (User.id user) ;;
          ret (Some (GamePres q))
  end.

(** [q.get("correct_answer") or q.get("answer")] *)
Definition game_correct_opt (q : Question.t) : option string :=
  match Question.correct_answer q with
  | EmptyString => Question.answer q
  | c => Some c
  end.

(** [str(x)] for an optional string. *)
Definition str_opt (x : option string) : string :=
  match x with
  | Some s => s
  | None => "None"
  end.

Definition nl : string := String (ascii_of_nat 10) EmptyString.

Definition death_reason (correct_opt : option string) (q : Question.t) : string :=
  "💔 *Game Over!*" +:+ nl +:+ nl +:+ "Wrong Answer! Correct was *" +:+ str_opt correct_opt
  +:+ "*." +:+ nl +:+ nl +:+ "📖 __"
  +:+ PyStr.strip (default "No explanation available." (Question.explanation q)) +:+ "__".

Definition handle_game_answer (env : Env) (telegram_id : Z) (selected_opt : option string)
    : M (option View) :=
  user <- get_or_create_user (utcnow env) telegram_id ;;
  session <- get_or_create_session (User.id user) ;;
  match Session.quiz_state session with
  | None => ret None
  | Some state =>
      mode <- key (QuizState.mode state) ;;
      expired <-
        (if str_eqb mode "SPEEDRUN" then
           start_time <- key (QuizState.start_time state) ;;
           duration <- key (QuizState.duration state) ;;
           ret (float_gt_int (time_time env - start_time)%float (duration + 2))
         else ret false) ;;
      if expired : bool then show_game_summary env telegram_id "⏱️ Time's Up!"
      else
        q <- lift (py_index (QuizState.questions state) (QuizState.current_index state)) ;;
        let correct_opt := game_correct_opt q in
        let is_correct := bool_decide (selected_opt = correct_opt) in
        if is_correct then
          let state := QuizState.set_score (QuizState.score state + 1) state in
          let state := QuizState.set_last_feedback "✅" state in
          run add_xp (User.id user) (xp_per_correct mode) ;;
          let state := QuizState.set_current_index (QuizState.current_index state + 1) state in
          if Z.of_nat (length (QuizState.questions state)) <=? QuizState.current_index state
          then show_game_summary env telegram_id "🏆 All Questions Completed!"
          else
            run update_session_state (User.id user) None None None (Some state) false ;;
            present_game_question env telegram_id
        else
          let state := QuizState.set_last_feedback "❌" state in
          if str_eqb mode "SURVIVAL"
          then show_game_summary env telegram_id (death_reason correct_opt q)
          else
            let state := QuizState.set_current_index (QuizState.current_index state + 1) state in
            if Z.of_nat (length (QuizState.questions state)) <=? QuizState.current_index state
            then
              reason <-
                (if str_eqb mode "CHALLENGE" then ret "🏁 Shared Practice Completed!"
                 else
                   duration <- key (QuizState.duration state) ;;
                   ret (if 300 <? duration then "🎓 Timed Assessment Completed!"
                        else "⚡ Fast-Paced Practice Completed!")) ;;
              show_game_summary env telegram_id reason
            else
              run update_session_state (User.id user) None None None (Some state) false ;;
              present_game_question env telegram_id
  end.

Definition subj_map_get (subject_code : string) : option string :=
  if str_eqb subject_code "BIO" then Some "Biology"
  else if str_eqb subject_code "CHEM" then Some "Chemistry"
  else if str_eqb subject_code "PHYS" then Some "Physics"
  else if str_eqb subject_code "MATH" then Some "Mathematics"
  else None.

(** [grade if grade else user.current_grade] *)
Definition active_grade (grade : option Z) (user : User.t) : Z :=
  match grade with
  | Some g => if g =? 0 then User.current_grade user else g
  | None => User.current_grade user
  end.

(** [questions] is what [_get_random_questions] returned: the question
    supply, the lock filter and the shuffle are collaborators. *)
Definition start_speedrun (env : Env) (telegram_id : Z) (duration_seconds : Z)
    (subject_code : option string) (grade : option Z) (questions : list Question.t)
    : M (option View) :=
  user <- get_or_create_user (utcnow env) telegram_id ;;
  let subject := subject_code ≫= subj_map_get in
  match questions with
  | [] => ret None
  | _ =>
      stamp <- lift (py_int (time_time env)) ;;
      let quiz_state :=
        QuizState.mk (Some "SPEEDRUN")
                     (default "Mixed Science" (truthy subject))
                     ("Grade " +:+ PyStr.str (active_grade grade user))
                     (if duration_seconds <=? 300 then "Sprint" else "Exam Mode")
                     ("SR_" +:+ PyStr.str duration_seconds +:+ "_" +:+ PyStr.str stamp)
                     questions 0 0 [] (Some "🎮")
                     (Some (time_time env)) (Some duration_seconds) in
      run update_session_state (User.id user) (Some "SCR_GAME_PRES") None None
                               (Some quiz_state) false ;;
      present_game_question env telegram_id
  end.

Definition start_survival (env : Env) (telegram_id : Z) (subject_code : string)
    (grade : option Z) (questions : list Question.t) : M (option View) :=
  user <- get_or_create_user (utcnow env) telegram_id ;;
  let subject := default subject_code (subj_map_get subject_code) in
  match questions with
  | [] => ret None
  | _ =>
      stamp <- lift (py_int (time_time env)) ;;
      let quiz_state :=
        QuizState.mk (Some "SURVIVAL") subject
                     ("Grade " +:+ PyStr.str (active_grade grade user))
                     "Survival Mode"
                     ("SURVIVAL_" +:+ subject_code +:+ "_" +:+ PyStr.str stamp)
                     questions 0 0 [] (Some "🎮") None None in
      run update_session_state (User.id user) (Some "SCR_GAME_PRES") None None
                               (Some quiz_state) false ;;
      present_game_question env telegram_id
  end.

(** [challenge] as [get_challenge] returns it, its question list decoded. *)
Definition start_challenge_session (env : Env) (telegram_id : Z) (challenge_id : string)
    (subject : option string) (grade : Z) (questions : list Question.t)
    : M (option View) :=
  user <- get_or_create_user (utcnow env) telegram_id ;;
  let quiz_state :=
    QuizState.mk (Some "CHALLENGE")
                 (default "Mixed Science" (truthy subject))
                 ("Grade " +:+ PyStr.str grade)
                 "Multiplayer Challenge" challenge_id
                 questions 0 0 [] (Some "🎮") None None in
  run update_session_state (User.id user) None None None (Some quiz_state) false ;;
  present_game_question env telegram_id.

(** ** handlers/quiz_handler.py *)

Definition res_bind {A B} (r : Res A) (k : A -> Res B) : Res B :=
  match r with
  | Ok a => k a
  | Raise e => Raise e
  end.

Definition space : ascii := ascii_of_nat 32.

(** [int(g.split(" ")[1]) if " " in g else int(g)], 9 when that raises
    (handle_answer_selection, lines 178-182). *)
Definition attempt_grade (grade : string) : Z :=
  match (if PyStr.contains " " grade
         then res_bind (py_index (PyStr.split space grade) 1) PyStr.int
         else PyStr.int grade) with
  | Ok g => g
  | Raise _ => 9
  end.

(** The [grade=] argument of the review queue calls (lines 206 and 287). *)
Definition review_grade (grade : string) : Res Z :=
  if PyStr.contains " " grade
  then res_bind (py_index (PyStr.split space grade) 1) PyStr.int
  else if PyStr.isdigit grade then PyStr.int grade
       else Ok 9.

(** The [grade=] argument of [update_phase_progress] (line 330). *)
Definition summary_grade (grade : string) : Res Z :=
  if PyStr.contains "Grade" grade
  then res_bind (py_index (PyStr.split space grade) 1) PyStr.int
  else Ok 9.

(** Lines 323-325: the phase this batch's accuracy stands for. *)
Definition derived_phase (accuracy : float) : string :=
  let curr_phase_str := "BASELINE" in
  let curr_phase_str := if (80 <=? accuracy)%float then "BALANCED" else curr_phase_str in
  if (95 <=? accuracy)%float then "EXAM_BIASED" else curr_phase_str.

Definition is_skip (h : HistoryEntry.t) : bool :=
  bool_decide (HistoryEntry.selected h = Some "SKIP").

Definition summary_screen (quiz_state : QuizState.t) : string :=
  if PyStr.contains "_REV_" (QuizState.unit_id quiz_state)
     || PyStr.contains "SMART" (QuizState.unit_id quiz_state)
  then "SCR_REVIEW_SUM"
  else if str_eqb (QuizState.unit_name quiz_state) "Random Quiz" then "SCR_RANDOM_SUM"
       else "SCR_QUIZ_SUM".

Definition show_quiz_summary (env : Env) (telegram_id : Z) : M (option View) :=
  user <- get_or_create_user (utcnow env) telegram_id ;;
  session <- get_or_create_session (User.id user) ;;
  match Session.quiz_state session with
  | None => ret None
  | Some quiz_state =>
      if mode_is quiz_state "CHALLENGE"
      then show_game_summary env telegram_id "🏁 Shared Practice Completed!"
      else
        let total := Z.of_nat (length (QuizState.questions quiz_state)) in
        ratio <- lift (py_truediv (QuizState.score quiz_state) total) ;;
        let accuracy := (ratio * 100)%float in
        let curr_phase_str := derived_phase accuracy in
        grade <- lift (summary_grade (QuizState.grade quiz_state)) ;;
        run update_phase_progress (User.id user) (QuizState.unit_id quiz_state)
                                  (QuizState.subject quiz_state) grade
                                  curr_phase_str accuracy ;;
        run update_user_streak (utcnow env) (User.id user) ;;
        let skipped := Z.of_nat (length (List.filter is_skip (QuizState.history quiz_state))) in
        tenths <- lift (py_int (accuracy / 10)%float) ;;
        let xp_gained := tenths * 10 in
        percentage <- lift (py_int accuracy) ;;
        ret (Some (QuizSum (summary_screen quiz_state)
                           (QuizState.score quiz_state)
                           (total - QuizState.score quiz_state - skipped)
                           skipped percentage xp_gained curr_phase_str))
  end.

Definition present_question (env : Env) (telegram_id : Z) : M (option View) :=
  user <- get_or_create_user (utcnow env) telegram_id ;;
  session <- get_or_create_session (User.id user) ;;
  match Session.quiz_state session with
  | None => navigate_to env telegram_id "SCR_HUB" None true
  | Some quiz_state =>
      let idx := QuizState.current_index quiz_state in
      let questions := QuizState.questions quiz_state in
      if Z.of_nat (length questions) <=? idx then show_quiz_summary env telegram_id
      else
        q <- lift (py_index questions idx) ;;
        let target_screen :=
          if mode_is quiz_state "CHALLENGE" then "SCR_GAME_PRES" else "SCR_QUIZ_PRES" in
        run save_message_id env (User.id user) ;;
        ret (Some (QuizPres target_screen (idx + 1) (Z.of_nat (length questions)) q))
  end.

Definition answer_entry (q : Question.t) (selected_opt : option string) (is_correct : bool)
    : HistoryEntry.t :=
  HistoryEntry.mk (Question.question_id q) selected_opt (Question.correct_answer q) is_correct.

Definition handle_answer_selection (env : Env) (telegram_id : Z)
    (selected_opt : option string) : M (option View) :=
  user <- get_or_create_user (utcnow env) telegram_id ;;
  session <- get_or_create_session (User.id user) ;;
  match Session.quiz_state session with
  | None => ret None
  | Some quiz_state =>
      if mode_is quiz_state "SPEEDRUN" || mode_is quiz_state "SURVIVAL"
      then handle_game_answer env telegram_id selected_opt
      else
        let idx := QuizState.current_index quiz_state in
        q <- lift (py_index (QuizState.questions quiz_state) idx) ;;
        let correct_opt := Question.correct_answer q in
        let is_correct := bool_decide (selected_opt = Some correct_opt) in
        run record_quiz_attempt (User.id user)
                                (default (QuizState.unit_id quiz_state) (Question.source_unit q))
                                (QuizState.subject quiz_state)
                                (attempt_grade (QuizState.grade quiz_state)) is_correct ;;
        quiz_state <-
          (if is_correct then
             run add_xp (User.id user) 10 ;;
             run remove_from_review_queue (User.id user) (Question.question_id q) ;;
             ret (QuizState.set_score (QuizState.score quiz_state + 1) quiz_state)
           else
             grade <- lift (review_grade (QuizState.grade quiz_state)) ;;
             run add_to_review_queue (utcnow env) (User.id user) (Question.question_id q)
                                     "MISTAKE" (QuizState.subject quiz_state) grade
                                     (default (QuizState.unit_name quiz_state)
                                              (Question.source_unit q)) ;;
             ret quiz_state) ;;
        let quiz_state :=
          QuizState.set_history
            (QuizState.history quiz_state ++ [answer_entry q selected_opt is_correct])
            quiz_state in
        run update_session_state (User.id user) None None None (Some quiz_state) false ;;
        run (if mode_is quiz_state "CHALLENGE" then
               let quiz_state :=
                 QuizState.set_last_feedback (if is_correct then "✅" else "❌") quiz_state in
               run update_session_state (User.id user) None None None (Some quiz_state) false ;;
               ret tt
             else ret tt) ;;
        run save_message_id env (User.id user) ;;
        ret (Some (QuizFb is_correct correct_opt))
  end.

Definition skip_entry (q : Question.t) : HistoryEntry.t :=
  HistoryEntry.mk (Question.question_id q) (Some "SKIP") (Question.correct_answer q) false.

Definition skip_question (env : Env) (telegram_id : Z) : M (option View) :=
  user <- get_or_create_user (utcnow env) telegram_id ;;
  session <- get_or_create_session (User.id user) ;;
  match Session.quiz_state session with
  | None => ret None
  | Some quiz_state =>
      let idx := QuizState.current_index quiz_state in
      if Z.of_nat (length (QuizState.questions quiz_state)) <=? idx
      then show_quiz_summary env telegram_id
      else
        q <- lift (py_index (QuizState.questions quiz_state) idx) ;;
        let quiz_state :=
          QuizState.set_history (QuizState.history quiz_state ++ [skip_entry q]) quiz_state in
        grade <- lift (review_grade (QuizState.grade quiz_state)) ;;
        run add_to_review_queue (utcnow env) (User.id user) (Question.question_id q)
                                "SKIPPED" (QuizState.subject quiz_state) grade
                                (QuizState.unit_name quiz_state) ;;
        let quiz_state := QuizState.set_current_index (idx + 1) quiz_state in
        run update_session_state (User.id user) None None None (Some quiz_state) false ;;
        present_question env telegram_id
  end.

Definition next_question (env : Env) (telegram_id : Z) : M (option View) :=
  user <- get_or_create_user (utcnow env) telegram_id ;;
  session <- get_or_create_session (User.id user) ;;
  match Session.quiz_state session with
  | None => ret None
  | Some quiz_state =>
      let quiz_state :=
        QuizState.set_current_index (QuizState.current_index quiz_state + 1) quiz_state in
      run update_session_state (User.id user) None None None (Some quiz_state) false ;;
      present_question env telegram_id
  end.

Definition replay_batch (env : Env) (telegram_id : Z) : M (option View) :=
  user <- get_or_create_user (utcnow env) telegram_id ;;
  session <- get_or_create_session (User.id user) ;;
  match Session.quiz_state session with
  | None => ret None
  | Some quiz_state =>
      let quiz_state :=
        QuizState.set_history []
          (QuizState.set_score 0 (QuizState.set_current_index 0 quiz_state)) in
      run update_session_state (User.id user) None None None (Some quiz_state) false ;;
      present_question env telegram_id
  end.

Definition set_source_unit (unit_name : string) (q : Question.t) : Question.t :=
  Question.mk (Question.question_id q) (Question.correct_answer q) (Question.answer q)
              (Question.explanation q) (Some unit_name).

(** [questions] is what [QuestionEngine.load_unit_questions] returned. *)
Definition start_quiz_session (env : Env) (telegram_id : Z) (subject_code grade unit_name : string)
    (questions : list Question.t) : M (option View) :=
  let subject := default subject_code (subj_map_get subject_code) in
  user <- get_or_create_user (utcnow env) telegram_id ;;
  run get_or_create_session (User.id user) ;;
  unit_num <- lift (if PyStr.contains " " unit_name
                    then py_index (PyStr.split space unit_name) 1 else Ok "1") ;;
  let unit_id := subject_code +:+ "_" +:+ PyStr.replace grade " " "" +:+ "_U" +:+ unit_num in
  match questions with
  | [] => ret None
  | _ =>
      let quiz_state :=
        QuizState.mk None subject grade unit_name unit_id
                     (map (set_source_unit unit_name) questions) 0 0 [] None None None in
      run update_session_state (User.id user) None None None (Some quiz_state) false ;;
      present_question env telegram_id
  end.

(** ** utils/lock_manager.py

    The lock check only reads the database.  A query can fail in the
    driver: [Faults] says which of the four queries of one evaluation
    raises, and what. *)

Notation "'let?' x := m 'in' k" := (res_bind m (fun x => k))
  (at level 10, x name, m at level 100, k at level 200).

Record Faults := {
  feature_query : option Exn;
  user_query : option Exn;
  subject_query : option Exn;
  unit_query : option Exn
}.

Definition no_faults : Faults := Build_Faults None None None None.

Definition query {A} (fault : option Exn) (rows : A) : Res A :=
  match fault with
  | Some e => Raise e
  | None => Ok rows
  end.

(** [needle in param]: [param] may be [None]. *)
Definition py_in (needle : string) (param : option string) : Res bool :=
  match param with
  | Some p => Ok (PyStr.contains needle p)
  | None => Raise TypeError
  end.

Definition one_of (names : list string) (s : option string) : bool :=
  match s with
  | Some x => existsb (str_eqb x) names
  | None => false
  end.

Definition feature_map_get (screen : option string) : option string :=
  if one_of ["SCR_GAMEMODE"; "SCR_SPEEDRUN_SETUP"; "SCR_SPEEDRUN_SUBJECTS";
             "SCR_SPEEDRUN_COUNTS"; "SCR_SURVIVAL_SETUP"; "SCR_GAME_PRES"] screen
  then Some "ADVANCED_PRACTICE"
  else if one_of ["SCR_REVIEW_HUB"] screen then Some "REVIEW_HUB"
  else if one_of ["SCR_PDF_VAULT"] screen then Some "PDFS_AND_FILES"
  else if one_of ["SCR_RANKING"] screen then Some "LEADERBOARD"
  else if one_of ["SCR_MULTIPLAYER_HUB"; "SCR_MP_SUBJ_SELECT"; "SCR_INVITES"] screen
  then Some "PRACTICE_WITH_FRIENDS"
  else if one_of ["SCR_AI_CHAT"] screen then Some "AI_TUTOR"
  else None.

Definition content_screens : list string :=
  ["SCR_UNITS"; "SCR_QUIZ_PRES"; "SCR_TOPIC_SELECTION"; "SCR_UNIT_START";
   "SCR_REVIEW_HUB"; "SCR_SPEEDRUN_SUBJECTS"; "SCR_SURVIVAL_SETUP";
   "SCR_PDF_VAULT"; "SCR_RANDOM_SETUP"].

Definition subj_codes : list string := ["BIO"; "CHEM"; "PHYS"; "MATH"].

(** [x in [9, 10, 11, 12]] *)
Definition is_grade (n : Z) : bool := (9 <=? n) && (n <=? 12).

Definition colon : ascii := ascii_of_nat 58.

(** [str(param).replace("|", ":").split(":")] *)
Definition param_parts (param : string) : list string :=
  PyStr.split colon (PyStr.replace param "|" ":").

(** Lines 87-91: the first part that is a grade once "Grade" and "G" are
    taken out. *)
Fixpoint first_grade_part (parts : list string) : Res (option string) :=
  match parts with
  | [] => Ok None
  | p :: parts' =>
      let clean_p := PyStr.strip (PyStr.replace (PyStr.replace p "Grade" "") "G" "") in
      if PyStr.isdigit clean_p then
        let? n := PyStr.int clean_p in
        if is_grade n then Ok (Some clean_p) else first_grade_part parts'
      else first_grade_part parts'
  end.

(** Lines 79-91. *)
Definition grade_from_param (param : option string) : Res (option string) :=
  match truthy param with
  | None => Ok None
  | Some p =>
      if PyStr.isdigit p then
        let? n := PyStr.int p in
        if is_grade n then Ok (Some p) else first_grade_part (param_parts p)
      else first_grade_part (param_parts p)
  end.

(** Lines 163-169. *)
Fixpoint unit_codes (parts : list string) (s_code g_code u_code : option string)
  : option string * option string * option string :=
  match parts with
  | [] => (s_code, g_code, u_code)
  | p :: parts' =>
      let p := PyStr.strip p in
      if existsb (str_eqb p) subj_codes then unit_codes parts' (Some p) g_code u_code
      else if PyStr.contains "G" p || PyStr.contains "Grad" p
      then unit_codes parts' s_code
                      (Some (PyStr.strip (PyStr.replace (PyStr.replace p "Grade" "") "G" "")))
                      u_code
      else if PyStr.contains "U" p || PyStr.contains "init" p
      then unit_codes parts' s_code g_code
                      (Some (PyStr.strip (PyStr.replace (PyStr.replace p "Unit" "") "U" "")))
      else unit_codes parts' s_code g_code u_code
  end.

(** Lines 148-173: the unit identifiers the parameter names. *)
Definition potential_unit_ids (param : string) : list string :=
  let potential_ids :=
    map (fun m => let '(code, g, u) := m in code +:+ "_G" +:+ g +:+ "_U" +:+ u)
        (PyStr.findall_unit_ids param) in
  match potential_ids with
  | [] =>
      if PyStr.contains ":" param || PyStr.contains "|" param then
        match unit_codes (param_parts param) None None None with
        | (Some s_code, Some g_code, Some u_code) =>
            match s_code, g_code, u_code with
            | EmptyString, _, _ | _, EmptyString, _ | _, _, EmptyString => []
            | _, _, _ => [s_code +:+ "_G" +:+ g_code +:+ "_U" +:+ u_code]
            end
        | _ => []
        end
      else []
  | _ => potential_ids
  end.

Definition active_lock (lock_type : string) (targets : list string) (l : SystemLock.t) : bool :=
  str_eqb (SystemLock.lock_type l) lock_type
  && existsb (str_eqb (SystemLock.lock_target l)) targets
  && SystemLock.is_locked l.

Section LockManager.

(** [config.ADMIN_IDS], read from the environment at start-up. *)
Variable ADMIN_IDS : list Z.

Definition is_admin (telegram_id : Z) : bool := existsb (Z.eqb telegram_id) ADMIN_IDS.

(** What a matched lock returns: a block, or for an administrator a
    pass with a bypass notice. *)
Definition locked_result (telegram_id : Z) (msg : string) : bool * string :=
  if is_admin telegram_id then (false, "🛡️ LOCKED (Admin Bypass): " +:+ msg)
  else (true, "🔒 " +:+ msg).

(** [a or (action == "ACT" and (k1 in param or k2 in param or ...))] *)
Definition screen_or_act (by_screen : bool) (action param : option string)
    (keys : list string) : Res bool :=
  if by_screen then Ok true
  else if bool_decide (action = Some "ACT") then
    (fix any (ks : list string) : Res bool :=
       match ks with
       | [] => Ok false
       | k :: ks' => let? found := py_in k param in
                     if found : bool then Ok true else any ks'
       end) keys
  else Ok false.

(** The body of the [try] (lines 26-186). *)
Definition lock_evaluation (faults : Faults) (db : DB.t) (telegram_id : Z)
    (action screen param : option string) : Res (bool * string) :=
  let locks := DB.system_locks db in
  (* feature locks *)
  let is_act := bool_decide (action = Some "ACT") in
  let mentions := fun k => match truthy param with
                           | Some p => PyStr.contains k p
                           | None => false
                           end in
  let target_feature := feature_map_get screen in
  let target_feature :=
    if is_act && mentions "SPEEDRUN" then Some "ADVANCED_PRACTICE" else target_feature in
  let target_feature :=
    if is_act && mentions "SURVIVAL" then Some "ADVANCED_PRACTICE" else target_feature in
  let target_feature :=
    if is_act && mentions "MP" then Some "PRACTICE_WITH_FRIENDS" else target_feature in
  let? feature_lock :=
    match target_feature with
    | Some feature =>
        let? lock := query (feature_query faults)
                           (first (active_lock "FEATURE" [feature]) locks) in
        Ok (match lock with
            | Some _ => Some (PyStr.title (PyStr.replace feature "_" " ")
                              +:+ " is currently locked.")
            | None => None
            end)
    | None => Ok None
    end in
  match feature_lock with
  | Some msg => Ok (locked_result telegram_id msg)
  | None =>
      (* the grade: from the parameter, else the user's *)
      let? grade_str := grade_from_param param in
      let? grade_str :=
        match grade_str with
        | Some _ => Ok grade_str
        | None =>
            let? wanted := screen_or_act (one_of content_screens screen) action param
                                         ["QUIZ"; "SPEEDRUN"; "SURVIVAL"] in
            if wanted : bool then
              let? u_obj := query (user_query faults)
                                  (first (fun u => User.id u =? telegram_id) (DB.users db)) in
              Ok (match u_obj with
                  | Some u => if User.current_grade u =? 0 then None
                              else Some (PyStr.str (User.current_grade u))
                  | None => None
                  end)
            else Ok None
        end in
      let? target_grade :=
        match grade_str with
        | Some g => let? n := PyStr.int g in Ok (Some n)
        | None => Ok None
        end in
      (* subject locks *)
      let target_subject_code :=
        match truthy param with
        | Some p => first (fun code => PyStr.contains code (PyStr.upper p)) subj_codes
        | None => None
        end in
      let? subject_lock :=
        match target_subject_code, target_grade with
        | Some code, Some grade =>
            if grade =? 0 then Ok None
            else
              let subj_name := default code (subj_map_get code) in
              let specific_target := subj_name +:+ ":" +:+ PyStr.str grade in
              let? lock := query (subject_query faults)
                                 (first (active_lock "SUBJECT" [specific_target]) locks) in
              Ok (match lock with
                  | Some _ => Some (subj_name +:+ " for Grade " +:+ PyStr.str grade
                                    +:+ " is locked.")
                  | None => None
                  end)
        | _, _ => Ok None
        end in
      match subject_lock with
      | Some msg => Ok (locked_result telegram_id msg)
      | None =>
          (* unit locks *)
          let? wanted :=
            screen_or_act (one_of ["SCR_QUIZ_PRES"; "SCR_PDF_VAULT"; "SCR_GAME_PRES"] screen)
                          action param ["QUIZ"; "FILE"; "SPEEDRUN"] in
          let potential_ids :=
            if wanted : bool then
              match truthy param with
              | Some p => potential_unit_ids p
              | None => []
              end
            else [] in
          match potential_ids with
          | [] => Ok (false, "")
          | _ =>
              let? unit_locks := query (unit_query faults)
                                       (List.filter (active_lock "UNIT" potential_ids) locks) in
              match unit_locks with
              | [] => Ok (false, "")
              | _ => Ok (locked_result telegram_id "This unit is currently locked.")
              end
          end
      end
  end.

(** [try: ... except Exception: return False, ""].  The test on the
    administrative screens comes before the [try]. *)
Definition is_content_locked (faults : Faults) (db : DB.t) (telegram_id : Z)
    (action screen param : option string) : Res (bool * string) :=
  match truthy screen with
  | Some scr =>
      if PyStr.startswith scr "SCR_LOCK_" || PyStr.startswith scr "SCR_ADMIN_"
      then Ok (false, "")
      else match lock_evaluation faults db telegram_id action screen param with
           | Ok r => Ok r
           | Raise _ => Ok (false, "")
           end
  | None =>
      match lock_evaluation faults db telegram_id action screen param with
      | Ok r => Ok r
      | Raise _ => Ok (false, "")
      end
  end.

End LockManager.


(** ** handlers/callback_router.py: the lock gate of route_callback

    Lines 65-78: a locked transition is answered with the reason and
    dropped; a bypass notice is shown and the action goes on; an exception
    of the check lets the action go on. *)

Inductive Gate : Type :=
| Blocked (reason : string)
| Proceed (notice : option string).

Definition lock_gate (ADMIN_IDS : list Z) (faults : Faults) (db : DB.t) (telegram_id : Z)
    (action screen param : option string) : Gate :=
  match is_content_locked ADMIN_IDS faults db telegram_id action screen param with
  | Ok (true, reason) => Blocked reason
  | Ok (false, reason) =>
      if PyStr.contains "Admin Bypass" reason then Proceed (Some reason) else Proceed None
  | Raise _ => Proceed None
  end.

(** ** What the theorems observe *)

(** The row [get_or_create_user] finds. *)
Definition user_of (telegram_id : Z) (db : DB.t) : option User.t :=
  first (has_telegram_id telegram_id) (DB.users db).

Definition session_of (telegram_id : Z) (db : DB.t) : option Session.t :=
  user ← user_of telegram_id db; DB.sessions db !! User.id user.

(** The quiz state the handlers of this user decode. *)
Definition stored_quiz_state (telegram_id : Z) (db : DB.t) : option QuizState.t :=
  session ← session_of telegram_id db; Session.quiz_state session.

(** The experience points of the row [add_xp] updates. *)
Definition xp_of (user_id : Z) (db : DB.t) : Z :=
  match first (has_id user_id) (DB.users db) with
  | Some u => User.total_xp u
  | None => 0
  end.

Definition xp_of_user (telegram_id : Z) (db : DB.t) : Z :=
  match user_of telegram_id db with
  | Some u => xp_of (User.id u) db
  | None => 0
  end.

Definition progress_of (user_id : Z) (unit_id : string) (db : DB.t) : option Progress.t :=
  first (is_progress user_id unit_id) (DB.progress db).

(** The review rows of one (user, question). *)
Definition review_rows (user_id : Z) (question_id : string) (db : DB.t) : list ReviewQueue.t :=
  List.filter (is_review user_id question_id) (DB.review_queue db).

Definition phase_rank (phase : string) : nat :=
  if str_eqb phase "EXAM_BIASED" then 2%nat
  else if str_eqb phase "BALANCED" then 1%nat
  else 0%nat.

(** A sequence of batch completions of one unit. *)
Record Batch := {
  batch_subject : string;
  batch_grade : Z;
  batch_phase : string;
  batch_accuracy : float
}.

Fixpoint complete_batches (user_id : Z) (unit_id : string) (batches : list Batch) (db : DB.t)
  : DB.t :=
  match batches with
  | [] => db
  | b :: batches' =>
      complete_batches user_id unit_id batches'
        (snd (update_phase_progress user_id unit_id (batch_subject b) (batch_grade b)
                                    (batch_phase b) (batch_accuracy b) db))
  end.

(** Navigation requests of one user, each with what the outside world
    answered. *)
Inductive NavOp : Type :=
| Transition (screen_id : string) (param : option string) (add_to_stack : bool)
| Back
| Home.

Definition nav_step (env : Env) (telegram_id : Z) (op : NavOp) : M (option View) :=
  match op with
  | Transition screen_id param add_to_stack =>
      navigate_to env telegram_id screen_id param add_to_stack
  | Back => go_back env telegram_id
  | Home => go_home env telegram_id
  end.

Fixpoint nav_run (telegram_id : Z) (ops : list (Env * NavOp)) (db : DB.t) : DB.t :=
  match ops with
  | [] => db
  | (env, op) :: ops' => nav_run telegram_id ops' (snd (nav_step env telegram_id op db))
  end.

Definition stack_bounded (db : DB.t) : Prop :=
  forall user_id session,
    DB.sessions db !! user_id = Some session ->
    (length (Session.navigation_stack session) <= 10)%nat.

(** Quiz requests of one user (ANS, ACT|QUIZ|LOAD_NEXT, ACT|QUIZ|SKIP). *)
Inductive QuizOp : Type :=
| Answer (selected_opt : option string)
| NextQuestion
| Skip.

Definition quiz_step (env : Env) (telegram_id : Z) (op : QuizOp) : M (option View) :=
  match op with
  | Answer selected_opt => handle_answer_selection env telegram_id selected_opt
  | NextQuestion => next_question env telegram_id
  | Skip => skip_question env telegram_id
  end.

Fixpoint quiz_run (telegram_id : Z) (ops : list (Env * QuizOp)) (db : DB.t) : DB.t :=
  match ops with
  | [] => db
  | (env, op) :: ops' => quiz_run telegram_id ops' (snd (quiz_step env telegram_id op db))
  end.

Definition is_game_mode (quiz_state : QuizState.t) : bool :=
  mode_is quiz_state "SPEEDRUN" || mode_is quiz_state "SURVIVAL".

(** The SPEEDRUN deadline test of [handle_game_answer] (lines 183-186);
    [None] when the state lacks a key the test reads. *)
Definition speedrun_expired (env : Env) (quiz_state : QuizState.t) : option bool :=
  if mode_is quiz_state "SPEEDRUN" then
    start_time ← QuizState.start_time quiz_state;
    duration ← QuizState.duration quiz_state;
    Some (float_gt_int (time_time env - start_time)%float (duration + 2))
  else Some false.

(** An answer counts as correct when the handler gets as far as comparing
    it with the current question's key and they agree. *)
Definition answered_correctly (env : Env) (quiz_state : QuizState.t)
    (selected_opt : option string) : bool :=
  match py_index (QuizState.questions quiz_state) (QuizState.current_index quiz_state) with
  | Ok q =>
      if is_game_mode quiz_state then
        match speedrun_expired env quiz_state with
        | Some false => bool_decide (selected_opt = game_correct_opt q)
        | _ => false
        end
      else bool_decide (selected_opt = Some (Question.correct_answer q))
  | Raise _ => false
  end.

Definition counts_as_correct (env : Env) (telegram_id : Z) (op : QuizOp) (db : DB.t) : bool :=
  match op, stored_quiz_state telegram_id db with
  | Answer selected_opt, Some quiz_state => answered_correctly env quiz_state selected_opt
  | _, _ => false
  end.

(** Number of correct answers in a run. *)
Fixpoint correct_answers (telegram_id : Z) (ops : list (Env * QuizOp)) (db : DB.t) : Z :=
  match ops with
  | [] => 0
  | (env, op) :: ops' =>
      (if counts_as_correct env telegram_id op db then 1 else 0)
      + correct_answers telegram_id ops' (snd (quiz_step env telegram_id op db))
  end.

(** Experience points per correct answer: 10 in [handle_answer_selection],
    15 or 20 in [handle_game_answer]. *)
Definition xp_rate (quiz_state : QuizState.t) : Z :=
  if mode_is quiz_state "SURVIVAL" then 20
  else if mode_is quiz_state "SPEEDRUN" then 15
  else 10.

(** ** Reasoning about handlers *)

(** [m] keeps [I] whatever it returns or raises. *)
Definition preserves {A} (I : DB.t -> Prop) (m : M A) : Prop :=
  forall db, I db -> I (snd (m db)).

(** [m] keeps [I], and what it returns satisfies [Q]. *)
Definition triple {A} (I : DB.t -> Prop) (m : M A) (Q : A -> Prop) : Prop :=
  forall db, I db -> I (snd (m db)) /\ forall a, fst (m db) = Ok a -> Q a.

(** The invariant of one user's handlers: the Telegram id has a row with
    this id, the row has a session whose quiz state satisfies [P], and the
    experience points of the row satisfy [X]. *)
Definition handler_inv (telegram_id user_id : Z) (P : QuizState.t -> Prop) (X : Z -> Prop)
    (db : DB.t) : Prop :=
  (exists user, user_of telegram_id db = Some user /\ User.id user = user_id)
  /\ (exists session state,
        DB.sessions db !! user_id = Some session
        /\ Session.quiz_state session = Some state
        /\ P state)
  /\ X (xp_of user_id db).

(** [P] does not look at the index, the score or the feedback glyph. *)
Definition stable (P : QuizState.t -> Prop) : Prop :=
  forall state, P state ->
    (forall i, P (QuizState.set_current_index i state))
    /\ (forall s, P (QuizState.set_score s state))
    /\ (forall f, P (QuizState.set_last_feedback f state)).

(** [P] does not look at the history either. *)
Definition stable_history (P : QuizState.t -> Prop) : Prop :=
  forall state h, P state -> P (QuizState.set_history h state).

Definition same_mode (state state' : QuizState.t) : Prop :=
  QuizState.mode state' = QuizState.mode state.

Definition same_mode_and_history (state state' : QuizState.t) : Prop :=
  QuizState.mode state' = QuizState.mode state
  /\ QuizState.history state' = QuizState.history state.

(** [m] returns without raising: from [I] it reaches [I'] with a result
    that satisfies [Q]. *)
Definition runs {A} (I : DB.t -> Prop) (m : M A) (Q : A -> Prop) (I' : DB.t -> Prop) : Prop :=
  forall db, I db -> exists a, fst (m db) = Ok a /\ Q a /\ I' (snd (m db)).

(** A run made of answers only. *)
Definition answers (l : list (Env * option string)) : list (Env * QuizOp) :=
  map (fun '(env, selected_opt) => (env, Answer selected_opt)) l.

Definition is_skip_request (op : Env * QuizOp) : bool :=
  match snd op with
  | Skip => true
  | _ => false
  end.

(** Number of skip requests in a run. *)
Definition skip_requests (ops : list (Env * QuizOp)) : nat :=
  length (List.filter is_skip_request ops).

(** The mode is the one of [state], and the history is the one of [state]
    followed by at most [n] entries, each of them a SKIP entry. *)
Definition skips_logged (n : nat) (state state' : QuizState.t) : Prop :=
  QuizState.mode state' = QuizState.mode state
  /\ exists skips,
       QuizState.history state' = QuizState.history state ++ skips
       /\ forallb is_skip skips = true
       /\ (length skips <= n)%nat.

(** What an answer leaves in the quiz state: one more history entry, the
    same index. *)
Definition logged (state : QuizState.t) (entry : HistoryEntry.t) (state' : QuizState.t) : Prop :=
  QuizState.history state' = QuizState.history state ++ [entry]
  /\ QuizState.current_index state' = QuizState.current_index state.

(** Whatever [m] returns or raises, from [I] it ends in [I']. *)
Definition leads {A} (I : DB.t -> Prop) (m : M A) (I' : DB.t -> Prop) : Prop :=
  forall db, I db -> I' (snd (m db)).

(** ** Concrete scenarios *)

Definition example_env : Env := Build_Env 1000 1700000000%float 1700000000%float (Some 7).

Definition example_progress : Progress.t :=
  Progress.mk 1 "Biology" 10 "BIO_G10_U1" "BALANCED"
              85%float 0%float 0%float 0 0 0%float true false.

Definition example_progress_db : DB.t := DB.set_progress [example_progress] DB.empty.

Definition low_baseline_batch : Batch := Build_Batch "Biology" 10 "BASELINE" 10%float.

Definition skipped_then_mistaken : DB.t :=
  snd (add_to_review_queue 2000 1 "q1" "MISTAKE" "Biology" 10 "Unit 1"
         (snd (add_to_review_queue 1000 1 "q1" "SKIPPED" "Biology" 10 "Unit 1" DB.empty))).

(** Settings, then the profile settings, then an action that goes back to
    the settings without pushing (ACT|SET|TOGGLE_LANG). *)
Definition settings_round_trip : list (Env * NavOp) :=
  [(example_env, Transition "SCR_SETTINGS" None true);
   (example_env, Transition "SCR_PROFILE_SETTINGS" None true);
   (example_env, Transition "SCR_SETTINGS" None false)].

Definition settings_user : User.t := User.mk 1 42 9 0 1000 0.

Definition settings_session : Session.t :=
  Session.mk "SCR_SETTINGS" None [("SCR_WELCOME", None)] (Some 7) None.

Definition settings_db : DB.t :=
  nav_run 42 [(example_env, Transition "SCR_SETTINGS" None true)] DB.empty.

Definition example_question (n : string) : Question.t := Question.mk n "A" None None None.

(** A SPEEDRUN of 60 seconds started at [t0 = 1700000000]. *)
Definition speedrun_state : QuizState.t :=
  QuizState.mk (Some "SPEEDRUN") "Mixed Science" "Grade 9" "Sprint" "SR_60_1700000000"
               [example_question "q0"; example_question "q1"] 0 0 [] (Some "🎮")
               (Some 1700000000%float) (Some 60).

Definition speedrun_db : DB.t :=
  DB.mk [settings_user] []
        {[ 1 := Session.mk "SCR_GAME_PRES" None [] (Some 7) (Some speedrun_state) ]} [] [].

(** The answer arrives at [t0 + 63]. *)
Definition late_env : Env := Build_Env 1000 1700000063%float 1700000063%float (Some 8).

Definition two_questions : list Question.t := [example_question "q0"; example_question "q1"].

(** A peer challenge of two questions, just started. *)
Definition challenge_db : DB.t :=
  snd (start_challenge_session example_env 42 "CH_1700000000_1" None 9 two_questions DB.empty).

(** A survival run of two questions, just started. *)
Definition survival_db : DB.t :=
  snd (start_survival example_env 42 "BIO" None two_questions DB.empty).

Definition survival_state : QuizState.t :=
  QuizState.mk (Some "SURVIVAL") "Biology" "Grade 9" "Survival Mode"
               "SURVIVAL_BIO_1700000000" two_questions 0 0 [] (Some "🎮") None None.

(** A unit quiz of two questions, just started. *)
Definition unit_quiz_db : DB.t :=
  snd (start_quiz_session example_env 42 "BIO" "Grade 10" "Unit 1" two_questions DB.empty).

Definition unit_quiz_questions : list Question.t :=
  map (set_source_unit "Unit 1") two_questions.

Definition unit_quiz_state : QuizState.t :=
  QuizState.mk None "Biology" "Grade 10" "Unit 1" "BIO_Grade10_U1"
               unit_quiz_questions 0 0 [] None None None.

Definition right_then_next : list (Env * QuizOp) :=
  [(example_env, Answer (Some "A")); (example_env, NextQuestion)].

(** The two-question unit quiz, both answered correctly, summary shown. *)
Definition finished_quiz_db : DB.t :=
  quiz_run 42 (right_then_next ++ right_then_next) unit_quiz_db.

Definition finished_quiz_state : QuizState.t :=
  default unit_quiz_state (stored_quiz_state 42 finished_quiz_db).

Definition ten_questions : list Question.t :=
  map example_question ["q0"; "q1"; "q2"; "q3"; "q4"; "q5"; "q6"; "q7"; "q8"; "q9"].

(** A ten-question unit quiz of a new user: nine right answers, then a
    wrong one; the summary has not been asked for yet. *)
Definition nine_of_ten_db : DB.t :=
  quiz_run 42
    (right_then_next ++ right_then_next ++ right_then_next ++ right_then_next
     ++ right_then_next ++ right_then_next ++ right_then_next ++ right_then_next
     ++ right_then_next ++ [(example_env, Answer (Some "B"))])
    (snd (start_quiz_session example_env 42 "BIO" "Grade 10" "Unit 1" ten_questions DB.empty)).

Definition nine_of_ten_state : QuizState.t :=
  default unit_quiz_state (stored_quiz_state 42 nine_of_ten_db).


(** Advanced practice is locked, and the query on the lock table fails. *)
Definition locked_practice_db : DB.t :=
  DB.mk [] [] ∅ [] [SystemLock.mk "FEATURE" "ADVANCED_PRACTICE" true].

Definition feature_query_down : Faults := Build_Faults (Some OperationalError) None None None.

(** ** database/crud.py: the reads of the review hub *)

(** [subject_map.get(subject, subject)] *)
Definition real_subject (subject : string) : string :=
  default subject (subj_map_get subject).

(** The dictionary [{"SKIPPED": _, "MISTAKE": _, "PINNED": _}]. *)
Record Counts := {
  count_skipped : Z;
  count_mistake : Z;
  count_pinned : Z
}.

Definition count_status (status : string) (rows : list ReviewQueue.t) : Z :=
  Z.of_nat (length (List.filter (fun r => str_eqb (ReviewQueue.status r) status) rows)).

(** The subject filter is applied for a non-empty [subject] whose mapped
    name is non-empty; the grade filter for a grade above zero. *)
Definition get_review_queue_counts (user_id : Z) (subject : option string) (grade : option Z)
    (db : DB.t) : Counts :=
  let query := List.filter (fun r => ReviewQueue.user_id r =? user_id) (DB.review_queue db) in
  let query :=
    match truthy subject with
    | Some s =>
        match truthy (Some (real_subject s)) with
        | Some real => List.filter (fun r => str_eqb (ReviewQueue.subject r) real) query
        | None => query
        end
    | None => query
    end in
  let query :=
    match grade with
    | Some g =>
        if negb (g =? 0) && (0 <? g)
        then List.filter (fun r => ReviewQueue.grade r =? g) query
        else query
    | None => query
    end in
  {| count_skipped := count_status "SKIPPED" query;
     count_mistake := count_status "MISTAKE" query;
     count_pinned := count_status "PINNED" query |}.

(** Here the grade filter is applied for every grade other than zero. *)
Definition get_review_queue_items (user_id : Z) (status : string) (subject : option string)
    (grade : option Z) (db : DB.t) : list ReviewQueue.t :=
  let query :=
    List.filter (fun r => (ReviewQueue.user_id r =? user_id)
                          && str_eqb (ReviewQueue.status r) status)
                (DB.review_queue db) in
  let query :=
    match truthy subject with
    | Some s => List.filter (fun r => str_eqb (ReviewQueue.subject r) (real_subject s)) query
    | None => query
    end in
  match grade with
  | Some g =>
      if negb (g =? 0) then List.filter (fun r => ReviewQueue.grade r =? g) query else query
  | None => query
  end.

(** ** Runs of crud calls *)

(** The activity updates of one user at the given instants. *)
Fixpoint streak_run (user_id : Z) (times : list Z) (db : DB.t) : DB.t :=
  match times with
  | [] => db
  | now :: times' => streak_run user_id times' (snd (update_user_streak now user_id db))
  end.

(** Every instant is less than [limit] after the one before it. *)
Fixpoint all_within (limit previous : Z) (times : list Z) : bool :=
  match times with
  | [] => true
  | now :: times' => (now - previous <? limit) && all_within limit now times'
  end.

(** ** Frames *)

(** [m] leaves the part [f] of the database as it is, whatever it returns
    or raises. *)
Definition keeps {A B} (f : DB.t -> B) (m : M A) : Prop :=
  forall db, f (snd (m db)) = f db.

(** The session row after [update_session_state(user_id, quiz_state=...)]. *)
Definition with_quiz_state (state : QuizState.t) (session : Session.t) : Session.t :=
  Session.mk (Session.current_screen session) (Session.current_param session)
             (Session.navigation_stack session) (Session.last_message_id session)
             (Some state).

(** Two quiz states of the same batch: everything but the index, the
    score, the history and the feedback glyph agrees. *)
Definition same_batch (state state' : QuizState.t) : Prop :=
  QuizState.questions state' = QuizState.questions state
  /\ QuizState.subject state' = QuizState.subject state
  /\ QuizState.grade state' = QuizState.grade state
  /\ QuizState.unit_name state' = QuizState.unit_name state
  /\ QuizState.unit_id state' = QuizState.unit_id state
  /\ QuizState.mode state' = QuizState.mode state
  /\ QuizState.start_time state' = QuizState.start_time state
  /\ QuizState.duration state' = QuizState.duration state.

(** ** handlers/callback_router.py: the callback format *)

Definition bar : ascii := ascii_of_nat 124.

(** [sep.join(parts)] *)
Fixpoint py_join (sep : string) (parts : list string) : string :=
  match parts with
  | [] => ""
  | p :: parts' =>
      match parts' with
      | [] => p
      | _ => p +:+ sep +:+ py_join sep parts'
      end
  end.

(** [ACTION|SCREEN|PARAM]: the parameter is everything after the second
    bar. *)
Definition parse_callback (callback_data : string)
    : option string * option string * option string :=
  let parts := PyStr.split bar callback_data in
  let action := if (0 <? length parts)%nat then parts !! 0%nat else None in
  let screen := if (1 <? length parts)%nat then parts !! 1%nat else None in
  let param := if (2 <? length parts)%nat then Some (py_join "|" (drop 2 parts)) else None in
  (action, screen, param).

(** ** handlers/callback_router.py: NAV callbacks

    [handle_navigation] for a callback that has a screen part.  The
    question bank ([QuestionEngine.load_unit_questions]) is an input. *)

Definition set_current_grade (grade : Z) (u : User.t) : User.t :=
  User.mk (User.id u) (User.telegram_id u) grade (User.streak_count u)
          (User.last_activity u) (User.total_xp u).

(** [int(g.split(" ")[1]) if " " in g else int(g) if g.isdigit() else 0] *)
Definition nav_grade (g_str : string) : Res Z :=
  if PyStr.contains " " g_str
  then res_bind (py_index (PyStr.split space g_str) 1) PyStr.int
  else if PyStr.isdigit g_str then PyStr.int g_str else Ok 0.

(** Lines 113-128: the grade of [NAV|SCR_UNITS|BIO:Grade 12] becomes the
    user's grade; the block is a [try: ... except: pass], which also
    swallows the [OverflowError] of a commit that writes 2^63 or more. *)
Definition sync_user_grade (env : Env) (telegram_id : Z) (param : string) : M unit :=
  match PyStr.split colon param with
  | [_; g_str] =>
      match nav_grade g_str with
      | Ok g_num =>
          if 0 <? g_num then
            user <- get_or_create_user (utcnow env) telegram_id ;;
            if g_num <? SQLITE_INT_LIMIT then
              fun db =>
                (Ok tt,
                 DB.set_users (update_first (has_id (User.id user)) (set_current_grade g_num)
                                            (DB.users db)) db)
            else ret tt
          else ret tt
      | Raise _ => ret tt
      end
  | _ => ret tt
  end.

Definition game_screens : list string :=
  ["SCR_SPEEDRUN_SETUP"; "SCR_SURVIVAL_SETUP"; "SCR_MULTIPLAYER_HUB";
   "SCR_MP_SUBJ_SELECT"; "SCR_PROFILE_SETTINGS"; "SCR_GRADE_SELECT"].

(** [subject, grade, unit = parts] and the quiz start of lines 139-144;
    [None] when the parameter is not of that shape. *)
Definition quiz_start_parts (screen : string) (param : option string)
    : option (string * string * string) :=
  if str_eqb screen "SCR_QUIZ_PRES" then
    match truthy param with
    | Some p =>
        if PyStr.contains ":" p then
          match PyStr.split colon p with
          | [subject; grade; unit_name] => Some (subject, grade, unit_name)
          | _ => None
          end
        else None
    | None => None
    end
  else None.

Definition handle_navigation (env : Env) (bank : string -> string -> string -> list Question.t)
    (telegram_id : Z) (screen : string) (param : option string) : M (option View) :=
  if (str_eqb screen "SCR_PDF_VAULT" || str_eqb screen "SCR_REVIEW_HUB")
     && bool_decide (param = Some "CURR_CONTEXT")
  then
    user <- get_or_create_user (utcnow env) telegram_id ;;
    session <- get_or_create_session (User.id user) ;;
    navigate_to env telegram_id screen (Session.current_param session) true
  else
    run (if str_eqb screen "SCR_UNITS" then
           match truthy param with
           | Some p => if PyStr.contains ":" p then sync_user_grade env telegram_id p
                       else ret tt
           | None => ret tt
           end
         else ret tt) ;;
    if str_eqb screen "SCR_HUB" || str_eqb screen "HOME"
       || (str_eqb screen "SCR_HUB" && bool_decide (param = Some "ROOT"))
    then go_home env telegram_id
    else if str_eqb screen "BACK" || bool_decide (param = Some "BACK")
    then go_back env telegram_id
    else
      match quiz_start_parts screen param with
      | Some (subject, grade, unit_name) =>
          start_quiz_session env telegram_id subject grade unit_name
                             (bank (default subject (subj_map_get subject)) grade unit_name)
      | None =>
          let is_root := bool_decide (param = Some "ROOT") in
          let add_to_stack := negb is_root || existsb (str_eqb screen) game_screens in
          navigate_to env telegram_id screen (if is_root then None else param) add_to_stack
      end.

(** ** What a run can unlock *)

(** Every record of [rows] whose BALANCED phase is unlocked was already
    unlocked in [rows0]. *)
Definition balanced_unlocks_within (rows0 rows : list Progress.t) : Prop :=
  forall user_id unit_id p,
    first (is_progress user_id unit_id) rows = Some p ->
    Progress.unlocked_balanced p = true ->
    exists p0,
      first (is_progress user_id unit_id) rows0 = Some p0
      /\ Progress.unlocked_balanced p0 = true.

Definition balanced_unlocked (user_id : Z) (unit_id : string) (db : DB.t) : bool :=
  match progress_of user_id unit_id db with
  | Some p => Progress.unlocked_balanced p
  | None => false
  end.

(** ** database/crud.py: flagged questions

    The table [flagged_questions] of models.py; [reasons] is the JSON array
    of the column, as the list it holds. *)
Module FlaggedQuestion.
Record t : Type := mk {
  question_id : string;
  flag_count : Z;
  reasons : list string;
  last_flagged : Z
}.
End FlaggedQuestion.

Definition is_flagged (question_id : string) (f : FlaggedQuestion.t) : bool :=
  str_eqb (FlaggedQuestion.question_id f) question_id.

Definition flag_question (now : Z) (question_id reason : string)
    (rows : list FlaggedQuestion.t) : FlaggedQuestion.t * list FlaggedQuestion.t :=
  match first (is_flagged question_id) rows with
  | None =>
      let flagged := FlaggedQuestion.mk question_id 1 [reason] now in
      (flagged, rows ++ [flagged])
  | Some flagged =>
      let flagged :=
        FlaggedQuestion.mk (FlaggedQuestion.question_id flagged)
                           (FlaggedQuestion.flag_count flagged + 1)
                           (FlaggedQuestion.reasons flagged ++ [reason]) now in
      (flagged, update_first (is_flagged question_id) (fun _ => flagged) rows)
  end.

(** A sequence of calls: the time, the question and the reason of each. *)
Fixpoint flag_run (flags : list (Z * string * string)) (rows : list FlaggedQuestion.t)
    : list FlaggedQuestion.t :=
  match flags with
  | [] => rows
  | (now, question_id, reason) :: flags' =>
      flag_run flags' (snd (flag_question now question_id reason rows))
  end.

(** The reasons given for [question_id] in [flags], in order. *)
Definition reasons_for (question_id : string) (flags : list (Z * string * string))
    : list string :=
  map snd (List.filter (fun f => str_eqb (snd (fst f)) question_id) flags).

(** One user, nothing else. *)
Definition one_user_db : DB.t := DB.mk [settings_user] [] ∅ [] [].

(** A GRADE lock that is switched on and a feature lock that is switched
    off. *)
Definition grade_lock_db : DB.t :=
  DB.mk [] [] ∅ [] [SystemLock.mk "GRADE" "Grade 12" true;
                    SystemLock.mk "FEATURE" "ADVANCED_PRACTICE" false].

(** The survival run of two questions after a right answer to the first:
    the last question is current. *)
Definition survival_last_db : DB.t :=
  quiz_run 42 [(example_env, Answer (Some "A"))] survival_db.

Definition survival_last_state : QuizState.t :=
  QuizState.mk (Some "SURVIVAL") "Biology" "Grade 9" "Survival Mode"
               "SURVIVAL_BIO_1700000000" two_questions 1 1 [] (Some "✅") None None.

(** The answer arrives at [t0 + 61], inside the two seconds of grace of a
    sixty-second run. *)
Definition grace_env : Env := Build_Env 1000 1700000061%float 1700000061%float (Some 8).

(** * Facts about tables *)

Section Tables.
Context {A : Type}.
Implicit Types (p : A -> bool) (f : A -> A) (rows : list A).

Lemma first_update_first p f rows x :
  first p rows = Some x -> p (f x) = true ->
  first p (update_first p f rows) = Some (f x).
Proof.
  unfold first. induction rows as [|r rows IH]; simpl; [discriminate|].
  destruct (p r) eqn:Hr; intros Hx Hfx.
  - injection Hx as ->. simpl. now rewrite Hfx.
  - simpl. rewrite Hr. auto.
Qed.

Lemma first_app_new p rows y :
  first p rows = None -> p y = true -> first p (rows ++ [y]) = Some y.
Proof.
  unfold first. induction rows as [|r rows IH]; simpl; intros Hn Hy.
  - now rewrite Hy.
  - destruct (p r); [discriminate | auto].
Qed.

Lemma first_app_old p rows y x :
  first p rows = Some x -> first p (rows ++ [y]) = Some x.
Proof.
  unfold first. induction rows as [|r rows IH]; simpl; [discriminate|].
  destruct (p r); auto.
Qed.

Lemma first_filter p rows : first p rows = head (List.filter p rows).
Proof.
  unfold first. induction rows as [|r rows IH]; simpl; [reflexivity|].
  destruct (p r); auto.
Qed.

Lemma filter_update_first p f rows :
  (forall x, p (f x) = p x) ->
  List.filter p (update_first p f rows)
  = match List.filter p rows with
    | [] => []
    | x :: rest => f x :: rest
    end.
Proof.
  intros Hf. induction rows as [|r rows IH]; simpl; [reflexivity|].
  destruct (p r) eqn:Hr; simpl.
  - now rewrite Hf, Hr.
  - now rewrite Hr.
Qed.

End Tables.

(** * Progress records: phase unlocks (crud.update_phase_progress) *)

Lemma set_phase_accuracy_balanced phase accuracy p :
  Progress.unlocked_balanced p = true ->
  Progress.unlocked_balanced (set_phase_accuracy phase accuracy p) = true.
Proof.
  intros H. unfold set_phase_accuracy.
  repeat match goal with |- context [if ?c then _ else _] => destruct c end; simpl; auto.
Qed.

Lemma set_phase_accuracy_exam phase accuracy p :
  Progress.unlocked_exam p = true ->
  Progress.unlocked_exam (set_phase_accuracy phase accuracy p) = true.
Proof.
  intros H. unfold set_phase_accuracy.
  repeat match goal with |- context [if ?c then _ else _] => destruct c end; simpl; auto.
Qed.

Lemma set_phase_accuracy_key phase accuracy p :
  Progress.user_id (set_phase_accuracy phase accuracy p) = Progress.user_id p
  /\ Progress.unit_id (set_phase_accuracy phase accuracy p) = Progress.unit_id p.
Proof.
  unfold set_phase_accuracy.
  repeat match goal with |- context [if ?c then _ else _] => destruct c end; simpl; auto.
Qed.

Lemma phase_step_key user_id unit_id phase accuracy p :
  is_progress user_id unit_id (phase_step phase accuracy p) = is_progress user_id unit_id p.
Proof.
  unfold is_progress, phase_step. simpl.
  destruct (set_phase_accuracy_key phase accuracy p) as [-> ->]. reflexivity.
Qed.

Lemma highest_unlocked_rank p p' :
  (Progress.unlocked_balanced p = true -> Progress.unlocked_balanced p' = true) ->
  (Progress.unlocked_exam p = true -> Progress.unlocked_exam p' = true) ->
  (phase_rank (highest_unlocked p) <= phase_rank (highest_unlocked p'))%nat.
Proof.
  unfold highest_unlocked. intros Hb He.
  destruct (Progress.unlocked_exam p); [rewrite He by reflexivity; reflexivity|].
  destruct (Progress.unlocked_balanced p).
  - rewrite Hb by reflexivity. destruct (Progress.unlocked_exam p'); vm_compute; lia.
  - vm_compute. lia.
Qed.

(** One completion: the record stays where it is, the flags only go up and
    the current phase is the highest unlocked one. *)
Lemma update_phase_progress_step user_id unit_id subject grade phase accuracy db p :
  progress_of user_id unit_id db = Some p ->
  let p' := phase_step phase accuracy p in
  progress_of user_id unit_id
    (snd (update_phase_progress user_id unit_id subject grade phase accuracy db)) = Some p'
  /\ (Progress.unlocked_balanced p = true -> Progress.unlocked_balanced p' = true)
  /\ (Progress.unlocked_exam p = true -> Progress.unlocked_exam p' = true)
  /\ Progress.current_phase p' = highest_unlocked p'.
Proof.
  intros Hp p'. unfold progress_of, update_phase_progress in *. rewrite Hp. simpl.
  split; [|split; [|split]].
  - apply first_update_first; [exact Hp|].
    rewrite phase_step_key. unfold first in Hp. now apply find_some in Hp.
  - apply set_phase_accuracy_balanced.
  - apply set_phase_accuracy_exam.
  - reflexivity.
Qed.

(** C4. Once [unlocked_balanced] or [unlocked_exam] is true it stays true
    through every later [update_phase_progress] of the unit, whatever the
    phase and accuracy of the call, and after each call [current_phase] is
    the highest unlocked phase, never below the one that was unlocked
    before. *)
Theorem unlock_flags_never_reset user_id unit_id b batches db p :
  progress_of user_id unit_id db = Some p ->
  exists p',
    progress_of user_id unit_id (complete_batches user_id unit_id (b :: batches) db) = Some p'
    /\ (Progress.unlocked_balanced p = true -> Progress.unlocked_balanced p' = true)
    /\ (Progress.unlocked_exam p = true -> Progress.unlocked_exam p' = true)
    /\ Progress.current_phase p' = highest_unlocked p'
    /\ (phase_rank (highest_unlocked p) <= phase_rank (Progress.current_phase p'))%nat.
Proof.
  revert b db p. induction batches as [|b' batches IH]; intros b db p Hp.
  - destruct (update_phase_progress_step user_id unit_id (batch_subject b) (batch_grade b)
                (batch_phase b) (batch_accuracy b) db p Hp) as (H1 & H2 & H3 & H4).
    eexists. simpl. split; [exact H1|]. repeat split; auto.
    rewrite H4. now apply highest_unlocked_rank.
  - destruct (update_phase_progress_step user_id unit_id (batch_subject b) (batch_grade b)
                (batch_phase b) (batch_accuracy b) db p Hp) as (H1 & H2 & H3 & H4).
    destruct (IH b' _ _ H1) as (p' & G1 & G2 & G3 & G4 & G5).
    exists p'. split; [exact G1|]. repeat split; auto.
    etransitivity; [|exact G5]. now apply highest_unlocked_rank.
Qed.

Lemma unlock_flags_never_reset_witness :
  exists p',
    progress_of 1 "BIO_G10_U1"
      (complete_batches 1 "BIO_G10_U1" [low_baseline_batch] example_progress_db) = Some p'
    /\ Progress.unlocked_balanced p' = true
    /\ Progress.current_phase p' = "BALANCED".
Proof.
  destruct (unlock_flags_never_reset 1 "BIO_G10_U1" low_baseline_batch [] example_progress_db
              example_progress eq_refl) as (p' & H1 & H2 & _ & H4 & _).
  exists p'. split; [exact H1|]. split; [exact (H2 eq_refl)|].
  rewrite H4. vm_compute in H1. injection H1 as <-. reflexivity.
Defined.

(** * Review queue: one row per (user, question) (crud.add_to_review_queue) *)

Lemma touch_key user_id question_id status now r :
  is_review user_id question_id (ReviewQueue.touch status now r)
  = is_review user_id question_id r.
Proof. reflexivity. Qed.

(** What one [add_to_review_queue] does to the rows of its key. *)
Lemma add_to_review_queue_rows now user_id question_id status subject grade unit_name db :
  review_rows user_id question_id
    (snd (add_to_review_queue now user_id question_id status subject grade unit_name db))
  = match review_rows user_id question_id db with
    | [] => [ReviewQueue.mk user_id subject grade unit_name question_id status now]
    | r :: rest => ReviewQueue.touch status now r :: rest
    end.
Proof.
  unfold review_rows, add_to_review_queue.
  rewrite first_filter.
  destruct (List.filter (is_review user_id question_id) (DB.review_queue db))
    as [|r rest] eqn:Hrows; simpl.
  - rewrite List.filter_app, Hrows. simpl.
    unfold is_review, str_eqb. simpl.
    rewrite Z.eqb_refl, bool_decide_eq_true_2 by reflexivity. reflexivity.
  - rewrite filter_update_first by (intros; apply touch_key). now rewrite Hrows.
Qed.

(** C9. Adding the same (user, question) twice, with any two statuses,
    leaves exactly one row for that key: it carries the status and the
    timestamp of the later call.  (The table is assumed to hold at most one
    row for the key before, which is what the code itself maintains.) *)
Theorem review_add_twice_one_row db user_id question_id
    now1 status1 subject1 grade1 unit1 now2 status2 subject2 grade2 unit2 :
  (length (review_rows user_id question_id db) <= 1)%nat ->
  let db1 := snd (add_to_review_queue now1 user_id question_id status1 subject1 grade1 unit1 db) in
  let db2 := snd (add_to_review_queue now2 user_id question_id status2 subject2 grade2 unit2 db1) in
  exists r,
    review_rows user_id question_id db2 = [r]
    /\ ReviewQueue.status r = status2
    /\ ReviewQueue.added_at r = now2.
Proof.
  intros Hone db1 db2. subst db1 db2.
  rewrite !add_to_review_queue_rows.
  destruct (review_rows user_id question_id db) as [|r [|r' rest]]; simpl in *.
  - eexists; split; [reflexivity|]. split; reflexivity.
  - eexists; split; [reflexivity|]. split; reflexivity.
  - lia.
Qed.

Lemma review_add_twice_one_row_witness :
  exists r,
    review_rows 1 "q1" skipped_then_mistaken = [r]
    /\ ReviewQueue.status r = "MISTAKE"
    /\ ReviewQueue.added_at r = 2000.
Proof.
  apply (review_add_twice_one_row DB.empty 1 "q1" 1000 "SKIPPED" "Biology" 10 "Unit 1"
                                  2000 "MISTAKE" "Biology" 10 "Unit 1").
  simpl. lia.
Defined.

(** * The handler monad *)

Lemma bind_ok {A B} (m : M A) (k : A -> M B) db a db' :
  m db = (Ok a, db') -> bind m k db = k a db'.
Proof. unfold bind. now intros ->. Qed.

Lemma bind_raise {A B} (m : M A) (k : A -> M B) db e db' :
  m db = (Raise e, db') -> bind m k db = (Raise e, db').
Proof. unfold bind. now intros ->. Qed.

Lemma preserves_ret {A} I (a : A) : preserves I (ret a).
Proof. intros db H. exact H. Qed.

Lemma preserves_raise {A} I e : preserves I (@raise A e).
Proof. intros db H. exact H. Qed.

Lemma preserves_lift {A} I (r : Res A) : preserves I (lift r).
Proof. intros db H. exact H. Qed.

Lemma preserves_key {A} I (v : option A) : preserves I (key v).
Proof. destruct v; [apply preserves_ret | apply preserves_raise]. Qed.

Lemma preserves_bind {A B} I (m : M A) (k : A -> M B) :
  preserves I m -> (forall a, preserves I (k a)) -> preserves I (bind m k).
Proof.
  intros Hm Hk db H. unfold bind. specialize (Hm db H).
  destruct (m db) as [[a|e] db']; simpl in *; [now apply Hk | exact Hm].
Qed.

Create HintDb preserves.
#[export] Hint Resolve preserves_ret preserves_raise preserves_lift preserves_key : preserves.

Ltac preserves_step :=
  first
    [ apply preserves_bind; [|intros ?]
    | match goal with
      | |- preserves _ (match ?x with _ => _ end) => destruct x
      | |- preserves _ (if ?c then _ else _) => destruct c
      | |- preserves _ (let '(_, _) := ?x in _) => destruct x
      end
    | solve [eauto with preserves] ].

Ltac preserves_auto := repeat preserves_step.

(** * Navigation stack (crud.update_session_state, crud.pop_navigation_stack) *)

Lemma py_last_n_length {A} (n : nat) (l : list A) :
  (length (py_last_n n l) <= n)%nat.
Proof. unfold py_last_n. rewrite length_drop. lia. Qed.

Lemma push_previous_length session :
  (length (push_previous session) <= 10)%nat.
Proof.
  unfold push_previous.
  destruct (10 <? length _)%nat eqn:Hlen.
  - apply py_last_n_length.
  - apply Nat.ltb_ge in Hlen. exact Hlen.
Qed.

(** Oldest entries go first: what is kept is the end of the old stack with
    the previous screen appended. *)
Lemma push_previous_suffix session :
  push_previous session
  `suffix_of` (Session.navigation_stack session ++ [Session.current session]).
Proof.
  unfold push_previous, Session.current.
  destruct (10 <? length _)%nat; [apply suffix_drop | reflexivity].
Qed.

Lemma push_previous_top session :
  last (push_previous session) = Some (Session.current session).
Proof.
  unfold push_previous, Session.current.
  destruct (10 <? length _)%nat eqn:Hlen; [|apply last_snoc].
  unfold py_last_n. rewrite length_app. simpl.
  replace (length (Session.navigation_stack session) + 1 - 10)%nat
    with (length (Session.navigation_stack session) - 9)%nat by lia.
  rewrite drop_app_le by lia. apply last_snoc.
Qed.

Lemma session_step_stack screen current_param message_id quiz_state add session :
  Session.navigation_stack
    (session_step screen current_param message_id quiz_state add session)
  = match truthy screen with
    | Some scr =>
        if add && negb (str_eqb (Session.current_screen session) scr)
        then push_previous session
        else Session.navigation_stack session
    | None => Session.navigation_stack session
    end.
Proof.
  unfold session_step.
  destruct (truthy screen), message_id, quiz_state; reflexivity.
Qed.

Lemma session_step_length screen current_param message_id quiz_state add session :
  (length (Session.navigation_stack session) <= 10)%nat ->
  (length (Session.navigation_stack
             (session_step screen current_param message_id quiz_state add session)) <= 10)%nat.
Proof.
  intros H. rewrite session_step_stack.
  destruct (truthy screen); [|exact H].
  destruct (_ && _); [apply push_previous_length | exact H].
Qed.

Lemma stack_bounded_insert db user_id session :
  stack_bounded db ->
  (length (Session.navigation_stack session) <= 10)%nat ->
  stack_bounded (DB.set_sessions (<[user_id := session]> (DB.sessions db)) db).
Proof.
  intros Hdb Hs uid s. simpl. rewrite lookup_insert.
  case_decide; [intros [= <-]; exact Hs | apply Hdb].
Qed.

Lemma get_or_create_user_bounded now telegram_id :
  preserves stack_bounded (get_or_create_user now telegram_id).
Proof.
  intros db H. unfold get_or_create_user. destruct (first _ _); simpl; [exact H|].
  intros uid s. simpl. apply H.
Qed.

Lemma get_or_create_session_bounded user_id :
  preserves stack_bounded (get_or_create_session user_id).
Proof.
  intros db H. unfold get_or_create_session.
  destruct (DB.sessions db !! user_id); simpl; [exact H|].
  apply stack_bounded_insert; [exact H | simpl; lia].
Qed.

Lemma update_session_state_bounded user_id screen current_param message_id quiz_state add :
  preserves stack_bounded
    (update_session_state user_id screen current_param message_id quiz_state add).
Proof.
  intros db H. unfold update_session_state.
  destruct (DB.sessions db !! user_id) as [session|] eqn:Hs; simpl.
  - apply stack_bounded_insert; [exact H|]. apply session_step_length. eapply H, Hs.
  - destruct (truthy screen); [destruct add|]; simpl; try exact H;
      (apply stack_bounded_insert; [exact H | simpl; lia]).
Qed.

Lemma pop_navigation_stack_bounded user_id :
  preserves stack_bounded (pop_navigation_stack user_id).
Proof.
  intros db H. unfold pop_navigation_stack.
  destruct (DB.sessions db !! user_id) as [session|] eqn:Hs; simpl; [|exact H].
  destruct (last _) as [[previous_screen previous_param]|] eqn:Hl; simpl; [|exact H].
  apply stack_bounded_insert; [exact H|]. simpl.
  specialize (H _ _ Hs).
  destruct (Session.navigation_stack session) as [|x l] using rev_ind; [simpl; lia|].
  rewrite removelast_last. rewrite length_app in H. simpl in H. lia.
Qed.

#[export] Hint Resolve get_or_create_user_bounded get_or_create_session_bounded
  update_session_state_bounded pop_navigation_stack_bounded : preserves.

Lemma navigate_to_bounded env telegram_id screen_id param add_to_stack :
  preserves stack_bounded (navigate_to env telegram_id screen_id param add_to_stack).
Proof. unfold navigate_to. preserves_auto. Qed.

#[export] Hint Resolve navigate_to_bounded : preserves.

Lemma go_home_bounded env telegram_id : preserves stack_bounded (go_home env telegram_id).
Proof. unfold go_home. preserves_auto. Qed.

#[export] Hint Resolve go_home_bounded : preserves.

Lemma go_back_bounded env telegram_id : preserves stack_bounded (go_back env telegram_id).
Proof. unfold go_back. preserves_auto. Qed.

Lemma nav_step_bounded env telegram_id op :
  preserves stack_bounded (nav_step env telegram_id op).
Proof.
  destruct op; simpl; auto using navigate_to_bounded, go_back_bounded, go_home_bounded.
Qed.

Lemma nav_run_bounded telegram_id ops db :
  stack_bounded db -> stack_bounded (nav_run telegram_id ops db).
Proof.
  revert db. induction ops as [|[env op] ops IH]; intros db H; simpl; [exact H|].
  apply IH, nav_step_bounded, H.
Qed.

(** The two reads every handler starts with, for a user that has a row
    and a session. *)
Lemma get_or_create_user_found now telegram_id db user :
  user_of telegram_id db = Some user ->
  get_or_create_user now telegram_id db = (Ok user, db).
Proof. unfold user_of, get_or_create_user. now intros ->. Qed.

Lemma get_or_create_session_found user_id db session :
  DB.sessions db !! user_id = Some session ->
  get_or_create_session user_id db = (Ok session, db).
Proof. unfold get_or_create_session. now intros ->. Qed.

Lemma session_of_found telegram_id db user session :
  user_of telegram_id db = Some user ->
  DB.sessions db !! User.id user = Some session ->
  session_of telegram_id db = Some session.
Proof. unfold session_of. intros -> H. exact H. Qed.

(** C8 (amended). Through every sequence of transitions, back and home
    requests the navigation stack of every session holds at most ten
    entries; a transition that pushes keeps the end of the old stack
    (oldest entries dropped first) and leaves on top the previous
    (screen, param), whose screen is not the new current screen. *)
Theorem navigation_stack_bounded_and_push
    telegram_id ops db env screen_id param user session :
  (stack_bounded db -> stack_bounded (nav_run telegram_id ops db))
  /\ (user_of telegram_id db = Some user ->
      DB.sessions db !! User.id user = Some session ->
      is_Some (render_result env) ->
      screen_id <> "" ->
      Session.current_screen session <> screen_id ->
      exists session',
        session_of telegram_id (snd (navigate_to env telegram_id screen_id param true db))
        = Some session'
        /\ Session.current session' = (screen_id, param)
        /\ Session.top session' = Some (Session.current session)
        /\ fst (Session.current session) <> Session.current_screen session'
        /\ Session.navigation_stack session'
           `suffix_of` (Session.navigation_stack session ++ [Session.current session])
        /\ (length (Session.navigation_stack session') <= 10)%nat).
Proof.
  split; [apply nav_run_bounded|].
  intros Hu Hs [message_id Hr] Hne Hscr.
  unfold navigate_to.
  rewrite (bind_ok _ _ _ _ _ (get_or_create_user_found _ _ _ _ Hu)).
  rewrite (bind_ok _ _ _ _ _ (get_or_create_session_found _ _ _ Hs)).
  rewrite Hr. unfold bind, update_session_state at 1. rewrite Hs.
  set (session' := session_step (Some screen_id) param (Some message_id) None true session).
  simpl. exists session'. split.
  { eapply session_of_found; [exact Hu|]. simpl. apply lookup_insert_eq. }
  assert (Hstack : Session.navigation_stack session' = push_previous session).
  { subst session'. rewrite session_step_stack.
    destruct screen_id; [congruence|]. simpl.
    unfold str_eqb. now rewrite bool_decide_eq_false_2. }
  assert (Hcur : Session.current session' = (screen_id, param)).
  { subst session'. unfold session_step, Session.current.
    destruct screen_id; [congruence|]. reflexivity. }
  unfold Session.top. rewrite Hstack.
  repeat split.
  - exact Hcur.
  - apply push_previous_top.
  - change (Session.current_screen session') with (fst (Session.current session')).
    rewrite Hcur. exact Hscr.
  - apply push_previous_suffix.
  - apply push_previous_length.
Qed.

Lemma stack_bounded_empty : stack_bounded DB.empty.
Proof. intros uid s H. simpl in H. rewrite lookup_empty in H. discriminate. Qed.

Lemma navigation_stack_bounded_and_push_witness :
  stack_bounded (nav_run 42 settings_round_trip DB.empty)
  /\ exists session',
       session_of 42 (snd (navigate_to example_env 42 "SCR_PROFILE_SETTINGS" None true
                                       settings_db)) = Some session'
       /\ Session.current session' = ("SCR_PROFILE_SETTINGS", None)
       /\ Session.top session' = Some ("SCR_SETTINGS", None).
Proof.
  split.
  - apply (navigation_stack_bounded_and_push 42 settings_round_trip DB.empty example_env
             "SCR_SETTINGS" None settings_user settings_session).
    exact stack_bounded_empty.
  - destruct (navigation_stack_bounded_and_push 42 [] settings_db example_env
                "SCR_PROFILE_SETTINGS" None settings_user settings_session) as [_ H].
    destruct H as (session' & H1 & H2 & H3 & _).
    + reflexivity.
    + reflexivity.
    + eexists. reflexivity.
    + discriminate.
    + discriminate.
    + exists session'. repeat split; assumption.
Defined.

(** The claim as stated fails: after a transition that does not push, the
    top of the stack is the current (screen, param). *)
Lemma stack_top_can_equal_current :
  exists session,
    session_of 42 (nav_run 42 settings_round_trip DB.empty) = Some session
    /\ Session.top session = Some (Session.current session).
Proof. eexists. split; vm_compute; reflexivity. Qed.

(** * Handlers: the session they read and what they leave *)

Lemma stored_quiz_state_inv telegram_id db quiz_state :
  stored_quiz_state telegram_id db = Some quiz_state ->
  exists user session,
    user_of telegram_id db = Some user
    /\ DB.sessions db !! User.id user = Some session
    /\ Session.quiz_state session = Some quiz_state.
Proof.
  unfold stored_quiz_state, session_of. intros H.
  destruct (user_of telegram_id db) as [user|]; [|discriminate]. simpl in H.
  destruct (DB.sessions db !! User.id user) as [session|] eqn:Hs; [|discriminate].
  exists user, session. auto.
Qed.

Lemma stored_quiz_state_found telegram_id db user session :
  user_of telegram_id db = Some user ->
  DB.sessions db !! User.id user = Some session ->
  stored_quiz_state telegram_id db = Session.quiz_state session.
Proof.
  intros Hu Hs. unfold stored_quiz_state.
  now rewrite (session_of_found _ _ _ _ Hu Hs).
Qed.

(** Enter a handler: the user row and the session are there. *)
Ltac enter Hu Hs :=
  rewrite (bind_ok _ _ _ _ _ (get_or_create_user_found _ _ _ _ Hu));
  rewrite (bind_ok _ _ _ _ _ (get_or_create_session_found _ _ _ Hs)).

(** [save_message_id] touches nothing but [last_message_id]. *)
Lemma save_message_id_run env user_id db session :
  DB.sessions db !! user_id = Some session ->
  exists session',
    save_message_id env user_id db
    = (Ok tt, DB.set_sessions (<[user_id := session']> (DB.sessions db)) db)
    /\ Session.quiz_state session' = Session.quiz_state session
    /\ Session.navigation_stack session' = Session.navigation_stack session
    /\ Session.current session' = Session.current session.
Proof.
  intros Hs. unfold save_message_id.
  destruct (render_result env) as [message_id|].
  - unfold bind, update_session_state. rewrite Hs. simpl. eexists. split; [reflexivity|].
    repeat split.
  - exists session. unfold ret. split; [|repeat split].
    f_equal. destruct db. unfold DB.set_sessions. simpl in *. f_equal.
    symmetry. now apply insert_id.
Qed.

Lemma show_game_summary_run env telegram_id reason db user session state mode :
  user_of telegram_id db = Some user ->
  DB.sessions db !! User.id user = Some session ->
  Session.quiz_state session = Some state ->
  QuizState.mode state = Some mode ->
  exists session',
    show_game_summary env telegram_id reason db
    = (Ok (Some (GameSum reason (QuizState.score state)
                         (QuizState.score state * xp_per_correct mode))),
       DB.set_sessions (<[User.id user := session']> (DB.sessions db)) db)
    /\ Session.quiz_state session' = Some state
    /\ Session.navigation_stack session' = Session.navigation_stack session
    /\ Session.current session' = Session.current session.
Proof.
  intros Hu Hs Hq Hm. unfold show_game_summary. enter Hu Hs. rewrite Hq, Hm.
  unfold key at 1. unfold bind at 1, ret at 1.
  destruct (save_message_id_run env _ _ _ Hs) as (session' & Hrun & H1 & H2 & H3).
  rewrite (bind_ok _ _ _ _ _ Hrun). unfold ret.
  exists session'. rewrite H1, Hq. auto.
Qed.

(** * SPEEDRUN: the deadline (game_handler.handle_game_answer) *)

(** C7. In SPEEDRUN mode an answer that arrives when [now - start_time]
    exceeds the duration plus the two seconds of grace is not scored: the
    handler shows the time's-up summary, and the stored quiz state, the
    users (their experience points), the progress records and the review
    queue are what they were. *)
Theorem speedrun_late_answer_rejected env telegram_id selected_opt db state start_time duration :
  stored_quiz_state telegram_id db = Some state ->
  QuizState.mode state = Some "SPEEDRUN" ->
  QuizState.start_time state = Some start_time ->
  QuizState.duration state = Some duration ->
  float_gt_int (time_time env - start_time)%float (duration + 2) = true ->
  exists db',
    handle_answer_selection env telegram_id selected_opt db
    = (Ok (Some (GameSum "⏱️ Time's Up!" (QuizState.score state)
                         (QuizState.score state * 15))), db')
    /\ stored_quiz_state telegram_id db' = Some state
    /\ DB.users db' = DB.users db
    /\ DB.progress db' = DB.progress db
    /\ DB.review_queue db' = DB.review_queue db.
Proof.
  intros Hst Hmode Hstart Hdur Hlate.
  destruct (stored_quiz_state_inv _ _ _ Hst) as (user & session & Hu & Hs & Hq).
  unfold handle_answer_selection. enter Hu Hs. rewrite Hq.
  unfold mode_is. rewrite Hmode. rewrite bool_decide_eq_true_2 by reflexivity.
  rewrite orb_true_l.
  unfold handle_game_answer. enter Hu Hs. rewrite Hq, Hmode, Hstart, Hdur.
  unfold key, bind at 1, ret at 1.
  change (str_eqb "SPEEDRUN" "SPEEDRUN") with true. cbv iota.
  unfold bind at 1. unfold bind at 1, ret at 1. unfold bind at 1, ret at 1. unfold ret at 1.
  rewrite Hlate.
  destruct (show_game_summary_run env telegram_id "⏱️ Time's Up!" db user session state
              "SPEEDRUN" Hu Hs Hq Hmode) as (session' & Hrun & H1 & _).
  rewrite Hrun. eexists. split; [reflexivity|].
  split; [|auto].
  rewrite <- H1. apply (stored_quiz_state_found _ _ user session'); [exact Hu|].
  simpl. apply lookup_insert_eq.
Qed.

Lemma speedrun_late_answer_rejected_witness :
  exists db',
    handle_answer_selection late_env 42 (Some "A") speedrun_db
    = (Ok (Some (GameSum "⏱️ Time's Up!" 0 0)), db')
    /\ stored_quiz_state 42 db' = Some speedrun_state
    /\ DB.users db' = DB.users speedrun_db.
Proof.
  destruct (speedrun_late_answer_rejected late_env 42 (Some "A") speedrun_db speedrun_state
              1700000000%float 60) as (db' & H1 & H2 & H3 & _).
  - reflexivity.
  - reflexivity.
  - reflexivity.
  - reflexivity.
  - vm_compute. reflexivity.
  - exists db'. auto.
Defined.

(** * Invariants of the handlers *)

Create HintDb triple.

Lemma runs_ret {A} I (a : A) (Q : A -> Prop) : Q a -> runs I (ret a) Q I.
Proof. intros Ha db H. exists a. auto. Qed.

Lemma runs_lift {A} I (a : A) : runs I (lift (Ok a)) (eq a) I.
Proof. intros db H. exists a. auto. Qed.

Lemma runs_bind {A B} I I' I'' (m : M A) (k : A -> M B) (Q : A -> Prop) (R : B -> Prop) :
  runs I m Q I' -> (forall a, Q a -> runs I' (k a) R I'') -> runs I (bind m k) R I''.
Proof.
  intros Hm Hk db H. unfold bind. destruct (Hm db H) as (a & Ha & HQ & HI).
  destruct (m db) as [r db']. simpl in *. subst r. now apply Hk.
Qed.

Lemma runs_weaken {A} I I' (m : M A) (Q Q' : A -> Prop) :
  runs I m Q I' -> (forall a, Q a -> Q' a) -> runs I m Q' I'.
Proof. intros Hm HQ db H. destruct (Hm db H) as (a & ? & ? & ?). eauto. Qed.

Lemma runs_pre {A} (I I0 I' : DB.t -> Prop) (m : M A) (Q : A -> Prop) :
  (forall db, I db -> I0 db) -> runs I0 m Q I' -> runs I m Q I'.
Proof. intros Hpre Hm db H. apply Hm, Hpre, H. Qed.

Lemma runs_triple {A} I (m : M A) (Q : A -> Prop) : runs I m Q I -> triple I m Q.
Proof.
  intros Hm db H. destruct (Hm db H) as (a & Ha & HQ & HI). split; [exact HI|].
  intros a' Ha'. rewrite Ha in Ha'. now injection Ha' as <-.
Qed.

Lemma triple_ret {A} I (a : A) (Q : A -> Prop) : Q a -> triple I (ret a) Q.
Proof. intros Ha. now apply runs_triple, runs_ret. Qed.

Lemma triple_raise {A} I e (Q : A -> Prop) : triple I (raise e) Q.
Proof. intros db H. split; [exact H|]. simpl. discriminate. Qed.

Lemma triple_lift {A} I (r : Res A) : triple I (lift r) (fun a => r = Ok a).
Proof. intros db H. split; [exact H|]. simpl. auto. Qed.

Lemma triple_key {A} I (v : option A) : triple I (key v) (fun a => v = Some a).
Proof.
  destruct v; [apply triple_ret; reflexivity | apply triple_raise].
Qed.

Lemma triple_bind {A B} I (m : M A) (k : A -> M B) (Q : A -> Prop) (R : B -> Prop) :
  triple I m Q -> (forall a, Q a -> triple I (k a) R) -> triple I (bind m k) R.
Proof.
  intros Hm Hk db H. unfold bind. destruct (Hm db H) as [HI HQ].
  destruct (m db) as [[a|e] db']; simpl in *.
  - apply (Hk a); auto.
  - split; [exact HI | discriminate].
Qed.

Lemma triple_weaken {A} I (m : M A) (Q Q' : A -> Prop) :
  triple I m Q -> (forall a, Q a -> Q' a) -> triple I m Q'.
Proof. intros Hm HQ db H. destruct (Hm db H). split; auto. Qed.

(** A prefix that cannot raise, then a tail that keeps the invariant. *)
Lemma runs_then_triple {A B} I I' (m : M A) (k : A -> M B) (Q : A -> Prop) (R : B -> Prop) :
  runs I m Q I' -> (forall a, Q a -> triple I' (k a) R) ->
  forall db, I db -> I' (snd (bind m k db)).
Proof.
  intros Hm Hk db H. unfold bind. destruct (Hm db H) as (a & Ha & HQ & HI).
  destruct (m db) as [r db']. simpl in *. subst r. now apply (Hk a HQ).
Qed.

Lemma first_update_first_same {A} (p q : A -> bool) (f : A -> A) rows :
  (forall x, q (f x) = q x) ->
  first q (update_first p f rows) = first q rows
  \/ exists x, first q rows = Some x /\ first q (update_first p f rows) = Some (f x).
Proof.
  intros Hq. unfold first. induction rows as [|r rows IH]; simpl; [now left|].
  destruct (p r) eqn:Hp; simpl.
  - rewrite Hq. destruct (q r); [right; eauto | now left].
  - destruct (q r); [now left | exact IH].
Qed.

Lemma user_of_update telegram_id p f rows user :
  (forall u, User.id (f u) = User.id u /\ User.telegram_id (f u) = User.telegram_id u) ->
  first (has_telegram_id telegram_id) rows = Some user ->
  exists user',
    first (has_telegram_id telegram_id) (update_first p f rows) = Some user'
    /\ User.id user' = User.id user.
Proof.
  intros Hf Hu.
  destruct (first_update_first_same p (has_telegram_id telegram_id) f rows)
    as [-> | (x & Hx1 & ->)].
  - intros u. unfold has_telegram_id. now destruct (Hf u) as (_ & ->).
  - eauto.
  - rewrite Hu in Hx1. injection Hx1 as <-. exists (f user). split; [reflexivity|].
    now destruct (Hf user) as (-> & _).
Qed.

Section HandlerInvariant.

Variables (telegram_id user_id : Z).

#[local] Abbreviation I := (handler_inv telegram_id user_id).

(** A change of the users table that keeps every row's ids and points. *)
Lemma handler_inv_users P X db (f : User.t -> User.t) (p : User.t -> bool) :
  (forall u, User.id (f u) = User.id u /\ User.telegram_id (f u) = User.telegram_id u
             /\ User.total_xp (f u) = User.total_xp u) ->
  I P X db -> I P X (DB.set_users (update_first p f (DB.users db)) db).
Proof.
  intros Hf ((user & Hu & Hid) & Hs & Hx). split; [|split].
  - unfold user_of in *. simpl.
    destruct (user_of_update telegram_id p f _ _
                (fun u => conj (proj1 (Hf u)) (proj1 (proj2 (Hf u)))) Hu)
      as (user' & Hu' & Hid').
    exists user'. split; [exact Hu' | congruence].
  - exact Hs.
  - unfold xp_of in *. simpl.
    destruct (first_update_first_same p (has_id user_id) f (DB.users db))
      as [-> | (x & Hx1 & ->)].
    + intros u. unfold has_id. now destruct (Hf u) as (-> & _).
    + exact Hx.
    + rewrite Hx1 in Hx. now destruct (Hf x) as (_ & _ & ->).
Qed.

(** A change of the tables the invariant does not read. *)
Lemma handler_inv_frame P X db db' :
  DB.users db' = DB.users db -> DB.sessions db' = DB.sessions db -> I P X db -> I P X db'.
Proof.
  intros Hu Hs (H1 & H2 & H3). unfold handler_inv, user_of, xp_of in *.
  rewrite Hu, Hs. auto.
Qed.

(** A write of the user's session. *)
Lemma handler_inv_session P P' X db session' state' :
  Session.quiz_state session' = Some state' -> P' state' ->
  I P X db -> I P' X (DB.set_sessions (<[user_id := session']> (DB.sessions db)) db).
Proof.
  intros Hq HP (H1 & _ & H3). split; [exact H1|]. split; [|exact H3].
  exists session', state'. simpl. rewrite lookup_insert_eq. auto.
Qed.

Lemma runs_get_or_create_user P X now :
  runs (I P X) (get_or_create_user now telegram_id) (fun user => User.id user = user_id) (I P X).
Proof.
  intros db HI. pose proof HI as ((user & Hu & Hid) & _).
  rewrite (get_or_create_user_found _ _ _ _ Hu). simpl. eauto.
Qed.

Lemma runs_get_or_create_session P X :
  runs (I P X) (get_or_create_session user_id)
       (fun session => exists state, Session.quiz_state session = Some state /\ P state)
       (I P X).
Proof.
  intros db HI. pose proof HI as (H1 & (session & state & Hs & Hq & HP) & H3).
  rewrite (get_or_create_session_found _ _ _ Hs). simpl. eauto 6.
Qed.

(** Writing a quiz state replaces what the invariant says of it. *)
Lemma runs_write_state P P' X state :
  P' state ->
  runs (I P X) (update_session_state user_id None None None (Some state) false)
       (fun _ => True) (I P' X).
Proof.
  intros HP db HI. pose proof HI as (H1 & (session & state0 & Hs & _) & H3).
  unfold update_session_state. rewrite Hs. simpl. eexists. split; [reflexivity|].
  split; [exact Logic.I|]. eapply handler_inv_session; [reflexivity | exact HP | exact HI].
Qed.

(** Any other session update leaves the quiz state alone. *)
Lemma runs_update_session_state P X screen current_param message_id add :
  runs (I P X) (update_session_state user_id screen current_param message_id None add)
       (fun _ => True) (I P X).
Proof.
  intros db HI. pose proof HI as (H1 & (session & state & Hs & Hq & HP) & H3).
  unfold update_session_state. rewrite Hs. simpl. eexists. split; [reflexivity|].
  split; [exact Logic.I|]. eapply handler_inv_session; [|exact HP | exact HI].
  unfold session_step. destruct (truthy screen), message_id; exact Hq.
Qed.

Lemma runs_save_message_id P X env :
  runs (I P X) (save_message_id env user_id) (fun _ => True) (I P X).
Proof.
  unfold save_message_id. destruct (render_result env).
  - eapply runs_bind; [apply runs_update_session_state|].
    intros _ _. now apply runs_ret.
  - now apply runs_ret.
Qed.

Lemma runs_update_user_streak P X now :
  runs (I P X) (update_user_streak now user_id) (fun _ => True) (I P X).
Proof.
  intros db HI. unfold update_user_streak.
  destruct (first _ _); simpl; eexists; (split; [reflexivity|]); (split; [exact Logic.I|]);
    [|exact HI].
  apply handler_inv_users; [|exact HI].
  intros u. unfold streak_step.
  repeat match goal with |- context [if ?c then _ else _] => destruct c end; auto.
Qed.

(** The row [add_xp] updates is there. *)
Lemma add_xp_row P X db :
  I P X db ->
  exists u, first (has_id user_id) (DB.users db) = Some u
            /\ User.total_xp u = xp_of user_id db.
Proof.
  intros ((user & Hu & Hid) & _ & _).
  assert (exists u, first (has_id user_id) (DB.users db) = Some u) as [u Hfound].
  { unfold user_of, first in *. apply find_some in Hu. destruct Hu as [Hin _].
    destruct (find (has_id user_id) (DB.users db)) as [u|] eqn:Hf; [eauto|].
    exfalso. eapply find_none in Hf; [|exact Hin].
    unfold has_id in Hf. rewrite Hid, Z.eqb_refl in Hf. discriminate. }
  exists u. split; [exact Hfound|]. unfold xp_of. now rewrite Hfound.
Qed.

Lemma handler_inv_grant P (X X' : Z -> Prop) xp_amount db :
  I P X db ->
  X' (xp_of user_id db + xp_amount) ->
  I P X' (DB.set_users
            (update_first (has_id user_id)
                          (fun u => User.set_total_xp (User.total_xp u + xp_amount) u)
                          (DB.users db)) db).
Proof.
  intros HI HX. destruct (add_xp_row P X db HI) as (u & Hfound & Hxp).
  destruct HI as ((user & Hu & Hid) & Hs & Hx).
  split; [|split].
  - unfold user_of in *. simpl.
    destruct (user_of_update telegram_id (has_id user_id)
                (fun u => User.set_total_xp (User.total_xp u + xp_amount) u) _ _
                (fun u => conj eq_refl eq_refl) Hu) as (user' & Hu' & Hid').
    exists user'. split; [exact Hu' | congruence].
  - exact Hs.
  - unfold xp_of at 1. simpl.
    erewrite first_update_first; [|exact Hfound|].
    + simpl. now rewrite Hxp.
    + unfold first in Hfound. apply find_some in Hfound. exact (proj2 Hfound).
Qed.

Lemma column_limits : 0 < SQLITE_INT_LIMIT <= TRUEDIV_100_LIMIT.
Proof. split; [reflexivity | vm_compute; discriminate]. Qed.

Lemma xp_room x n : 0 <= x < 2 ^ 63 - n -> 0 <= n -> 0 <= x + n < SQLITE_INT_LIMIT.
Proof. unfold SQLITE_INT_LIMIT. lia. Qed.

(** A total inside the column's range is stored and returned. *)
Lemma add_xp_stores uid xp_amount db user :
  first (has_id uid) (DB.users db) = Some user ->
  0 <= User.total_xp user + xp_amount < SQLITE_INT_LIMIT ->
  add_xp uid xp_amount db
  = (Ok (User.total_xp user + xp_amount),
     DB.set_users
       (update_first (has_id uid)
                     (fun u => User.set_total_xp (User.total_xp u + xp_amount) u)
                     (DB.users db)) db).
Proof.
  intros Hu [Hlo Hhi]. unfold add_xp. rewrite Hu. cbv zeta.
  pose proof column_limits as [_ Hlim].
  replace (TRUEDIV_100_LIMIT <=? Z.abs (User.total_xp user + xp_amount)) with false
    by (symmetry; apply Z.leb_gt; lia).
  replace (User.total_xp user + xp_amount <? 0) with false
    by (symmetry; apply Z.ltb_ge; lia).
  replace (SQLITE_INT_LIMIT <=? User.total_xp user + xp_amount) with false
    by (symmetry; apply Z.leb_gt; lia).
  reflexivity.
Qed.


(** On a total that stays inside the column's range the points do move. *)
Lemma runs_add_xp P (X X' : Z -> Prop) xp_amount :
  (forall x, X x -> 0 <= x + xp_amount < SQLITE_INT_LIMIT /\ X' (x + xp_amount)) ->
  runs (I P X) (add_xp user_id xp_amount) (fun _ => True) (I P X').
Proof.
  intros HX db HI.
  destruct (add_xp_row P X db HI) as (u & Hfound & Hxp).
  destruct (HX _ (proj2 (proj2 HI))) as [Hrange HX'].
  rewrite (add_xp_stores user_id xp_amount db u Hfound) by (now rewrite Hxp).
  simpl. eexists. split; [reflexivity|]. split; [exact Logic.I|].
  now apply (handler_inv_grant P X X').
Qed.

(** Whether it raises or not, [add_xp] keeps an invariant that additions
    keep. *)
Lemma triple_add_xp P (X : Z -> Prop) xp_amount :
  (forall x, X x -> X (x + xp_amount)) ->
  triple (I P X) (add_xp user_id xp_amount) (fun _ => True).
Proof.
  intros HX db HI. split; [|auto]. unfold add_xp.
  destruct (add_xp_row P X db HI) as (u & Hfound & Hxp). rewrite Hfound. cbv zeta.
  destruct (_ <=? Z.abs _); [exact HI|].
  destruct (_ <? 0); [exact HI|].
  destruct (_ <=? _); [exact HI|]. cbn [snd].
  apply (handler_inv_grant P X X); [exact HI|]. apply HX. exact (proj2 (proj2 HI)).
Qed.

Lemma runs_update_phase_progress P X uid unit_id subject grade phase accuracy :
  runs (I P X) (update_phase_progress uid unit_id subject grade phase accuracy)
       (fun _ => True) (I P X).
Proof.
  intros db HI. unfold update_phase_progress.
  destruct (first _ _); simpl; eexists; (split; [reflexivity|]); (split; [exact Logic.I|]);
    (eapply handler_inv_frame; [| |exact HI]; reflexivity).
Qed.

Lemma attempt_step_ok correct p : exists p', attempt_step correct p = Ok p'.
Proof.
  unfold attempt_step. destruct (0 <? _) eqn:Hpos; [|eauto].
  unfold py_truediv. apply Z.ltb_lt in Hpos.
  destruct (_ =? 0) eqn:Hz; [apply Z.eqb_eq in Hz; lia | eauto].
Qed.

Lemma runs_record_quiz_attempt P X uid unit_id subject grade correct :
  runs (I P X) (record_quiz_attempt uid unit_id subject grade correct)
       (fun _ => True) (I P X).
Proof.
  intros db HI. unfold record_quiz_attempt.
  destruct (first _ _) as [p|].
  - destruct (attempt_step_ok correct p) as [p' ->]. simpl.
    eexists. split; [reflexivity|]. split; [exact Logic.I|].
    eapply handler_inv_frame; [| |exact HI]; reflexivity.
  - destruct (attempt_step_ok correct (new_progress uid unit_id subject grade)) as [p' ->].
    simpl. eexists. split; [reflexivity|]. split; [exact Logic.I|].
    eapply handler_inv_frame; [| |exact HI]; reflexivity.
Qed.

Lemma runs_add_to_review_queue P X now uid question_id status subject grade unit_name :
  runs (I P X) (add_to_review_queue now uid question_id status subject grade unit_name)
       (fun _ => True) (I P X).
Proof.
  intros db HI. unfold add_to_review_queue.
  destruct (first _ _); simpl; eexists; (split; [reflexivity|]); (split; [exact Logic.I|]);
    (eapply handler_inv_frame; [| |exact HI]; reflexivity).
Qed.

Lemma runs_remove_from_review_queue P X uid question_id :
  runs (I P X) (remove_from_review_queue uid question_id) (fun _ => True) (I P X).
Proof.
  intros db HI. unfold remove_from_review_queue. simpl.
  eexists. split; [reflexivity|]. split; [exact Logic.I|].
  eapply handler_inv_frame; [| |exact HI]; reflexivity.
Qed.

End HandlerInvariant.

Lemma stable_index P i state : stable P -> P state -> P (QuizState.set_current_index i state).
Proof. intros H HP. apply (H state HP). Qed.

Lemma stable_score P n state : stable P -> P state -> P (QuizState.set_score n state).
Proof. intros H HP. apply (H state HP). Qed.

Lemma stable_feedback P f state : stable P -> P state -> P (QuizState.set_last_feedback f state).
Proof. intros H HP. apply (H state HP). Qed.

(** Each step of a handler that keeps the invariant, with what it tells
    about its result. *)
Ltac triple_prim :=
  first [ apply runs_triple, runs_get_or_create_user
        | apply runs_triple, runs_get_or_create_session
        | apply runs_triple, runs_save_message_id
        | apply runs_triple, runs_update_user_streak
        | apply runs_triple, runs_update_phase_progress
        | apply runs_triple, runs_record_quiz_attempt
        | apply runs_triple, runs_add_to_review_queue
        | apply runs_triple, runs_remove_from_review_queue
        | apply runs_triple, runs_update_session_state
        | apply triple_lift
        | apply triple_key ].

Ltac triple_post :=
  cbv beta in *;
  try match goal with H : User.id _ = _ |- _ => rewrite ?H end;
  try match goal with
      | H : exists state, Session.quiz_state _ = Some state /\ _ |- _ =>
          let Hq := fresh "Hq" in destruct H as (? & Hq & ?); rewrite ?Hq
      end.

Ltac triple_auto :=
  lazymatch goal with
  | |- triple _ (bind _ _) _ =>
      first [ eapply triple_bind; [ triple_prim | intros ? ?; triple_post; triple_auto ]
            | eapply triple_bind with (Q := fun _ => True);
              [ triple_auto | intros ? _; triple_auto ] ]
  | |- triple _ (ret _) _ => apply triple_ret; auto
  | |- triple _ (raise _) _ => apply triple_raise
  | |- triple _ (if ?c then _ else _) _ => destruct c eqn:?; triple_auto
  | |- triple _ (match ?x with _ => _ end) _ => destruct x eqn:?; triple_auto
  | |- _ =>
      first [ eapply triple_weaken; [ triple_prim | solve [auto] ]
            | solve [eauto with triple]
            | idtac ]
  end.

Section Handlers.

Variables (telegram_id user_id : Z) (P : QuizState.t -> Prop) (X : Z -> Prop).

#[local] Abbreviation I := (handler_inv telegram_id user_id).

Lemma triple_write_state state :
  P state ->
  triple (I P X) (update_session_state user_id None None None (Some state) false)
         (fun _ => True).
Proof. intros HP. now apply runs_triple, runs_write_state. Qed.

Lemma triple_navigate_to env screen_id param add_to_stack :
  triple (I P X) (navigate_to env telegram_id screen_id param add_to_stack) (fun _ => True).
Proof. unfold navigate_to. triple_auto. Qed.

Lemma triple_show_game_summary env reason :
  triple (I P X) (show_game_summary env telegram_id reason) (fun _ => True).
Proof. unfold show_game_summary. triple_auto. Qed.

#[local] Hint Resolve triple_navigate_to triple_show_game_summary : triple.

Lemma triple_present_game_question env :
  triple (I P X) (present_game_question env telegram_id) (fun _ => True).
Proof. unfold present_game_question. triple_auto. Qed.

Lemma triple_show_quiz_summary env :
  triple (I P X) (show_quiz_summary env telegram_id) (fun _ => True).
Proof. unfold show_quiz_summary. triple_auto. Qed.

#[local] Hint Resolve triple_present_game_question triple_show_quiz_summary : triple.

Lemma triple_present_question env :
  triple (I P X) (present_question env telegram_id) (fun _ => True).
Proof. unfold present_question. triple_auto. Qed.

#[local] Hint Resolve triple_present_question : triple.

Lemma triple_next_question env :
  stable P -> triple (I P X) (next_question env telegram_id) (fun _ => True).
Proof.
  intros HP. unfold next_question. triple_auto.
  apply triple_write_state. now apply (stable_index P).
Qed.

Lemma triple_skip_question env :
  stable P -> stable_history P ->
  triple (I P X) (skip_question env telegram_id) (fun _ => True).
Proof.
  intros HP HH. unfold skip_question. triple_auto.
  apply triple_write_state. apply (stable_index P); [exact HP|]. now apply HH.
Qed.

Lemma triple_handle_game_answer env selected_opt :
  stable P -> (forall x n, X x -> X (x + n)) ->
  triple (I P X) (handle_game_answer env telegram_id selected_opt) (fun _ => True).
Proof.
  intros HP HX. unfold handle_game_answer. triple_auto;
    first [ apply triple_add_xp; auto
          | apply triple_write_state;
            repeat first [ assumption | apply (stable_index P) | apply (stable_score P)
                         | apply (stable_feedback P) ] ].
Qed.

End Handlers.

#[export] Hint Resolve triple_navigate_to triple_show_game_summary
  triple_present_game_question triple_show_quiz_summary triple_present_question : triple.

(** * Composition of handler steps *)

(** A prefix that cannot raise, then whatever the rest does to the
    invariant. *)
Lemma runs_then {A B} I I' (I'' : DB.t -> Prop) (m : M A) (k : A -> M B) (Q : A -> Prop) :
  runs I m Q I' -> (forall a, Q a -> forall db, I' db -> I'' (snd (k a db))) ->
  forall db, I db -> I'' (snd (bind m k db)).
Proof.
  intros Hm Hk db H. unfold bind. destruct (Hm db H) as (a & Ha & HQ & HI).
  destruct (m db) as [r db']. simpl in *. subst r. now apply (Hk a HQ).
Qed.

Lemma leads_bind_runs {A B} I I' I'' (m : M A) (k : A -> M B) (Q : A -> Prop) :
  runs I m Q I' -> (forall a, Q a -> leads I' (k a) I'') -> leads I (bind m k) I''.
Proof. intros Hm Hk. exact (runs_then I I' I'' m k Q Hm Hk). Qed.

Lemma leads_triple {A} I (m : M A) Q : triple I m Q -> leads I m I.
Proof. intros Hm db H. apply (Hm db H). Qed.

Lemma leads_pre {A} (I I0 I' : DB.t -> Prop) (m : M A) :
  (forall db, I db -> I0 db) -> leads I0 m I' -> leads I m I'.
Proof. intros Hpre Hm db H. apply Hm, Hpre, H. Qed.

Lemma leads_bind_lift {A B} (I I' : DB.t -> Prop) (r : Res A) (k : A -> M B) :
  (forall db, I db -> I' db) ->
  (forall a, r = Ok a -> leads I (k a) I') ->
  leads I (bind (lift r) k) I'.
Proof.
  intros Hsub Hk db H. destruct r as [a|e]; simpl.
  - now apply (Hk a).
  - now apply Hsub.
Qed.

Lemma py_index_ok_lt {A} (l : list A) i a :
  py_index l i = Ok a -> (Z.of_nat (length l) <=? i) = false.
Proof.
  unfold py_index. destruct ((i <? - Z.of_nat (length l)) || (Z.of_nat (length l) <=? i)) eqn:H;
    [discriminate|].
  now apply orb_false_iff in H as [_ H].
Qed.

(** * Game modes keep no attempt log (game_handler.handle_game_answer) *)

Lemma handler_inv_stored telegram_id user_id P X db :
  handler_inv telegram_id user_id P X db ->
  exists state, stored_quiz_state telegram_id db = Some state /\ P state.
Proof.
  intros ((user & Hu & Hid) & (session & state & Hs & Hq & HP) & _).
  exists state. split; [|exact HP]. subst user_id.
  now rewrite (stored_quiz_state_found _ _ _ _ Hu Hs).
Qed.

Lemma handler_inv_intro telegram_id (P : QuizState.t -> Prop) db state :
  stored_quiz_state telegram_id db = Some state -> P state ->
  exists user_id,
    handler_inv telegram_id user_id P (eq (xp_of user_id db)) db
    /\ xp_of_user telegram_id db = xp_of user_id db.
Proof.
  intros Hst HP. destruct (stored_quiz_state_inv _ _ _ Hst) as (user & session & Hu & Hs & Hq).
  exists (User.id user). split.
  - split; [eauto|]. split; [eauto 6 | reflexivity].
  - unfold xp_of_user. now rewrite Hu.
Qed.

Lemma handler_inv_weaken telegram_id user_id (P P' : QuizState.t -> Prop) (X X' : Z -> Prop) db :
  (forall s, P s -> P' s) -> (forall x, X x -> X' x) ->
  handler_inv telegram_id user_id P X db -> handler_inv telegram_id user_id P' X' db.
Proof.
  intros HP HX (H1 & (session & state & Hs & Hq & Hstate) & H3).
  split; [exact H1|]. split; [eauto 7 | auto].
Qed.

Lemma handler_inv_any_xp telegram_id user_id P X db :
  handler_inv telegram_id user_id P X db ->
  handler_inv telegram_id user_id P (fun _ => True) db.
Proof. intros (H1 & H2 & _). split; [exact H1|]. split; [exact H2 | exact Logic.I]. Qed.

Lemma handler_inv_exact telegram_id user_id P X db state :
  handler_inv telegram_id user_id P X db ->
  stored_quiz_state telegram_id db = Some state ->
  handler_inv telegram_id user_id (eq state) X db.
Proof.
  intros ((user & Hu & Hid) & (session & state' & Hs & Hq & Hstate) & H3) Hst.
  split; [eauto|]. split; [|exact H3].
  subst user_id. rewrite (stored_quiz_state_found _ _ _ _ Hu Hs), Hq in Hst.
  injection Hst as <-. eauto.
Qed.

Lemma stable_same_mode_and_history state : stable (same_mode_and_history state).
Proof. intros s [Hm Hh]. repeat split; assumption. Qed.

Lemma same_mode_is_game_mode state state' :
  QuizState.mode state' = QuizState.mode state -> is_game_mode state' = is_game_mode state.
Proof. unfold is_game_mode, mode_is. now intros ->. Qed.

(** In a game mode [handle_answer_selection] is [handle_game_answer]. *)
Lemma triple_answer_in_game_mode telegram_id user_id P X env selected_opt :
  (forall state, P state -> is_game_mode state = true) ->
  stable P -> (forall x n, X x -> X (x + n)) ->
  triple (handler_inv telegram_id user_id P X)
         (handle_answer_selection env telegram_id selected_opt) (fun _ => True).
Proof.
  intros Hgame HP HX. unfold handle_answer_selection.
  eapply triple_bind; [apply runs_triple, runs_get_or_create_user|].
  intros user Hid. cbv beta in Hid. rewrite Hid.
  eapply triple_bind; [apply runs_triple, runs_get_or_create_session|].
  intros session (state & Hq & Hstate). rewrite Hq.
  change (mode_is state "SPEEDRUN" || mode_is state "SURVIVAL") with (is_game_mode state).
  rewrite (Hgame _ Hstate). now apply triple_handle_game_answer.
Qed.

Lemma answers_keep_history telegram_id user_id state l db :
  is_game_mode state = true ->
  handler_inv telegram_id user_id (same_mode_and_history state) (fun _ => True) db ->
  handler_inv telegram_id user_id (same_mode_and_history state) (fun _ => True)
              (quiz_run telegram_id (answers l) db).
Proof.
  intros Hgame. revert db. induction l as [|[env selected_opt] l IH]; intros db HI; [exact HI|].
  simpl. apply IH.
  apply (triple_answer_in_game_mode telegram_id user_id _ _ env selected_opt); auto.
  - intros s [Hm _]. now rewrite (same_mode_is_game_mode _ _ Hm).
  - apply stable_same_mode_and_history.
Qed.

(** After [get_or_create_user] the row is there. *)
Lemma get_or_create_user_post now telegram_id db :
  exists user db',
    get_or_create_user now telegram_id db = (Ok user, db')
    /\ user_of telegram_id db' = Some user
    /\ DB.sessions db' = DB.sessions db.
Proof.
  unfold get_or_create_user, user_of.
  destruct (first (has_telegram_id telegram_id) (DB.users db)) as [user|] eqn:Hu.
  - exists user, db. auto.
  - eexists _, _. split; [reflexivity|]. simpl. split; [|reflexivity].
    apply first_app_new; [exact Hu|]. unfold has_telegram_id. simpl. apply Z.eqb_refl.
Qed.

(** A game start writes its initial state, whether the session row was
    there or not. *)
Lemma start_writes_state telegram_id user db screen state :
  user_of telegram_id db = Some user ->
  exists session db',
    update_session_state (User.id user) (Some screen) None None (Some state) false db
    = (Ok session, db')
    /\ handler_inv telegram_id (User.id user) (same_mode_and_history state) (fun _ => True) db'.
Proof.
  intros Hu. unfold update_session_state.
  destruct (DB.sessions db !! User.id user) as [session|] eqn:Hs.
  - eexists _, _. split; [reflexivity|]. split; [eauto|]. split; [|exact Logic.I].
    eexists _, state. simpl. rewrite lookup_insert_eq. split; [reflexivity|].
    split; [|split; reflexivity].
    unfold session_step. now destruct (truthy (Some screen)).
  - destruct (truthy (Some screen)); simpl;
      (eexists _, _; split; [reflexivity|]; split; [eauto|]; split; [|exact Logic.I];
       eexists _, state; simpl; rewrite lookup_insert_eq; split; [reflexivity|];
       split; [reflexivity | split; reflexivity]).
Qed.

(** ** Skip requests in a game run *)

Lemma stable_skips_logged n state : stable (skips_logged n state).
Proof.
  intros s (Hm & skips & Hh & Hs & Hl).
  split; [|split]; intros; (split; [exact Hm | exists skips; auto]).
Qed.

Lemma skips_logged_refl state : skips_logged 0 state state.
Proof.
  split; [reflexivity|]. exists []. rewrite app_nil_r.
  split; [reflexivity|]. split; [reflexivity | simpl; lia].
Qed.

Lemma skips_logged_mono n m state state' :
  (n <= m)%nat -> skips_logged n state state' -> skips_logged m state state'.
Proof.
  intros Hle (Hm & skips & Hh & Hs & Hl). split; [exact Hm|].
  exists skips. split; [exact Hh|]. split; [exact Hs | lia].
Qed.

Lemma skips_logged_skip n state state' q :
  skips_logged n state state' ->
  skips_logged (S n) state
    (QuizState.set_current_index (QuizState.current_index state' + 1)
       (QuizState.set_history (QuizState.history state' ++ [skip_entry q]) state')).
Proof.
  intros (Hm & skips & Hh & Hs & Hl). split; [exact Hm|].
  exists (skips ++ [skip_entry q]).
  cbn [QuizState.history QuizState.set_current_index QuizState.set_history].
  split; [now rewrite Hh, app_assoc|].
  split; [rewrite forallb_app, Hs; reflexivity|].
  rewrite length_app. simpl. lia.
Qed.

(** [skip_question] on the stored state [s], whatever it returns or raises:
    where it does not get as far as the write the state is kept, otherwise
    the state is [s] with the SKIP entry and the next index. *)
Lemma leads_skip_question telegram_id user_id s (P' : QuizState.t -> Prop) X env :
  (Z.of_nat (length (QuizState.questions s)) <= QuizState.current_index s
   \/ is_ok (py_index (QuizState.questions s) (QuizState.current_index s)) = false
   \/ is_ok (review_grade (QuizState.grade s)) = false ->
   P' s) ->
  (forall q, py_index (QuizState.questions s) (QuizState.current_index s) = Ok q ->
             P' (QuizState.set_current_index (QuizState.current_index s + 1)
                   (QuizState.set_history (QuizState.history s ++ [skip_entry q]) s))) ->
  leads (handler_inv telegram_id user_id (eq s) X) (skip_question env telegram_id)
        (handler_inv telegram_id user_id P' X).
Proof.
  intros Hkeep Hskip.
  assert (Hsub : (Z.of_nat (length (QuizState.questions s)) <= QuizState.current_index s
                  \/ is_ok (py_index (QuizState.questions s) (QuizState.current_index s))
                     = false
                  \/ is_ok (review_grade (QuizState.grade s)) = false) ->
                 forall db, handler_inv telegram_id user_id (eq s) X db ->
                            handler_inv telegram_id user_id P' X db).
  { intros Hc db. apply handler_inv_weaken; [intros ? <-; now apply Hkeep | auto]. }
  unfold skip_question.
  eapply leads_bind_runs; [apply runs_get_or_create_user|].
  intros user Hid. cbv beta in Hid. rewrite Hid.
  eapply leads_bind_runs; [apply runs_get_or_create_session|].
  intros session (s' & Hq & <-). rewrite Hq. cbv zeta.
  destruct (Z.of_nat (length (QuizState.questions s)) <=? QuizState.current_index s) eqn:Hend.
  { apply Z.leb_le in Hend. intros db HI. apply Hsub; [now left|].
    now apply (triple_show_quiz_summary telegram_id user_id (eq s) X env db). }
  destruct (py_index (QuizState.questions s) (QuizState.current_index s)) as [q|e] eqn:Hpy.
  2:{ intros db HI. apply Hsub; [right; left; reflexivity | exact HI]. }
  eapply leads_bind_runs; [apply runs_lift|]. intros ? <-.
  cbn [QuizState.grade QuizState.set_history].
  destruct (review_grade (QuizState.grade s)) as [grade|e] eqn:Hgrade.
  2:{ intros db HI. apply Hsub; [right; right; reflexivity | exact HI]. }
  eapply leads_bind_runs; [apply runs_lift|]. intros ? <-.
  eapply leads_bind_runs; [apply runs_add_to_review_queue|]. intros _ _.
  eapply leads_bind_runs; [apply (runs_write_state _ _ _ P'); now apply Hskip|]. intros _ _.
  apply (leads_triple _ _ (fun _ => True)). apply triple_present_question.
Qed.

(** One request of a run in a game mode: only a skip can add to the
    history, and what it adds is one SKIP entry. *)
Lemma game_step_logs_skips telegram_id user_id state n op db :
  is_game_mode state = true ->
  handler_inv telegram_id user_id (skips_logged n state) (fun _ => True) db ->
  handler_inv telegram_id user_id
              (skips_logged (n + (if is_skip_request op then 1 else 0)) state)
              (fun _ => True)
              (snd (quiz_step (fst op) telegram_id (snd op) db)).
Proof.
  intros Hgame HI. destruct op as [env [selected_opt| |]]; cbn [fst snd quiz_step is_skip_request].
  - rewrite Nat.add_0_r.
    apply (triple_answer_in_game_mode telegram_id user_id _ _ env selected_opt); auto.
    + intros s [Hm _]. now rewrite (same_mode_is_game_mode _ _ Hm).
    + apply stable_skips_logged.
  - rewrite Nat.add_0_r.
    apply (triple_next_question telegram_id user_id _ _ env (stable_skips_logged n state)
                                db HI).
  - rewrite Nat.add_1_r.
    destruct (handler_inv_stored _ _ _ _ _ HI) as (s & Hst & Hs).
    apply (leads_skip_question telegram_id user_id s _ _ env).
    + intros _. exact (skips_logged_mono n (S n) _ _ ltac:(lia) Hs).
    + intros q _. now apply skips_logged_skip.
    + exact (handler_inv_exact _ _ _ _ _ _ HI Hst).
Qed.

Lemma game_run_logs_skips telegram_id user_id state ops :
  is_game_mode state = true ->
  forall n db,
    handler_inv telegram_id user_id (skips_logged n state) (fun _ => True) db ->
    handler_inv telegram_id user_id (skips_logged (n + skip_requests ops) state)
                (fun _ => True) (quiz_run telegram_id ops db).
Proof.
  intros Hgame. induction ops as [|[env op] ops IH]; intros n db HI.
  - cbn. now rewrite Nat.add_0_r.
  - cbn [quiz_run]. unfold skip_requests. cbn [List.filter].
    pose proof (game_step_logs_skips telegram_id user_id state n (env, op) db Hgame HI)
      as Hstep.
    cbn [fst snd] in Hstep. apply IH in Hstep. unfold skip_requests in Hstep.
    destruct (is_skip_request (env, op)); cbn [length].
    + now rewrite Nat.add_succ_r, <- Nat.add_1_r, <- Nat.add_assoc, (Nat.add_comm _ 1),
                  Nat.add_assoc.
    + now rewrite Nat.add_0_r in Hstep.
Qed.

(** A run that a game start began: the history holds SKIP entries only, at
    most one for each skip request. *)
Lemma started_run_logs_skips telegram_id user db screen state0 env ops :
  user_of telegram_id db = Some user ->
  is_game_mode state0 = true ->
  QuizState.history state0 = [] ->
  exists state',
    stored_quiz_state telegram_id
      (quiz_run telegram_id ops
         (snd (bind (update_session_state (User.id user) (Some screen) None None
                                          (Some state0) false)
                    (fun _ => present_game_question env telegram_id) db)))
    = Some state'
    /\ QuizState.mode state' = QuizState.mode state0
    /\ forallb is_skip (QuizState.history state') = true
    /\ (length (QuizState.history state') <= skip_requests ops)%nat.
Proof.
  intros Hu Hgame Hempty.
  destruct (start_writes_state telegram_id user db screen state0 Hu)
    as (session & db2 & Hrun2 & HI).
  rewrite (bind_ok _ _ _ _ _ Hrun2).
  apply (handler_inv_weaken _ _ _ (skips_logged 0 state0) _ (fun _ => True)) in HI;
    [|intros s [Hm Hh]; split; [exact Hm|]; exists []; rewrite Hh, app_nil_r;
      split; [reflexivity|]; split; [reflexivity | simpl; lia]
     | auto].
  apply (triple_present_game_question telegram_id (User.id user) _ _ env) in HI.
  apply proj1 in HI.
  apply (game_run_logs_skips telegram_id (User.id user) state0 ops Hgame) in HI.
  destruct (handler_inv_stored _ _ _ _ _ HI) as (state' & Hst' & Hm & skips & Hh & Hs & Hl).
  exists state'. rewrite Hh, Hempty. cbn [app]. auto.
Qed.

Lemma skip_requests_answers l : skip_requests (answers l) = 0%nat.
Proof.
  unfold skip_requests, answers. induction l as [|[env selected_opt] l IH]; [reflexivity|].
  exact IH.
Qed.

(** C10 (amended). In SPEEDRUN and SURVIVAL modes processing an answer never
    changes the history of the stored quiz state, whatever the handler
    returns or raises.  Over a whole run in these modes (answers, next and
    skip requests in any order) the mode stays and the history grows by
    SKIP entries only, at most one for each skip request: a run that
    [start_speedrun] or [start_survival] started holds nothing but SKIP
    entries, and an empty history when no skip was requested, so after any
    number of answers.  A skip request is handled the same in every mode:
    when the current question exists and the grade label parses, it appends
    the SKIP entry of that question.  (CHALLENGE answers go through the
    standard handler, which logs them.) *)
Theorem game_answers_keep_history_empty
    env telegram_id selected_opt db state duration_seconds subject_code subject grade
    questions :
  (stored_quiz_state telegram_id db = Some state ->
   is_game_mode state = true ->
   exists state',
     stored_quiz_state telegram_id
       (snd (handle_answer_selection env telegram_id selected_opt db)) = Some state'
     /\ QuizState.history state' = QuizState.history state
     /\ QuizState.mode state' = QuizState.mode state)
  /\ (stored_quiz_state telegram_id db = Some state ->
      is_game_mode state = true ->
      forall ops,
      exists state',
        stored_quiz_state telegram_id (quiz_run telegram_id ops db) = Some state'
        /\ skips_logged (skip_requests ops) state state')
  /\ (questions <> [] -> is_ok (py_int (time_time env)) = true ->
      forall ops,
      exists state',
        stored_quiz_state telegram_id
          (quiz_run telegram_id ops
             (snd (start_speedrun env telegram_id duration_seconds subject_code grade
                                  questions db))) = Some state'
        /\ QuizState.mode state' = Some "SPEEDRUN"
        /\ forallb is_skip (QuizState.history state') = true
        /\ (length (QuizState.history state') <= skip_requests ops)%nat
        /\ (skip_requests ops = 0%nat -> QuizState.history state' = []))
  /\ (questions <> [] -> is_ok (py_int (time_time env)) = true ->
      forall ops,
      exists state',
        stored_quiz_state telegram_id
          (quiz_run telegram_id ops
             (snd (start_survival env telegram_id subject grade questions db))) = Some state'
        /\ QuizState.mode state' = Some "SURVIVAL"
        /\ forallb is_skip (QuizState.history state') = true
        /\ (length (QuizState.history state') <= skip_requests ops)%nat
        /\ (skip_requests ops = 0%nat -> QuizState.history state' = []))
  /\ (forall l, skip_requests (answers l) = 0%nat)
  /\ (forall q,
        stored_quiz_state telegram_id db = Some state ->
        py_index (QuizState.questions state) (QuizState.current_index state) = Ok q ->
        is_ok (review_grade (QuizState.grade state)) = true ->
        exists state',
          stored_quiz_state telegram_id (snd (skip_question env telegram_id db)) = Some state'
          /\ QuizState.history state' = QuizState.history state ++ [skip_entry q]
          /\ QuizState.mode state' = QuizState.mode state).
Proof.
  split; [|split; [|split; [|split; [|split]]]].
  - intros Hst Hgame.
    destruct (handler_inv_intro telegram_id (same_mode_and_history state) db state Hst)
      as (user_id & HI & _); [split; reflexivity|].
    apply handler_inv_any_xp in HI.
    pose proof (answers_keep_history telegram_id user_id state [(env, selected_opt)] db
                  Hgame HI) as HI'.
    destruct (handler_inv_stored _ _ _ _ _ HI') as (state' & Hst' & Hm & Hh).
    exists state'. auto.
  - intros Hst Hgame ops.
    destruct (handler_inv_intro telegram_id (skips_logged 0 state) db state Hst)
      as (user_id & HI & _); [apply skips_logged_refl|].
    apply handler_inv_any_xp in HI.
    apply (game_run_logs_skips telegram_id user_id state ops Hgame) in HI.
    exact (handler_inv_stored _ _ _ _ _ HI).
  - intros Hq Hnow ops. unfold start_speedrun.
    destruct (get_or_create_user_post (utcnow env) telegram_id db)
      as (user & db1 & Hrun & Hu & _).
    rewrite (bind_ok _ _ _ _ _ Hrun).
    destruct questions as [|q questions]; [congruence|].
    destruct (py_int (time_time env)) as [stamp|]; [|discriminate].
    unfold bind at 1, lift at 1.
    match goal with
    | |- context [update_session_state _ _ _ _ (Some ?s) _] => set (state0 := s)
    end.
    destruct (started_run_logs_skips telegram_id user db1 "SCR_GAME_PRES" state0 env ops Hu
                eq_refl eq_refl) as (state' & Hst' & Hm & Hs & Hl).
    exists state'. split; [exact Hst'|]. split; [exact Hm|]. split; [exact Hs|].
    split; [exact Hl|]. intros H0. rewrite H0 in Hl.
    destruct (QuizState.history state'); [reflexivity | simpl in Hl; lia].
  - intros Hq Hnow ops. unfold start_survival.
    destruct (get_or_create_user_post (utcnow env) telegram_id db)
      as (user & db1 & Hrun & Hu & _).
    rewrite (bind_ok _ _ _ _ _ Hrun).
    destruct questions as [|q questions]; [congruence|].
    destruct (py_int (time_time env)) as [stamp|]; [|discriminate].
    unfold bind at 1, lift at 1.
    match goal with
    | |- context [update_session_state _ _ _ _ (Some ?s) _] => set (state0 := s)
    end.
    destruct (started_run_logs_skips telegram_id user db1 "SCR_GAME_PRES" state0 env ops Hu
                eq_refl eq_refl) as (state' & Hst' & Hm & Hs & Hl).
    exists state'. split; [exact Hst'|]. split; [exact Hm|]. split; [exact Hs|].
    split; [exact Hl|]. intros H0. rewrite H0 in Hl.
    destruct (QuizState.history state'); [reflexivity | simpl in Hl; lia].
  - apply skip_requests_answers.
  - intros q Hst Hpy Hgrade.
    destruct (handler_inv_intro telegram_id (eq state) db state Hst eq_refl)
      as (user_id & HI & _).
    apply (leads_skip_question telegram_id user_id state
             (fun s => QuizState.history s = QuizState.history state ++ [skip_entry q]
                       /\ QuizState.mode s = QuizState.mode state) _ env) in HI.
    + destruct (handler_inv_stored _ _ _ _ _ HI) as (state' & Hst' & Hh & Hm). eauto.
    + intros [Hend | [Hno | Hno]].
      * apply py_index_ok_lt in Hpy. apply Z.leb_gt in Hpy. lia.
      * rewrite Hpy in Hno. discriminate.
      * congruence.
    + intros q' Hq'. rewrite Hpy in Hq'. injection Hq' as <-. split; reflexivity.
Qed.

Lemma game_answers_keep_history_empty_witness :
  (exists state',
     stored_quiz_state 42 (snd (handle_answer_selection example_env 42 (Some "A") survival_db))
     = Some state'
     /\ QuizState.history state' = []
     /\ QuizState.mode state' = Some "SURVIVAL")
  /\ exists state',
       stored_quiz_state 42 (snd (skip_question example_env 42 survival_db)) = Some state'
       /\ QuizState.history state' = [skip_entry (example_question "q0")]
       /\ QuizState.mode state' = Some "SURVIVAL".
Proof.
  destruct (game_answers_keep_history_empty example_env 42 (Some "A") survival_db
              survival_state 60 None "BIO" None two_questions)
    as (H1 & _ & _ & _ & _ & H6).
  split.
  - destruct H1 as (state' & Hs & Hh & Hm); [vm_compute; reflexivity | reflexivity |].
    exists state'. rewrite Hh, Hm. auto.
  - destruct (H6 (example_question "q0")) as (state' & Hs & Hh & Hm);
      [vm_compute; reflexivity | reflexivity | reflexivity |].
    exists state'. rewrite Hh, Hm. auto.
Defined.

(** The claim as stated fails for CHALLENGE: the first answer of a peer
    challenge is appended to the history. *)
Lemma challenge_answer_is_logged :
  QuizState.mode <$> stored_quiz_state 42 challenge_db = Some (Some "CHALLENGE")
  /\ QuizState.history <$> stored_quiz_state 42 challenge_db = Some []
  /\ QuizState.history
       <$> stored_quiz_state 42
             (snd (handle_answer_selection example_env 42 (Some "A") challenge_db))
     = Some [HistoryEntry.mk "q0" (Some "A") "A" true].
Proof. repeat split; vm_compute; reflexivity. Qed.

(** * Standard and review quizzes: answer, then next (quiz_handler) *)

Lemma runs_standard_answer telegram_id user_id (X X' : Z -> Prop) env selected_opt state q :
  is_game_mode state = false ->
  py_index (QuizState.questions state) (QuizState.current_index state) = Ok q ->
  is_ok (review_grade (QuizState.grade state)) = true ->
  (forall x, X x -> 0 <= x + 10 < SQLITE_INT_LIMIT /\ X' (x + 10)) ->
  (forall x, X x -> X' x) ->
  let is_correct := bool_decide (selected_opt = Some (Question.correct_answer q)) in
  runs (handler_inv telegram_id user_id (eq state) X)
       (handle_answer_selection env telegram_id selected_opt)
       (eq (Some (QuizFb is_correct (Question.correct_answer q))))
       (handler_inv telegram_id user_id
                    (logged state (answer_entry q selected_opt is_correct)) X').
Proof.
  intros Hgame Hpy Hgrade HX Hkeep is_correct. unfold handle_answer_selection.
  eapply runs_bind; [apply runs_get_or_create_user|].
  intros user Hid. cbv beta in Hid. rewrite Hid.
  eapply runs_bind; [apply runs_get_or_create_session|].
  intros session (state' & Hq & <-). rewrite Hq.
  change (mode_is state "SPEEDRUN" || mode_is state "SURVIVAL") with (is_game_mode state).
  rewrite Hgame, Hpy.
  eapply runs_bind; [apply runs_lift|]. intros ? <-.
  eapply runs_bind; [apply runs_record_quiz_attempt|]. intros _ _.
  fold is_correct.
  eapply runs_bind with
    (Q := fun s => QuizState.history s = QuizState.history state
                   /\ QuizState.current_index s = QuizState.current_index state
                   /\ QuizState.mode s = QuizState.mode state)
    (I' := handler_inv telegram_id user_id (eq state) X').
  { destruct is_correct.
    - eapply runs_bind; [apply (runs_add_xp _ _ _ X X'), HX|]. intros _ _.
      eapply runs_bind; [apply runs_remove_from_review_queue|]. intros _ _.
      apply runs_ret. auto.
    - destruct (review_grade (QuizState.grade state)) as [grade|]; [|discriminate].
      eapply runs_bind; [apply runs_lift|]. intros ? <-.
      eapply runs_bind; [apply runs_add_to_review_queue|]. intros _ _.
      intros db HI. exists state. split; [reflexivity|]. split; [auto|].
      exact (handler_inv_weaken _ _ _ _ _ _ _ (fun s H => H) Hkeep HI). }
  intros state1 (Hh & Hi & Hm).
  eapply runs_bind; [apply (runs_write_state _ _ _
                              (logged state (answer_entry q selected_opt is_correct)))|].
  { split; simpl; [now rewrite Hh | exact Hi]. }
  intros _ _.
  eapply runs_bind with (Q := fun _ => True).
  { destruct (mode_is _ "CHALLENGE").
    - eapply runs_bind; [apply (runs_write_state _ _ _
                                  (logged state (answer_entry q selected_opt is_correct)))|].
      { split; simpl; [now rewrite Hh | exact Hi]. }
      intros _ _. now apply runs_ret.
    - now apply runs_ret. }
  intros _ _.
  eapply runs_bind; [apply runs_save_message_id|]. intros _ _.
  now apply runs_ret.
Qed.

Lemma next_question_advances telegram_id user_id X env state db :
  handler_inv telegram_id user_id (eq state) X db ->
  handler_inv telegram_id user_id
              (eq (QuizState.set_current_index (QuizState.current_index state + 1) state)) X
              (snd (next_question env telegram_id db)).
Proof.
  unfold next_question.
  eapply runs_then; [apply runs_get_or_create_user|].
  intros user Hid. cbv beta in Hid. rewrite Hid.
  eapply runs_then; [apply runs_get_or_create_session|].
  intros session (state' & Hq & <-). rewrite Hq.
  eapply runs_then with
    (I' := handler_inv telegram_id user_id
             (eq (QuizState.set_current_index (QuizState.current_index state + 1) state)) X);
    [now apply runs_write_state|].
  intros _ _ db' HI. now apply triple_present_question.
Qed.

(** C6. In the standard and review modes (any state that is not SPEEDRUN or
    SURVIVAL) an answer to the current question appends exactly one entry
    (question id, selected option, correct option, verdict) to the history,
    leaves the index where it is and shows the feedback screen; the next
    request then moves the index by exactly one and leaves the history
    alone.  The state is one whose current question exists and whose grade
    label parses, and the user's experience points are not negative and
    leave room for the ten of a right answer below 2^63, the limit of the
    column. *)
Theorem answer_logs_then_next_advances env env' telegram_id selected_opt db state q :
  stored_quiz_state telegram_id db = Some state ->
  is_game_mode state = false ->
  py_index (QuizState.questions state) (QuizState.current_index state) = Ok q ->
  is_ok (review_grade (QuizState.grade state)) = true ->
  0 <= xp_of_user telegram_id db < 2 ^ 63 - 10 ->
  let is_correct := bool_decide (selected_opt = Some (Question.correct_answer q)) in
  exists db1 state1,
    handle_answer_selection env telegram_id selected_opt db
    = (Ok (Some (QuizFb is_correct (Question.correct_answer q))), db1)
    /\ stored_quiz_state telegram_id db1 = Some state1
    /\ QuizState.history state1
       = QuizState.history state
         ++ [HistoryEntry.mk (Question.question_id q) selected_opt
                             (Question.correct_answer q) is_correct]
    /\ QuizState.current_index state1 = QuizState.current_index state
    /\ exists state2,
         stored_quiz_state telegram_id (snd (next_question env' telegram_id db1)) = Some state2
         /\ QuizState.current_index state2 = QuizState.current_index state + 1
         /\ QuizState.history state2 = QuizState.history state1.
Proof.
  intros Hst Hgame Hpy Hgrade Hxp is_correct.
  destruct (handler_inv_intro telegram_id (eq state) db state Hst eq_refl) as (user_id & HI & Hx).
  apply (handler_inv_weaken _ _ _ (eq state) _ (fun x => 0 <= x < 2 ^ 63 - 10)) in HI;
    [|auto|intros ? <-; now rewrite <- Hx].
  destruct (runs_standard_answer telegram_id user_id (fun x => 0 <= x < 2 ^ 63 - 10)
              (fun _ => True) env selected_opt state q Hgame Hpy Hgrade
              (fun x Hx => conj (xp_room x 10 Hx ltac:(lia)) Logic.I) (fun _ _ => Logic.I)
              db HI) as (r & Hr & <- & HI1).
  destruct (handle_answer_selection env telegram_id selected_opt db) as [r db1] eqn:Hrun.
  simpl in Hr, HI1. subst r.
  destruct (handler_inv_stored _ _ _ _ _ HI1) as (state1 & Hst1 & Hh1 & Hi1).
  exists db1, state1. split; [reflexivity|]. split; [exact Hst1|].
  split; [exact Hh1|]. split; [exact Hi1|].
  destruct (stored_quiz_state_inv _ _ _ Hst1) as (user & session & Hu & Hs & Hq).
  assert (HI1' : handler_inv telegram_id user_id (eq state1) (fun _ => True) db1).
  { destruct HI1 as ((user' & Hu' & Hid) & _ & _). rewrite Hu in Hu'. injection Hu' as <-.
    split; [eauto|]. split; [|exact Logic.I]. subst user_id. eauto 6. }
  apply (next_question_advances telegram_id user_id _ env') in HI1'.
  destruct (handler_inv_stored _ _ _ _ _ HI1') as (state2 & Hst2 & <-).
  exists (QuizState.set_current_index (QuizState.current_index state1 + 1) state1).
  split; [exact Hst2|]. simpl. split; [now rewrite Hi1 | reflexivity].
Qed.

Lemma answer_logs_then_next_advances_witness :
  exists db1 state1,
    handle_answer_selection example_env 42 (Some "B") unit_quiz_db
    = (Ok (Some (QuizFb false "A")), db1)
    /\ stored_quiz_state 42 db1 = Some state1
    /\ QuizState.history state1 = [HistoryEntry.mk "q0" (Some "B") "A" false]
    /\ QuizState.current_index state1 = 0
    /\ exists state2,
         stored_quiz_state 42 (snd (next_question example_env 42 db1)) = Some state2
         /\ QuizState.current_index state2 = 1
         /\ QuizState.history state2 = QuizState.history state1.
Proof.
  apply (answer_logs_then_next_advances example_env example_env 42 (Some "B") unit_quiz_db
           unit_quiz_state (set_source_unit "Unit 1" (example_question "q0"))).
  - vm_compute. reflexivity.
  - reflexivity.
  - reflexivity.
  - reflexivity.
  - vm_compute. split; [discriminate | reflexivity].
Defined.

(** * A stale index (quiz_handler) *)

Lemma py_index_out_of_range {A} (l : list A) i :
  Z.of_nat (length l) <= i -> py_index l i = Raise IndexError.
Proof.
  intros H. unfold py_index.
  replace (Z.of_nat (length l) <=? i) with true by (symmetry; now apply Z.leb_le).
  now rewrite orb_true_r.
Qed.

Lemma bind_lift_ok {A B} (a : A) (k : A -> M B) db : bind (lift (Ok a)) k db = k a db.
Proof. reflexivity. Qed.

Lemma bind_lift_raise {A B} e (k : A -> M B) db : bind (lift (Raise e)) k db = (Raise e, db).
Proof. reflexivity. Qed.

Lemma bind_ret {A B} (a : A) (k : A -> M B) db : bind (ret a) k db = k a db.
Proof. reflexivity. Qed.

(** C2 (what the code does). With [current_index] at or past the end of the
    question list, presenting and skipping show the summary, but an answer
    raises [IndexError]: [handle_answer_selection] and [handle_game_answer]
    index the list without the test the other two make. *)
Theorem stale_index_answer_raises env telegram_id selected_opt db state :
  stored_quiz_state telegram_id db = Some state ->
  Z.of_nat (length (QuizState.questions state)) <= QuizState.current_index state ->
  present_question env telegram_id db = show_quiz_summary env telegram_id db
  /\ skip_question env telegram_id db = show_quiz_summary env telegram_id db
  /\ (is_game_mode state = false \/ speedrun_expired env state = Some false ->
      handle_answer_selection env telegram_id selected_opt db = (Raise IndexError, db)).
Proof.
  intros Hst Hlen.
  destruct (stored_quiz_state_inv _ _ _ Hst) as (user & session & Hu & Hs & Hq).
  pose proof (proj2 (Z.leb_le _ _) Hlen) as Hleb.
  split; [|split].
  - unfold present_question. enter Hu Hs. now rewrite Hq, Hleb.
  - unfold skip_question. enter Hu Hs. now rewrite Hq, Hleb.
  - intros Hcase. unfold handle_answer_selection. enter Hu Hs. rewrite Hq.
    change (mode_is state "SPEEDRUN" || mode_is state "SURVIVAL") with (is_game_mode state).
    destruct (is_game_mode state) eqn:Hgame.
    + destruct Hcase as [|Hexp]; [discriminate|].
      unfold handle_game_answer. enter Hu Hs. rewrite Hq.
      unfold speedrun_expired in Hexp. unfold is_game_mode, mode_is in *.
      destruct (QuizState.mode state) as [mode|]; [|discriminate].
      unfold key at 1. rewrite bind_ret.
      destruct (bool_decide (Some mode = Some "SPEEDRUN")) eqn:Hsr.
      * apply bool_decide_eq_true_1 in Hsr. injection Hsr as ->.
        change (str_eqb "SPEEDRUN" "SPEEDRUN") with true. cbv iota.
        destruct (QuizState.start_time state) as [start_time|]; [|discriminate].
        destruct (QuizState.duration state) as [duration|]; [|discriminate].
        simpl in Hexp. injection Hexp as Hexp.
        unfold key. unfold bind at 1. rewrite !bind_ret. unfold ret at 1. cbv beta iota.
        rewrite Hexp.
        now rewrite (py_index_out_of_range _ _ Hlen).
      * assert (str_eqb mode "SPEEDRUN" = false) as ->.
        { unfold str_eqb. apply bool_decide_eq_false_2. intros ->.
          now rewrite bool_decide_eq_true_2 in Hsr. }
        rewrite bind_ret. now rewrite (py_index_out_of_range _ _ Hlen).
    + now rewrite (py_index_out_of_range _ _ Hlen).
Qed.

Lemma stale_index_answer_raises_witness :
  QuizState.current_index finished_quiz_state = 2
  /\ length (QuizState.questions finished_quiz_state) = 2%nat
  /\ handle_answer_selection example_env 42 (Some "A") finished_quiz_db
     = (Raise IndexError, finished_quiz_db).
Proof.
  split; [reflexivity|]. split; [reflexivity|].
  apply (stale_index_answer_raises example_env 42 (Some "A") finished_quiz_db
           finished_quiz_state).
  - vm_compute. reflexivity.
  - vm_compute. discriminate.
  - left. reflexivity.
Defined.

(** * The batch summary and the phase it records (quiz_handler.show_quiz_summary) *)

Lemma update_phase_progress_run user_id unit_id subject grade phase accuracy db :
  let p' := phase_step phase accuracy
              (default (new_progress user_id unit_id subject grade)
                       (progress_of user_id unit_id db)) in
  exists db',
    update_phase_progress user_id unit_id subject grade phase accuracy db = (Ok p', db')
    /\ progress_of user_id unit_id db' = Some p'
    /\ DB.users db' = DB.users db
    /\ DB.sessions db' = DB.sessions db.
Proof.
  unfold update_phase_progress, progress_of.
  destruct (first (is_progress user_id unit_id) (DB.progress db)) as [p|] eqn:Hp; simpl.
  - eexists. split; [reflexivity|]. simpl. split; [|auto].
    apply first_update_first; [exact Hp|].
    rewrite phase_step_key. unfold first in Hp. now apply find_some in Hp.
  - eexists. split; [reflexivity|]. simpl. split; [|auto].
    apply first_app_new; [exact Hp|].
    rewrite phase_step_key. unfold is_progress, str_eqb. simpl.
    now rewrite Z.eqb_refl, bool_decide_eq_true_2.
Qed.

Lemma update_user_streak_run now user_id db :
  exists n db',
    update_user_streak now user_id db = (Ok n, db') /\ DB.progress db' = DB.progress db.
Proof.
  unfold update_user_streak. destruct (first _ _); eexists _, _; split; reflexivity.
Qed.

(** C1 (what the code does). For a finished batch of ten questions with nine
    right answers the summary computes the accuracy 90.0 and shows the phase
    BALANCED, but it records the batch under that derived phase: the unit's
    progress record gets [balanced_accuracy = 90.0], [unlocked_exam = true]
    and [current_phase = EXAM_BIASED], and [unlocked_balanced] stays what it
    was (false for a new record). *)
Theorem summary_of_nine_in_ten_unlocks_exam env telegram_id db state grade :
  stored_quiz_state telegram_id db = Some state ->
  mode_is state "CHALLENGE" = false ->
  length (QuizState.questions state) = 10%nat ->
  QuizState.score state = 9 ->
  summary_grade (QuizState.grade state) = Ok grade ->
  let skipped := Z.of_nat (length (List.filter is_skip (QuizState.history state))) in
  exists user db' p',
    user_of telegram_id db = Some user
    /\ show_quiz_summary env telegram_id db
       = (Ok (Some (QuizSum (summary_screen state) 9 (10 - 9 - skipped) skipped 90 90
                            "BALANCED")), db')
    /\ progress_of (User.id user) (QuizState.unit_id state) db' = Some p'
    /\ Progress.balanced_accuracy p' = 90%float
    /\ Progress.unlocked_exam p' = true
    /\ Progress.current_phase p' = "EXAM_BIASED"
    /\ Progress.unlocked_balanced p'
       = match progress_of (User.id user) (QuizState.unit_id state) db with
         | Some p => Progress.unlocked_balanced p
         | None => false
         end.
Proof.
  intros Hst Hmode Hlen Hscore Hgrade skipped.
  destruct (stored_quiz_state_inv _ _ _ Hst) as (user & session & Hu & Hs & Hq).
  unfold show_quiz_summary. enter Hu Hs. rewrite Hq, Hmode, Hlen, Hscore, Hgrade.
  change (py_truediv 9 (Z.of_nat 10)) with (Ok (A := float) (9 / 10)%float).
  rewrite bind_lift_ok.
  change (9 / 10 * 100)%float with 90%float.
  change (derived_phase 90) with "BALANCED".
  rewrite bind_lift_ok.
  destruct (update_phase_progress_run (User.id user) (QuizState.unit_id state)
              (QuizState.subject state) grade "BALANCED" 90%float db)
    as (db1 & Hrun1 & Hp1 & _).
  rewrite (bind_ok _ _ _ _ _ Hrun1).
  destruct (update_user_streak_run (utcnow env) (User.id user) db1)
    as (n & db2 & Hrun2 & Hp2).
  rewrite (bind_ok _ _ _ _ _ Hrun2).
  change (py_int (90 / 10)%float) with (Ok 9).
  rewrite bind_lift_ok.
  change (py_int 90%float) with (Ok 90).
  rewrite bind_lift_ok. unfold ret.
  eexists user, db2, _. split; [exact Hu|]. split; [reflexivity|].
  split; [unfold progress_of in *; rewrite Hp2; exact Hp1|].
  unfold progress_of.
  destruct (first (is_progress (User.id user) (QuizState.unit_id state)) (DB.progress db));
    repeat split.
Qed.

Lemma summary_of_nine_in_ten_unlocks_exam_witness :
  exists db' p',
    show_quiz_summary example_env 42 nine_of_ten_db
    = (Ok (Some (QuizSum "SCR_QUIZ_SUM" 9 1 0 90 90 "BALANCED")), db')
    /\ progress_of 1 "BIO_Grade10_U1" db' = Some p'
    /\ Progress.unlocked_balanced p' = false
    /\ Progress.unlocked_exam p' = true
    /\ Progress.current_phase p' = "EXAM_BIASED".
Proof.
  destruct (summary_of_nine_in_ten_unlocks_exam example_env 42 nine_of_ten_db
              nine_of_ten_state 10)
    as (user & db' & p' & Hu & Hrun & Hp & _ & He & Hc & Hb).
  - vm_compute. reflexivity.
  - reflexivity.
  - reflexivity.
  - reflexivity.
  - reflexivity.
  - vm_compute in Hu. injection Hu as <-.
    exists db', p'. split; [|auto].
    rewrite Hrun. vm_compute. reflexivity.
Defined.

(** * Experience points: what a run awards *)

Lemma handler_inv_xp telegram_id user_id P x db :
  handler_inv telegram_id user_id P (eq x) db -> xp_of_user telegram_id db = x.
Proof.
  intros ((user & Hu & Hid) & _ & Hx). unfold xp_of_user. rewrite Hu, Hid. now symmetry.
Qed.

Lemma stable_same_mode state : stable (same_mode state).
Proof. intros s Hm. repeat split; intros; exact Hm. Qed.

Lemma stable_history_same_mode state : stable_history (same_mode state).
Proof. intros s h Hm. exact Hm. Qed.

Lemma xp_rate_nonneg state : 0 <= xp_rate state.
Proof. unfold xp_rate. repeat destruct (mode_is _ _); lia. Qed.

Lemma same_mode_xp_rate state state' : same_mode state state' -> xp_rate state' = xp_rate state.
Proof. unfold same_mode, xp_rate, mode_is. now intros ->. Qed.

Lemma standard_xp_rate state : is_game_mode state = false -> xp_rate state = 10.
Proof.
  unfold is_game_mode, xp_rate. intros H. apply orb_false_iff in H as [H1 H2].
  now rewrite H1, H2.
Qed.

Section XpStep.

Variables (telegram_id user_id : Z) (env : Env) (selected_opt : option string).
Variables (state0 state : QuizState.t) (x : Z).
Hypothesis Hmode : same_mode state0 state.
Hypothesis Hx : 0 <= x.
Hypothesis Hroom :
  answered_correctly env state selected_opt = true -> x + xp_rate state < SQLITE_INT_LIMIT.

#[local] Abbreviation Exact := (handler_inv telegram_id user_id (eq state)).
#[local] Abbreviation Same := (handler_inv telegram_id user_id (same_mode state0)).

Lemma exact_same X db : Exact X db -> Same X db.
Proof. apply handler_inv_weaken; [now intros ? <- | auto]. Qed.

(** What follows the scoring of a standard answer: the history entry, the
    write, the feedback screen. *)
Lemma standard_answer_tail X (state1 : QuizState.t) (entry : HistoryEntry.t) is_correct correct_opt :
  same_mode state0 state1 ->
  leads (Exact X)
        (let quiz_state :=
           QuizState.set_history (QuizState.history state1 ++ [entry]) state1 in
         run update_session_state user_id None None None (Some quiz_state) false ;;
         run (if mode_is quiz_state "CHALLENGE" then
                let quiz_state :=
                  QuizState.set_last_feedback (if is_correct : bool then "✅" else "❌")
                                              quiz_state in
                run update_session_state user_id None None None (Some quiz_state) false ;;
                ret tt
              else ret tt) ;;
         run save_message_id env user_id ;;
         ret (Some (QuizFb is_correct correct_opt)))
        (Same X).
Proof.
  intros Hm1. eapply leads_pre; [apply exact_same|].
  eapply leads_triple with (Q := fun _ => True). cbv zeta.
  eapply triple_bind; [apply triple_write_state; exact Hm1|]. intros _ _.
  eapply triple_bind with (Q := fun _ => True).
  { destruct (mode_is _ _).
    - eapply triple_bind; [apply triple_write_state; exact Hm1|]. intros _ _.
      now apply triple_ret.
    - now apply triple_ret. }
  intros _ _.
  eapply triple_bind; [apply runs_triple, runs_save_message_id|]. intros _ _.
  now apply triple_ret.
Qed.

Lemma standard_answer_xp :
  is_game_mode state = false ->
  leads (Exact (eq x))
        (handle_answer_selection env telegram_id selected_opt)
        (Same (eq (x + (if answered_correctly env state selected_opt then 10 else 0)))).
Proof.
  intros Hgame. pose proof Hroom as Hr. rewrite (standard_xp_rate _ Hgame) in Hr.
  unfold answered_correctly in Hr |- *. rewrite Hgame in Hr |- *.
  unfold handle_answer_selection.
  eapply leads_bind_runs; [apply runs_get_or_create_user|].
  intros user Hid. cbv beta in Hid. rewrite Hid.
  eapply leads_bind_runs; [apply runs_get_or_create_session|].
  intros session (state' & Hq & <-). rewrite Hq.
  change (mode_is state "SPEEDRUN" || mode_is state "SURVIVAL") with (is_game_mode state).
  rewrite Hgame.
  destruct (py_index (QuizState.questions state) (QuizState.current_index state)) as [q|e].
  2:{ intros db HI. simpl. rewrite Z.add_0_r. now apply exact_same. }
  eapply leads_bind_runs; [apply runs_lift|]. intros ? <-.
  eapply leads_bind_runs; [apply runs_record_quiz_attempt|]. intros _ _.
  destruct (bool_decide (selected_opt = Some (Question.correct_answer q))).
  - specialize (Hr eq_refl).
    eapply leads_bind_runs with (I' := Exact (eq (x + 10)))
                                (Q := fun s => same_mode state0 s).
    { eapply runs_bind;
        [apply (runs_add_xp _ _ _ (eq x) (eq (x + 10))); intros ? <-; split; [lia|reflexivity]|].
      intros _ _.
      eapply runs_bind; [apply runs_remove_from_review_queue|]. intros _ _.
      apply runs_ret. exact Hmode. }
    intros state1 Hm1.
    exact (standard_answer_tail _ state1 (answer_entry q selected_opt true) true
                                (Question.correct_answer q) Hm1).
  - rewrite Z.add_0_r.
    destruct (review_grade (QuizState.grade state)) as [grade|e].
    2:{ intros db HI. simpl. now apply exact_same. }
    eapply leads_bind_runs with (I' := Exact (eq x)) (Q := fun s => same_mode state0 s).
    { eapply runs_bind; [apply runs_lift|]. intros ? <-.
      eapply runs_bind; [apply runs_add_to_review_queue|]. intros _ _.
      apply runs_ret. exact Hmode. }
    intros state1 Hm1.
    exact (standard_answer_tail _ state1 (answer_entry q selected_opt false) false
                                (Question.correct_answer q) Hm1).
Qed.

Lemma is_game_mode_inv :
  is_game_mode state = true ->
  QuizState.mode state = Some "SPEEDRUN" \/ QuizState.mode state = Some "SURVIVAL".
Proof.
  unfold is_game_mode, mode_is. intros H. apply orb_true_iff in H.
  destruct H as [H|H]; apply bool_decide_eq_true_1 in H; auto.
Qed.

(** The rest of a handler that only shows, or writes a state of the same
    mode and shows. *)
Ltac same_tail :=
  eapply leads_pre; [apply exact_same|];
  eapply leads_triple with (Q := fun _ => True);
  triple_auto; apply triple_write_state; exact Hmode.

(** After the deadline test of [handle_game_answer]. *)
Lemma game_answer_scored mode :
  QuizState.mode state = Some mode ->
  mode = "SPEEDRUN" \/ mode = "SURVIVAL" ->
  (forall q, py_index (QuizState.questions state) (QuizState.current_index state) = Ok q ->
             selected_opt = game_correct_opt q -> x + xp_rate state < SQLITE_INT_LIMIT) ->
  leads (Exact (eq x))
        (q <- lift (py_index (QuizState.questions state) (QuizState.current_index state)) ;;
         let correct_opt := game_correct_opt q in
         let is_correct := bool_decide (selected_opt = correct_opt) in
         if is_correct then
           let state := QuizState.set_score (QuizState.score state + 1) state in
           let state := QuizState.set_last_feedback "✅" state in
           run add_xp user_id (xp_per_correct mode) ;;
           let state := QuizState.set_current_index (QuizState.current_index state + 1) state in
           if Z.of_nat (length (QuizState.questions state)) <=? QuizState.current_index state
           then show_game_summary env telegram_id "🏆 All Questions Completed!"
           else
             run update_session_state user_id None None None (Some state) false ;;
             present_game_question env telegram_id
         else
           let state := QuizState.set_last_feedback "❌" state in
           if str_eqb mode "SURVIVAL"
           then show_game_summary env telegram_id (death_reason correct_opt q)
           else
             let state := QuizState.set_current_index (QuizState.current_index state + 1) state in
             if Z.of_nat (length (QuizState.questions state)) <=? QuizState.current_index state
             then
               reason <-
                 (if str_eqb mode "CHALLENGE" then ret "🏁 Shared Practice Completed!"
                  else
                    duration <- key (QuizState.duration state) ;;
                    ret (if 300 <? duration then "🎓 Timed Assessment Completed!"
                         else "⚡ Fast-Paced Practice Completed!")) ;;
               show_game_summary env telegram_id reason
             else
               run update_session_state user_id None None None (Some state) false ;;
               present_game_question env telegram_id)
        (Same (eq (x + (match py_index (QuizState.questions state)
                                       (QuizState.current_index state) with
                        | Ok q => if bool_decide (selected_opt = game_correct_opt q)
                                  then xp_rate state else 0
                        | Raise _ => 0
                        end)))).
Proof.
  intros Hm Hcase Hfit.
  assert (Hrate : xp_per_correct mode = xp_rate state).
  { unfold xp_rate, mode_is. rewrite Hm. destruct Hcase as [-> | ->]; reflexivity. }
  destruct (py_index (QuizState.questions state) (QuizState.current_index state)) as [q|e].
  2:{ intros db HI. simpl. rewrite Z.add_0_r. now apply exact_same. }
  specialize (Hfit q eq_refl).
  eapply leads_bind_runs; [apply runs_lift|]. intros ? <-. cbv zeta.
  destruct (bool_decide (selected_opt = game_correct_opt q)) eqn:Hright.
  - apply bool_decide_eq_true_1 in Hright. specialize (Hfit Hright).
    eapply leads_bind_runs;
      [apply (runs_add_xp _ _ _ (eq x) (eq (x + xp_rate state))); intros ? <-;
       rewrite Hrate; pose proof (xp_rate_nonneg state); split; [lia|reflexivity]|].
    intros _ _. same_tail.
  - rewrite Z.add_0_r. same_tail.
Qed.

Lemma game_answer_xp :
  is_game_mode state = true ->
  leads (Exact (eq x))
        (handle_answer_selection env telegram_id selected_opt)
        (Same (eq (x + (if answered_correctly env state selected_opt
                        then xp_rate state else 0)))).
Proof.
  intros Hgame. pose proof Hroom as Hr.
  unfold answered_correctly in Hr |- *. rewrite Hgame in Hr |- *.
  assert (Hfit : speedrun_expired env state = Some false ->
                 forall q, py_index (QuizState.questions state)
                                    (QuizState.current_index state) = Ok q ->
                           selected_opt = game_correct_opt q ->
                           x + xp_rate state < SQLITE_INT_LIMIT).
  { intros Hexp q Hq Hright. apply Hr. rewrite Hq, Hexp. now apply bool_decide_eq_true_2. }
  clear Hr.
  unfold handle_answer_selection.
  eapply leads_bind_runs; [apply runs_get_or_create_user|].
  intros user Hid. cbv beta in Hid. rewrite Hid.
  eapply leads_bind_runs; [apply runs_get_or_create_session|].
  intros session (state' & Hq & <-). rewrite Hq.
  change (mode_is state "SPEEDRUN" || mode_is state "SURVIVAL") with (is_game_mode state).
  rewrite Hgame. clear user Hid session Hq.
  unfold handle_game_answer.
  eapply leads_bind_runs; [apply runs_get_or_create_user|].
  intros user Hid. cbv beta in Hid. rewrite Hid.
  eapply leads_bind_runs; [apply runs_get_or_create_session|].
  intros session (state' & Hq & <-). rewrite Hq.
  pose proof (game_answer_scored) as Hscored.
  destruct (is_game_mode_inv Hgame) as [Hm|Hm]; unfold speedrun_expired, mode_is in Hfit |- *;
    rewrite Hm in Hfit |- *; specialize (Hscored _ Hm).
  - specialize (Hscored (or_introl eq_refl)).
    eapply leads_bind_runs; [apply (runs_ret _ _ (eq "SPEEDRUN")); reflexivity|].
    intros ? <-.
    change (str_eqb "SPEEDRUN" "SPEEDRUN") with true.
    rewrite bool_decide_eq_true_2 in Hfit |- * by reflexivity. cbv iota in Hfit |- *.
    destruct (QuizState.start_time state) as [start_time|].
    2:{ intros db HI. destruct (py_index _ _); simpl; rewrite Z.add_0_r; now apply exact_same. }
    destruct (QuizState.duration state) as [duration|].
    2:{ intros db HI. destruct (py_index _ _); simpl; rewrite Z.add_0_r; now apply exact_same. }
    eapply leads_bind_runs.
    { eapply runs_bind; [apply (runs_ret _ _ (eq start_time)); reflexivity|]. intros ? <-.
      eapply runs_bind; [apply (runs_ret _ _ (eq duration)); reflexivity|]. intros ? <-.
      apply (runs_ret _ _ (eq (float_gt_int (time_time env - start_time) (duration + 2)))).
      reflexivity. }
    intros ? <-. simpl mbind in Hfit |- *. simpl mret in Hfit |- *.
    destruct (float_gt_int _ _).
    + assert (Hzero : (match py_index (QuizState.questions state)
                                      (QuizState.current_index state) with
                       | Ok _ => false
                       | Raise _ => false
                       end) = false) by now destruct (py_index _ _).
      rewrite Hzero, Z.add_0_r. same_tail.
    + replace (if match py_index (QuizState.questions state)
                                 (QuizState.current_index state) with
                  | Ok q => bool_decide (selected_opt = game_correct_opt q)
                  | Raise _ => false
                  end then xp_rate state else 0)
        with (match py_index (QuizState.questions state)
                             (QuizState.current_index state) with
              | Ok q => if bool_decide (selected_opt = game_correct_opt q)
                        then xp_rate state else 0
              | Raise _ => 0
              end) by now destruct (py_index _ _).
      exact (Hscored (Hfit eq_refl)).
  - specialize (Hscored (or_intror eq_refl)).
    eapply leads_bind_runs; [apply (runs_ret _ _ (eq "SURVIVAL")); reflexivity|].
    intros ? <-.
    change (str_eqb "SURVIVAL" "SPEEDRUN") with false.
    rewrite bool_decide_eq_false_2 in Hfit |- * by discriminate. cbv iota in Hfit |- *.
    eapply leads_bind_runs; [apply (runs_ret _ _ (eq false)); reflexivity|].
    intros ? <-.
    replace (if match py_index (QuizState.questions state)
                               (QuizState.current_index state) with
                | Ok q => bool_decide (selected_opt = game_correct_opt q)
                | Raise _ => false
                end then xp_rate state else 0)
      with (match py_index (QuizState.questions state)
                           (QuizState.current_index state) with
            | Ok q => if bool_decide (selected_opt = game_correct_opt q)
                      then xp_rate state else 0
            | Raise _ => 0
            end) by now destruct (py_index _ _).
    exact (Hscored (Hfit eq_refl)).
Qed.

End XpStep.

(** One request of a run: a correct answer adds the rate of the mode,
    anything else adds nothing, and the mode stays. *)
Lemma quiz_step_xp telegram_id user_id state0 env op x db :
  0 <= x ->
  (counts_as_correct env telegram_id op db = true -> x + xp_rate state0 < SQLITE_INT_LIMIT) ->
  handler_inv telegram_id user_id (same_mode state0) (eq x) db ->
  handler_inv telegram_id user_id (same_mode state0)
              (eq (x + xp_rate state0
                       * (if counts_as_correct env telegram_id op db then 1 else 0)))
              (snd (quiz_step env telegram_id op db)).
Proof.
  intros Hx Hroom HI. destruct (handler_inv_stored _ _ _ _ _ HI) as (state & Hst & Hm).
  unfold counts_as_correct in Hroom |- *. destruct op as [selected_opt| |]; simpl quiz_step.
  - rewrite Hst in Hroom |- *. pose proof (handler_inv_exact _ _ _ _ _ _ HI Hst) as HE.
    rewrite <- (same_mode_xp_rate _ _ Hm) in Hroom |- *.
    destruct (is_game_mode state) eqn:Hgame.
    + pose proof (game_answer_xp telegram_id user_id env selected_opt state0 state x
                                 Hm Hx Hroom Hgame db HE) as H.
      destruct (answered_correctly env state selected_opt);
        [now rewrite Z.mul_1_r | now rewrite Z.mul_0_r].
    + pose proof (standard_answer_xp telegram_id user_id env selected_opt state0 state x
                                     Hm Hx Hroom Hgame db HE) as H.
      rewrite (standard_xp_rate _ Hgame).
      destruct (answered_correctly env state selected_opt);
        [now rewrite Z.mul_1_r | now rewrite Z.mul_0_r].
  - rewrite Z.mul_0_r, Z.add_0_r.
    apply (triple_next_question telegram_id user_id _ _ env (stable_same_mode state0) db HI).
  - rewrite Z.mul_0_r, Z.add_0_r.
    apply (triple_skip_question telegram_id user_id _ _ env (stable_same_mode state0)
                                (stable_history_same_mode state0) db HI).
Qed.

Lemma correct_answers_nonneg telegram_id ops db : 0 <= correct_answers telegram_id ops db.
Proof.
  revert db. induction ops as [|[env op] ops IH]; intros db; simpl; [lia|].
  specialize (IH (snd (quiz_step env telegram_id op db))).
  destruct (counts_as_correct _ _ _ _); lia.
Qed.

Lemma quiz_run_xp telegram_id user_id state0 ops :
  forall x db,
    0 <= x ->
    x + xp_rate state0 * correct_answers telegram_id ops db < SQLITE_INT_LIMIT ->
    handler_inv telegram_id user_id (same_mode state0) (eq x) db ->
    handler_inv telegram_id user_id (same_mode state0)
                (eq (x + xp_rate state0 * correct_answers telegram_id ops db))
                (quiz_run telegram_id ops db).
Proof.
  induction ops as [|[env op] ops IH]; intros x db Hx Hfit HI; simpl in Hfit |- *.
  - now rewrite Z.mul_0_r, Z.add_0_r.
  - pose proof (xp_rate_nonneg state0) as Hrate.
    pose proof (correct_answers_nonneg telegram_id ops
                  (snd (quiz_step env telegram_id op db))) as Hrest.
    rewrite Z.mul_add_distr_l, Z.add_assoc. apply IH.
    + destruct (counts_as_correct _ _ _ _); lia.
    + destruct (counts_as_correct _ _ _ _); lia.
    + apply quiz_step_xp; [exact Hx | | exact HI].
      intros Hc. rewrite Hc in Hfit. nia.
Qed.

(** What the summary of a standard quiz displays as XP: ten times the
    whole tenths of the accuracy. *)
Lemma show_quiz_summary_figure env telegram_id db state scr c w k pct xp phase :
  stored_quiz_state telegram_id db = Some state ->
  fst (show_quiz_summary env telegram_id db) = Ok (Some (QuizSum scr c w k pct xp phase)) ->
  exists ratio tenths,
    py_truediv (QuizState.score state) (Z.of_nat (length (QuizState.questions state)))
    = Ok ratio
    /\ py_int (ratio * 100 / 10)%float = Ok tenths
    /\ xp = tenths * 10.
Proof.
  intros Hst. destruct (stored_quiz_state_inv _ _ _ Hst) as (user & session & Hu & Hs & Hq).
  unfold show_quiz_summary. enter Hu Hs. rewrite Hq.
  destruct (mode_is state "CHALLENGE") eqn:Hmode.
  { unfold mode_is in Hmode. apply bool_decide_eq_true_1 in Hmode.
    destruct (show_game_summary_run env telegram_id "🏁 Shared Practice Completed!"
                db user session state "CHALLENGE" Hu Hs Hq Hmode) as (session' & Hrun & _).
    rewrite Hrun. discriminate. }
  cbv zeta.
  destruct (py_truediv _ _) as [ratio|e]; [rewrite bind_lift_ok | discriminate].
  destruct (summary_grade _) as [grade|e]; [rewrite bind_lift_ok | discriminate].
  destruct (update_phase_progress_run (User.id user) (QuizState.unit_id state)
              (QuizState.subject state) grade (derived_phase (ratio * 100)) (ratio * 100)%float
              db) as (db1 & Hrun1 & _).
  rewrite (bind_ok _ _ _ _ _ Hrun1).
  destruct (update_user_streak_run (utcnow env) (User.id user) db1) as (n & db2 & Hrun2 & _).
  rewrite (bind_ok _ _ _ _ _ Hrun2).
  destruct (py_int (ratio * 100 / 10)%float) as [tenths|e] eqn:Htenths;
    [rewrite bind_lift_ok | discriminate].
  destruct (py_int (ratio * 100)%float) as [percentage|e];
    [rewrite bind_lift_ok | discriminate].
  unfold ret. cbn [fst]. intros [= _ _ _ _ _ <- _]. exists ratio, tenths. auto.
Qed.

(** C3 (what the code does). Over any run of quiz requests (answers, next,
    skip) on a stored quiz state, the experience points of the user (not
    negative to begin with, and with room for the run below 2^63, the limit
    of the column) grow by the rate of the mode times the number of correct
    answers: 15 in SPEEDRUN, 20 in SURVIVAL, and 10 in a standard quiz.
    The summary of a standard quiz awards nothing; the XP figure it
    displays is ten times the whole tenths of the accuracy,
    floor(accuracy/10)*10, which is not what the answers were awarded. *)
Theorem xp_awarded_per_correct_answer telegram_id ops db state :
  stored_quiz_state telegram_id db = Some state ->
  0 <= xp_of_user telegram_id db ->
  xp_of_user telegram_id db + xp_rate state * correct_answers telegram_id ops db < 2 ^ 63 ->
  let db' := quiz_run telegram_id ops db in
  xp_of_user telegram_id db'
  = xp_of_user telegram_id db + xp_rate state * correct_answers telegram_id ops db
  /\ (mode_is state "SPEEDRUN" = true -> xp_rate state = 15)
  /\ (mode_is state "SURVIVAL" = true -> xp_rate state = 20)
  /\ (is_game_mode state = false -> xp_rate state = 10)
  /\ (forall env,
        xp_of_user telegram_id (snd (show_quiz_summary env telegram_id db'))
        = xp_of_user telegram_id db')
  /\ (forall env scr c w k pct xp phase,
        fst (show_quiz_summary env telegram_id db')
        = Ok (Some (QuizSum scr c w k pct xp phase)) ->
        exists state' ratio tenths,
          stored_quiz_state telegram_id db' = Some state'
          /\ py_truediv (QuizState.score state')
                        (Z.of_nat (length (QuizState.questions state'))) = Ok ratio
          /\ py_int (ratio * 100 / 10)%float = Ok tenths
          /\ xp = tenths * 10).
Proof.
  intros Hst Hxp Hfit db'.
  destruct (handler_inv_intro telegram_id (same_mode state) db state Hst)
    as (user_id & HI & Hx); [reflexivity|].
  rewrite Hx in *.
  pose proof (quiz_run_xp telegram_id user_id state ops _ db Hxp Hfit HI) as HI'.
  fold db' in HI'.
  split; [exact (handler_inv_xp _ _ _ _ _ HI')|].
  split; [unfold xp_rate, mode_is; intros H; apply bool_decide_eq_true_1 in H; now rewrite H|].
  split; [unfold xp_rate; now intros ->|].
  split; [apply standard_xp_rate|].
  split.
  - intros env. rewrite (handler_inv_xp _ _ _ _ _ HI').
    apply (handler_inv_xp telegram_id user_id (same_mode state)).
    apply (triple_show_quiz_summary telegram_id user_id _ _ env db' HI').
  - intros env scr c w k pct xp phase Hview.
    destruct (handler_inv_stored _ _ _ _ _ HI') as (state' & Hst' & _).
    destruct (show_quiz_summary_figure env telegram_id db' state' scr c w k pct xp phase
                Hst' Hview) as (ratio & tenths & H1 & H2 & H3).
    exists state', ratio, tenths. auto.
Qed.

(** The two-question unit quiz with both answers right: twenty points are
    awarded, and showing the summary, which displays 100, awards nothing. *)
Lemma xp_awarded_per_correct_answer_witness :
  xp_of_user 42 finished_quiz_db = 0 + 10 * 2
  /\ xp_of_user 42 (snd (show_quiz_summary example_env 42 finished_quiz_db)) = 20
  /\ fst (show_quiz_summary example_env 42 finished_quiz_db)
     = Ok (Some (QuizSum "SCR_QUIZ_SUM" 2 0 0 100 100 "EXAM_BIASED")).
Proof.
  destruct (xp_awarded_per_correct_answer 42 (right_then_next ++ right_then_next)
              unit_quiz_db unit_quiz_state) as (H & _ & _ & Hrate & Hsum & _);
    [vm_compute; reflexivity | vm_compute; discriminate | vm_compute; reflexivity |].
  fold finished_quiz_db in H, Hsum.
  split; [|split].
  - rewrite H, Hrate by reflexivity. vm_compute. reflexivity.
  - rewrite Hsum, H, Hrate by reflexivity. vm_compute. reflexivity.
  - vm_compute. reflexivity.
Defined.

(** The claim as stated fails for a standard quiz: in the two-question unit
    quiz with both answers right, twenty points are awarded, while the
    summary displays floor(100/10)*10 = 100; showing the summary awards
    nothing. *)
Lemma full_marks_award_twenty_not_hundred :
  xp_of_user 42 unit_quiz_db = 0
  /\ xp_of_user 42 finished_quiz_db = 20
  /\ fst (show_quiz_summary example_env 42 finished_quiz_db)
     = Ok (Some (QuizSum "SCR_QUIZ_SUM" 2 0 0 100 100 "EXAM_BIASED"))
  /\ xp_of_user 42 (snd (show_quiz_summary example_env 42 finished_quiz_db)) = 20.
Proof. repeat split; vm_compute; reflexivity. Qed.

(** * The lock check fails open (lock_manager.is_content_locked) *)

Section FailOpen.

Variable ADMIN_IDS : list Z.
Variables (faults : Faults) (db : DB.t) (telegram_id : Z).
Variables (action screen param : option string).

(** The check returns whatever the evaluation does. *)
Lemma is_content_locked_total :
  exists r, is_content_locked ADMIN_IDS faults db telegram_id action screen param = Ok r.
Proof.
  unfold is_content_locked.
  destruct (truthy screen) as [scr|];
    [destruct (PyStr.startswith scr "SCR_LOCK_" || PyStr.startswith scr "SCR_ADMIN_");
     [eauto|]|];
    destruct (lock_evaluation _ _ _ _ _ _ _); eauto.
Qed.

(** An administrative screen is answered before the evaluation starts;
    otherwise a raising evaluation is answered by the handler. *)
Lemma is_content_locked_raise e :
  lock_evaluation ADMIN_IDS faults db telegram_id action screen param = Raise e ->
  is_content_locked ADMIN_IDS faults db telegram_id action screen param = Ok (false, "").
Proof.
  intros He. unfold is_content_locked. rewrite He.
  destruct (truthy screen) as [scr|]; [|reflexivity].
  now destruct (PyStr.startswith scr "SCR_LOCK_" || PyStr.startswith scr "SCR_ADMIN_").
Qed.

End FailOpen.

(** An action without a parameter is searched for a key word: a
    [TypeError] inside the evaluation. *)
Example none_param_raises_type_error :
  lock_evaluation [] no_faults DB.empty 42 (Some "ACT") (Some "SCR_HUB") None = Raise TypeError
  /\ is_content_locked [] no_faults DB.empty 42 (Some "ACT") (Some "SCR_HUB") None
     = Ok (false, "").
Proof. split; vm_compute; reflexivity. Qed.

(** C5. Whatever the identifiers, the action, the screen and the parameter,
    the lock check returns a result and raises nothing; when the evaluation
    raises an exception (a failing query, a [None] parameter searched for a
    key word, a number that does not parse), the check returns
    [(False, "")]: not blocked, empty reason, and the router lets the
    request through without a notice. *)
Theorem lock_check_fails_open ADMIN_IDS faults db telegram_id action screen param e :
  lock_evaluation ADMIN_IDS faults db telegram_id action screen param = Raise e ->
  is_content_locked ADMIN_IDS faults db telegram_id action screen param = Ok (false, "")
  /\ lock_gate ADMIN_IDS faults db telegram_id action screen param = Proceed None
  /\ forall faults' db' telegram_id' action' screen' param',
       is_ok (is_content_locked ADMIN_IDS faults' db' telegram_id' action' screen' param')
       = true.
Proof.
  intros He.
  pose proof (is_content_locked_raise ADMIN_IDS faults db telegram_id action screen param e He)
    as Hopen.
  split; [exact Hopen|]. split.
  - unfold lock_gate. rewrite Hopen. reflexivity.
  - intros faults' db' telegram_id' action' screen' param'.
    destruct (is_content_locked_total ADMIN_IDS faults' db' telegram_id' action' screen' param')
      as (r & ->).
    reflexivity.
Qed.

Lemma lock_check_fails_open_witness :
  lock_evaluation [] feature_query_down locked_practice_db 42
                  (Some "NAV") (Some "SCR_GAMEMODE") None = Raise OperationalError
  /\ lock_evaluation [] no_faults locked_practice_db 42
                     (Some "NAV") (Some "SCR_GAMEMODE") None
     = Ok (true, "🔒 Advanced Practice is currently locked.")
  /\ is_content_locked [] feature_query_down locked_practice_db 42
                       (Some "NAV") (Some "SCR_GAMEMODE") None = Ok (false, "")
  /\ lock_gate [] feature_query_down locked_practice_db 42
               (Some "NAV") (Some "SCR_GAMEMODE") None = Proceed None.
Proof.
  split; [vm_compute; reflexivity|]. split; [vm_compute; reflexivity|].
  destruct (lock_check_fails_open [] feature_query_down locked_practice_db 42
              (Some "NAV") (Some "SCR_GAMEMODE") None OperationalError) as (H1 & H2 & _);
    [vm_compute; reflexivity|].
  split; assumption.
Defined.

(** * Users: streaks and experience points (crud.py) *)

Lemma has_id_set_streak user_id s now u :
  has_id user_id (User.set_streak s now u) = has_id user_id u.
Proof. reflexivity. Qed.

Lemma has_id_streak_step user_id now u :
  has_id user_id (streak_step now u) = has_id user_id u.
Proof.
  unfold streak_step.
  repeat match goal with |- context [if ?c then _ else _] => destruct c end; reflexivity.
Qed.

Lemma first_has_id user_id (rows : list User.t) u :
  first (has_id user_id) rows = Some u -> has_id user_id u = true.
Proof. unfold first. intros H. now apply find_some in H. Qed.

Lemma update_user_streak_found now user_id db user :
  first (has_id user_id) (DB.users db) = Some user ->
  fst (update_user_streak now user_id db) = Ok (User.streak_count (streak_step now user))
  /\ first (has_id user_id) (DB.users (snd (update_user_streak now user_id db)))
     = Some (streak_step now user).
Proof.
  intros Hu. unfold update_user_streak. rewrite Hu. simpl. split; [reflexivity|].
  apply first_update_first; [exact Hu|].
  rewrite has_id_streak_step. now apply first_has_id in Hu.
Qed.

Lemma streak_step_last_activity now u : User.last_activity (streak_step now u) = now.
Proof.
  unfold streak_step.
  repeat match goal with |- context [if ?c then _ else _] => destruct c end; reflexivity.
Qed.

Lemma last_cons {A} (l : list A) : forall x d, List.last (x :: l) d = List.last l x.
Proof.
  induction l as [|a l IH]; intros x d; [reflexivity|].
  change (List.last (x :: a :: l) d) with (List.last (a :: l) d).
  now rewrite !IH.
Qed.

Lemma streak_run_within user_id times : forall db user,
  first (has_id user_id) (DB.users db) = Some user ->
  all_within (hours 24) (User.last_activity user) times = true ->
  exists user',
    first (has_id user_id) (DB.users (streak_run user_id times db)) = Some user'
    /\ User.streak_count user' = User.streak_count user
    /\ User.last_activity user' = List.last times (User.last_activity user).
Proof.
  induction times as [|now times IH]; intros db user Hu Hall.
  - exists user. auto.
  - simpl in Hall. apply andb_true_iff in Hall as [Hnow Hall].
    cbn [streak_run].
    destruct (update_user_streak_found now user_id db user Hu) as [_ Hu1].
    assert (Hstep : streak_step now user = User.set_streak (User.streak_count user) now user).
    { unfold streak_step. now rewrite Hnow. }
    rewrite Hstep in Hu1.
    destruct (IH _ _ Hu1 Hall) as (user' & H1 & H2 & H3).
    exists user'. split; [exact H1|]. split; [exact H2|].
    rewrite H3. cbn [User.last_activity User.set_streak]. now rewrite last_cons.
Qed.

(** X1. The streak grows only when an activity update comes 24 to 48 hours
    after the one before it.  Every update moves [last_activity], so a run
    of updates less than 24 hours apart leaves the streak where it was
    however long the run lasts; the update after it keeps the streak (gap
    under 24 hours), adds one (24 to 48 hours) or sets it to one. *)
Theorem streak_grows_only_after_a_day_gap user_id db user times now :
  first (has_id user_id) (DB.users db) = Some user ->
  all_within (hours 24) (User.last_activity user) times = true ->
  let db' := streak_run user_id times db in
  let gap := now - List.last times (User.last_activity user) in
  exists user',
    first (has_id user_id) (DB.users db') = Some user'
    /\ User.streak_count user' = User.streak_count user
    /\ fst (update_user_streak now user_id db')
       = Ok (if gap <? hours 24 then User.streak_count user
             else if gap <? hours 48 then User.streak_count user + 1
                  else 1).
Proof.
  intros Hu Hall db' gap.
  destruct (streak_run_within user_id times db user Hu Hall) as (user' & H1 & H2 & H3).
  exists user'. split; [exact H1|]. split; [exact H2|].
  destruct (update_user_streak_found now user_id db' user' H1) as [-> _].
  unfold streak_step. rewrite H3. fold gap. rewrite H2.
  destruct (gap <? hours 24) eqn:H24; [reflexivity|].
  apply Z.ltb_ge in H24.
  replace (hours 24 <=? gap) with true by (symmetry; now apply Z.leb_le).
  simpl. destruct (gap <? hours 48); reflexivity.
Qed.

Lemma streak_grows_only_after_a_day_gap_witness :
  fst (update_user_streak (hours 92) 1
         (streak_run 1 [hours 23; hours 46; hours 69] one_user_db)) = Ok 0.
Proof.
  destruct (streak_grows_only_after_a_day_gap 1 one_user_db settings_user
              [hours 23; hours 46; hours 69] (hours 92)) as (user' & _ & _ & H);
    [reflexivity | reflexivity |].
  rewrite H. reflexivity.
Defined.






(** * Progress records: the attempt counters (crud.record_quiz_attempt) *)

Lemma attempt_step_fields correct p p' :
  attempt_step correct p = Ok p' ->
  Progress.questions_attempted p' = Progress.questions_attempted p + 1
  /\ Progress.questions_correct p'
     = Progress.questions_correct p + (if correct then 1 else 0)
  /\ Progress.user_id p' = Progress.user_id p
  /\ Progress.unit_id p' = Progress.unit_id p
  /\ Progress.current_phase p' = Progress.current_phase p
  /\ Progress.unlocked_balanced p' = Progress.unlocked_balanced p
  /\ Progress.unlocked_exam p' = Progress.unlocked_exam p
  /\ Progress.baseline_accuracy p' = Progress.baseline_accuracy p
  /\ Progress.balanced_accuracy p' = Progress.balanced_accuracy p
  /\ Progress.exam_accuracy p' = Progress.exam_accuracy p.
Proof.
  unfold attempt_step. intros H.
  destruct (0 <? _); [destruct (py_truediv _ _); [|discriminate]|];
    injection H as <-; simpl; destruct correct; repeat split; lia.
Qed.


(** * Sessions: push, then pop (crud.update_session_state, pop_navigation_stack) *)

Lemma removelast_app_one {A} (l : list A) x : removelast (l ++ [x]) = l.
Proof. apply removelast_last. Qed.

Lemma push_previous_shape session :
  push_previous session
  = drop (length (Session.navigation_stack session) - 9)
         (Session.navigation_stack session)
    ++ [Session.current session].
Proof.
  unfold push_previous, py_last_n, Session.current.
  set (st := Session.navigation_stack session).
  set (cur := (Session.current_screen session, Session.current_param session)).
  rewrite length_app. simpl length.
  destruct (10 <? length st + 1)%nat eqn:Hlen.
  - apply Nat.ltb_lt in Hlen.
    replace (length st + 1 - 10)%nat with (length st - 9)%nat by lia.
    rewrite drop_app_le by lia. reflexivity.
  - apply Nat.ltb_ge in Hlen.
    replace (length st - 9)%nat with 0%nat by lia. reflexivity.
Qed.

(** X4. A transition that pushes, then a pop: the pop returns the screen and
    the parameter the user came from and makes them current again; the
    stack is the one before the push, without its oldest entries when it
    held ten (of a stack of at most nine nothing is lost).  The quiz state
    is kept. *)
Theorem push_then_pop_returns user_id screen current_param message_id db session :
  DB.sessions db !! user_id = Some session ->
  screen <> "" ->
  Session.current_screen session <> screen ->
  let db1 := snd (update_session_state user_id (Some screen) current_param message_id
                                       None true db) in
  let r := pop_navigation_stack user_id db1 in
  exists session',
    fst r = Ok (Some (Session.current session))
    /\ DB.sessions (snd r) !! user_id = Some session'
    /\ Session.current session' = Session.current session
    /\ Session.navigation_stack session'
       = drop (length (Session.navigation_stack session) - 9)
              (Session.navigation_stack session)
    /\ ((length (Session.navigation_stack session) <= 9)%nat ->
        Session.navigation_stack session' = Session.navigation_stack session)
    /\ Session.quiz_state session' = Session.quiz_state session.
Proof.
  intros Hs Hne Hscr db1 r. subst db1 r.
  unfold update_session_state. rewrite Hs. cbn [snd].
  set (session1 := session_step (Some screen) current_param message_id None true session).
  assert (Hstack : Session.navigation_stack session1 = push_previous session).
  { subst session1. rewrite session_step_stack.
    destruct screen; [congruence|]. simpl.
    unfold str_eqb. now rewrite bool_decide_eq_false_2. }
  assert (Hquiz : Session.quiz_state session1 = Session.quiz_state session).
  { subst session1. unfold session_step. destruct screen; [congruence|].
    destruct message_id; reflexivity. }
  unfold pop_navigation_stack. simpl DB.sessions. rewrite lookup_insert_eq.
  rewrite Hstack, push_previous_shape, last_snoc.
  unfold Session.current at 1. cbn [fst snd].
  eexists. split; [reflexivity|]. simpl DB.sessions. rewrite lookup_insert_eq.
  split; [reflexivity|]. split; [reflexivity|].
  cbn [Session.navigation_stack]. rewrite removelast_app_one.
  split; [reflexivity|]. split; [|exact Hquiz].
  intros Hlen. replace (_ - 9)%nat with 0%nat by lia. reflexivity.
Qed.

Lemma push_then_pop_returns_witness :
  fst (pop_navigation_stack 1
         (snd (update_session_state 1 (Some "SCR_STATS") (Some "9") None None true
                                    settings_db)))
  = Ok (Some ("SCR_SETTINGS", None)).
Proof.
  destruct (push_then_pop_returns 1 "SCR_STATS" (Some "9") None settings_db settings_session)
    as (session' & H & _); [reflexivity | discriminate | discriminate | exact H].
Defined.

(** * The review queue: removal and the hub's reads (crud.py) *)

Lemma filter_none {A} (p : A -> bool) (rows : list A) :
  List.filter p rows = [] -> List.filter (fun r => negb (p r)) rows = rows.
Proof.
  induction rows as [|r rows IH]; simpl; [reflexivity|].
  destruct (p r); [discriminate|]. intros H. simpl. now rewrite IH.
Qed.

Lemma filter_filter_neg {A} (p : A -> bool) (rows : list A) :
  List.filter p (List.filter (fun r => negb (p r)) rows) = [].
Proof.
  induction rows as [|r rows IH]; simpl; [reflexivity|].
  destruct (p r) eqn:Hp; simpl; [exact IH|]. now rewrite Hp.
Qed.

Lemma filter_comm {A} (p q : A -> bool) (rows : list A) :
  List.filter p (List.filter q rows) = List.filter q (List.filter p rows).
Proof.
  induction rows as [|r rows IH]; simpl; [reflexivity|].
  destruct (q r) eqn:Hq, (p r) eqn:Hp; simpl; rewrite ?Hq, ?Hp, IH; reflexivity.
Qed.

Lemma filter_all {A} (q : A -> bool) (rows : list A) :
  (forall x, In x rows -> q x = true) -> List.filter q rows = rows.
Proof.
  induction rows as [|r rows IH]; simpl; [reflexivity|]. intros H.
  rewrite (H r) by auto. f_equal. apply IH. auto.
Qed.

Lemma is_review_other user_id question_id user_id' question_id' r :
  (user_id', question_id') <> (user_id, question_id) ->
  is_review user_id' question_id' r = true -> is_review user_id question_id r = false.
Proof.
  unfold is_review, str_eqb. intros Hne H.
  apply andb_true_iff in H as [Hu Hq]. apply Z.eqb_eq in Hu.
  apply bool_decide_eq_true_1 in Hq.
  destruct (ReviewQueue.user_id r =? user_id) eqn:Hu'; [|reflexivity].
  apply Z.eqb_eq in Hu'. simpl. apply bool_decide_eq_false_2. congruence.
Qed.

(** X5. [remove_from_review_queue] leaves no row of its (user, question) and
    keeps the rows of every other key; after an [add_to_review_queue] of a
    question that had no row it gives back the table as it was, and the
    question is no longer among the items the review hub reads. *)
Theorem review_remove_undoes_add now user_id question_id status subject grade unit_name db :
  let removed := snd (remove_from_review_queue user_id question_id db) in
  let added := snd (add_to_review_queue now user_id question_id status subject grade
                                        unit_name db) in
  review_rows user_id question_id removed = []
  /\ (forall user_id' question_id',
        (user_id', question_id') <> (user_id, question_id) ->
        review_rows user_id' question_id' removed = review_rows user_id' question_id' db)
  /\ (review_rows user_id question_id db = [] ->
      DB.review_queue (snd (remove_from_review_queue user_id question_id added))
      = DB.review_queue db)
  /\ (forall status' subject' grade' r,
        In r (get_review_queue_items user_id status' subject' grade' removed) ->
        ReviewQueue.question_id r <> question_id).
Proof.
  intros removed added. subst removed added. unfold review_rows, remove_from_review_queue.
  cbn [snd DB.review_queue DB.set_review_queue].
  split; [apply filter_filter_neg|]. split; [|split].
  - intros user_id' question_id' Hne. rewrite filter_comm.
    apply filter_all. intros r Hin. apply filter_In in Hin as [_ Hr].
    now rewrite (is_review_other _ _ _ _ r Hne Hr).
  - intros Hnone. unfold add_to_review_queue. rewrite first_filter, Hnone. simpl.
    rewrite List.filter_app. simpl.
    unfold is_review at 2, str_eqb. simpl.
    rewrite Z.eqb_refl, bool_decide_eq_true_2 by reflexivity. simpl.
    rewrite app_nil_r. now apply filter_none.
  - intros status' subject' grade' r Hin Hq.
    assert (Hin' : In r (List.filter (fun r => negb (is_review user_id question_id r))
                                     (DB.review_queue db))
                   /\ ReviewQueue.user_id r = user_id).
    { unfold get_review_queue_items in Hin. cbn [DB.review_queue] in Hin.
      repeat match type of Hin with
             | context [match ?x with _ => _ end] => destruct x
             | context [if ?x then _ else _] => destruct x
             end;
        repeat match goal with
               | H : In _ (List.filter _ _) |- _ => apply filter_In in H as [H ?]
               end;
        match goal with
        | H : (_ =? _) && _ = true |- _ => apply andb_true_iff in H as [H _]; apply Z.eqb_eq in H
        end; auto. }
    destruct Hin' as [Hin' Hu]. apply filter_In in Hin' as [_ Hneg].
    unfold is_review, str_eqb in Hneg.
    rewrite Hu, Hq, Z.eqb_refl, bool_decide_eq_true_2 in Hneg by reflexivity.
    discriminate.
Qed.

Lemma filter_andb {A} (p q : A -> bool) (rows : list A) :
  List.filter (fun r => p r && q r) rows = List.filter q (List.filter p rows).
Proof.
  induction rows as [|r rows IH]; simpl; [reflexivity|].
  destruct (p r); simpl; [destruct (q r); now rewrite IH | exact IH].
Qed.

Lemma real_subject_truthy subject s :
  truthy subject = Some s -> truthy (Some (real_subject s)) = Some (real_subject s).
Proof.
  intros H. assert (Hs : s <> "").
  { destruct subject as [[|c t]|]; simpl in H; [discriminate | | discriminate].
    injection H as <-. discriminate. }
  unfold real_subject, subj_map_get.
  repeat match goal with |- context [if ?c then _ else _] => destruct c end;
    try reflexivity.
  simpl. destruct s; [congruence | reflexivity].
Qed.

(** X6. The counts of the review hub agree with the lists it opens: for a
    grade that is absent or not negative, each count of
    [get_review_queue_counts] is the number of items
    [get_review_queue_items] returns for that status and the same filters.
    (The counts ignore a negative grade; the items filter on it.) *)
Theorem review_counts_match_items user_id subject grade db :
  match grade with Some g => 0 <= g | None => True end ->
  let counts := get_review_queue_counts user_id subject grade db in
  let items := fun status => get_review_queue_items user_id status subject grade db in
  count_skipped counts = Z.of_nat (length (items "SKIPPED"))
  /\ count_mistake counts = Z.of_nat (length (items "MISTAKE"))
  /\ count_pinned counts = Z.of_nat (length (items "PINNED")).
Proof.
  intros Hgrade counts items.
  assert (H : forall status,
             count_status status
               (let query := List.filter (fun r => ReviewQueue.user_id r =? user_id)
                                         (DB.review_queue db) in
                let query :=
                  match truthy subject with
                  | Some s =>
                      match truthy (Some (real_subject s)) with
                      | Some real =>
                          List.filter (fun r => str_eqb (ReviewQueue.subject r) real) query
                      | None => query
                      end
                  | None => query
                  end in
                match grade with
                | Some g =>
                    if negb (g =? 0) && (0 <? g)
                    then List.filter (fun r => ReviewQueue.grade r =? g) query
                    else query
                | None => query
                end)
             = Z.of_nat (length (items status))).
  { intros status. subst items. unfold count_status, get_review_queue_items. cbv zeta.
    f_equal. f_equal. rewrite filter_andb.
    destruct (truthy subject) as [s|] eqn:Hs.
    - rewrite (real_subject_truthy _ _ Hs).
      destruct grade as [g|].
      + replace (negb (g =? 0) && (0 <? g)) with (negb (g =? 0))
          by (destruct (Z.eqb_spec g 0); simpl; [reflexivity|];
              symmetry; apply Z.ltb_lt; lia).
        destruct (negb (g =? 0)).
        * rewrite (filter_comm _ (fun r => ReviewQueue.grade r =? g)). f_equal.
          apply filter_comm.
        * apply filter_comm.
      + apply filter_comm.
    - destruct grade as [g|].
      + replace (negb (g =? 0) && (0 <? g)) with (negb (g =? 0))
          by (destruct (Z.eqb_spec g 0); simpl; [reflexivity|];
              symmetry; apply Z.ltb_lt; lia).
        destruct (negb (g =? 0)); [apply filter_comm | reflexivity].
      + reflexivity. }
  subst counts. unfold get_review_queue_counts. cbn [count_skipped count_mistake count_pinned].
  repeat split; apply H.
Qed.

Lemma review_counts_match_items_witness :
  count_mistake (get_review_queue_counts 1 (Some "BIO") (Some 10) skipped_then_mistaken) = 1
  /\ length (get_review_queue_items 1 "MISTAKE" (Some "BIO") (Some 10) skipped_then_mistaken)
     = 1%nat.
Proof.
  destruct (review_counts_match_items 1 (Some "BIO") (Some 10) skipped_then_mistaken)
    as (_ & H & _); [simpl; lia|].
  split; [rewrite H|]; reflexivity.
Defined.

(** * The lock check: who can be blocked, and by what (lock_manager.py) *)

Lemma first_active_lock lock_type targets locks l :
  first (active_lock lock_type targets) locks = Some l ->
  In l locks /\ SystemLock.is_locked l = true /\ SystemLock.lock_type l = lock_type.
Proof.
  unfold first. intros H. apply find_some in H as [Hin Hact].
  unfold active_lock, str_eqb in Hact.
  apply andb_true_iff in Hact as [Hact Hl]. apply andb_true_iff in Hact as [Ht _].
  apply bool_decide_eq_true_1 in Ht. auto.
Qed.

Lemma filter_active_lock lock_type targets locks l rest :
  List.filter (active_lock lock_type targets) locks = l :: rest ->
  In l locks /\ SystemLock.is_locked l = true /\ SystemLock.lock_type l = lock_type.
Proof.
  intros H. assert (Hin : In l (List.filter (active_lock lock_type targets) locks))
    by (rewrite H; now left).
  apply filter_In in Hin as [Hin Hact].
  unfold active_lock, str_eqb in Hact.
  apply andb_true_iff in Hact as [Hact Hl]. apply andb_true_iff in Hact as [Ht _].
  apply bool_decide_eq_true_1 in Ht. auto.
Qed.

(** What an evaluation that returns can return: the pass, or the result of
    a lock row that is switched on. *)
Lemma lock_evaluation_cases ADMIN_IDS faults db telegram_id action screen param r :
  lock_evaluation ADMIN_IDS faults db telegram_id action screen param = Ok r ->
  r = (false, "")
  \/ exists msg l,
       r = locked_result ADMIN_IDS telegram_id msg
       /\ In l (DB.system_locks db)
       /\ SystemLock.is_locked l = true
       /\ In (SystemLock.lock_type l) ["FEATURE"; "SUBJECT"; "UNIT"].
Proof.
  unfold lock_evaluation, res_bind, query. intros H.
  repeat match goal with
         | H : context [match ?x with _ => _ end] |- _ =>
             match type of H with _ = Ok _ => idtac end;
             destruct x eqn:?; try discriminate
         end;
    repeat match goal with
           | H : Ok _ = Ok _ |- _ => injection H as H; try subst
           end;
    first [ now left
          | right;
            match goal with
            | E : first (active_lock _ _) _ = Some ?l |- _ =>
                destruct (first_active_lock _ _ _ _ E) as (? & ? & Ht);
                eexists _, l; rewrite Ht; simpl; auto 7
            | E : List.filter (active_lock _ _) _ = ?l :: _ |- _ =>
                destruct (filter_active_lock _ _ _ _ _ E) as (? & ? & Ht);
                eexists _, l; rewrite Ht; simpl; auto 7
            end ].
Qed.

Lemma is_content_locked_cases ADMIN_IDS faults db telegram_id action screen param :
  is_content_locked ADMIN_IDS faults db telegram_id action screen param = Ok (false, "")
  \/ exists r,
       is_content_locked ADMIN_IDS faults db telegram_id action screen param = Ok r
       /\ lock_evaluation ADMIN_IDS faults db telegram_id action screen param = Ok r.
Proof.
  unfold is_content_locked.
  destruct (truthy screen) as [scr|];
    [destruct (PyStr.startswith scr "SCR_LOCK_" || PyStr.startswith scr "SCR_ADMIN_");
     [now left|]|];
    (destruct (lock_evaluation _ _ _ _ _ _ _) as [r|e]; [right; eauto | now left]).
Qed.

(** X7. An administrator is never blocked: whatever the locks, the faults and
    the request, the check answers "not locked" (with a bypass notice when a
    lock matched) and the router goes on. *)
Theorem administrators_are_never_blocked
    ADMIN_IDS faults db telegram_id action screen param :
  is_admin ADMIN_IDS telegram_id = true ->
  (exists reason,
     is_content_locked ADMIN_IDS faults db telegram_id action screen param
     = Ok (false, reason))
  /\ exists notice,
       lock_gate ADMIN_IDS faults db telegram_id action screen param = Proceed notice.
Proof.
  intros Hadmin.
  assert (H : exists reason,
             is_content_locked ADMIN_IDS faults db telegram_id action screen param
             = Ok (false, reason)).
  { destruct (is_content_locked_cases ADMIN_IDS faults db telegram_id action screen param)
      as [H | (r & H & Heval)]; [eauto|].
    destruct (lock_evaluation_cases _ _ _ _ _ _ _ _ Heval) as [-> | (msg & l & -> & _)];
      [eauto|].
    rewrite H. unfold locked_result. rewrite Hadmin. eauto. }
  split; [exact H|]. destruct H as [reason H]. unfold lock_gate. rewrite H.
  destruct (PyStr.contains "Admin Bypass" reason); eauto.
Qed.


(** X9. Rows that are switched off, and rows of any other type (GRADE locks
    among them), block nobody: when no FEATURE, SUBJECT or UNIT row is
    switched on, every check answers [(False, "")]. *)
Theorem without_active_locks_everything_passes
    ADMIN_IDS faults db telegram_id action screen param :
  (forall l, In l (DB.system_locks db) -> SystemLock.is_locked l = true ->
             ~ In (SystemLock.lock_type l) ["FEATURE"; "SUBJECT"; "UNIT"]) ->
  is_content_locked ADMIN_IDS faults db telegram_id action screen param = Ok (false, "")
  /\ lock_gate ADMIN_IDS faults db telegram_id action screen param = Proceed None.
Proof.
  intros Hoff.
  assert (H : is_content_locked ADMIN_IDS faults db telegram_id action screen param
              = Ok (false, "")).
  { destruct (is_content_locked_cases ADMIN_IDS faults db telegram_id action screen param)
      as [H | (r & H & Heval)]; [exact H|].
    destruct (lock_evaluation_cases _ _ _ _ _ _ _ _ Heval)
      as [-> | (msg & l & _ & Hin & Hon & Htype)]; [exact H|].
    exfalso. exact (Hoff l Hin Hon Htype). }
  split; [exact H|]. unfold lock_gate. now rewrite H.
Qed.

Lemma administrators_are_never_blocked_witness :
  is_content_locked [42] no_faults locked_practice_db 42 (Some "NAV") (Some "SCR_GAMEMODE") None
  = Ok (false, "🛡️ LOCKED (Admin Bypass): Advanced Practice is currently locked.")
  /\ exists reason notice,
       is_content_locked [42] no_faults locked_practice_db 42
                         (Some "NAV") (Some "SCR_GAMEMODE") None = Ok (false, reason)
       /\ lock_gate [42] no_faults locked_practice_db 42
                    (Some "NAV") (Some "SCR_GAMEMODE") None = Proceed notice.
Proof.
  split; [vm_compute; reflexivity|].
  destruct (administrators_are_never_blocked [42] no_faults locked_practice_db 42
              (Some "NAV") (Some "SCR_GAMEMODE") None eq_refl)
    as [[reason H1] [notice H2]].
  eauto.
Defined.


Lemma without_active_locks_everything_passes_witness :
  is_content_locked [] no_faults grade_lock_db 42 (Some "NAV") (Some "SCR_GAMEMODE")
                    (Some "12")
  = Ok (false, "").
Proof.
  apply (without_active_locks_everything_passes [] no_faults grade_lock_db 42
           (Some "NAV") (Some "SCR_GAMEMODE") (Some "12")).
  intros l [<- | [<- | []]] Hon; simpl in *; [|discriminate].
  intros [H | [H | [H | []]]]; discriminate.
Defined.

Lemma feature_map_screens screen feature :
  feature_map_get screen = Some feature ->
  exists scr,
    screen = Some scr
    /\ In (scr, feature)
          [("SCR_GAMEMODE", "ADVANCED_PRACTICE"); ("SCR_SPEEDRUN_SETUP", "ADVANCED_PRACTICE");
           ("SCR_SPEEDRUN_SUBJECTS", "ADVANCED_PRACTICE");
           ("SCR_SPEEDRUN_COUNTS", "ADVANCED_PRACTICE");
           ("SCR_SURVIVAL_SETUP", "ADVANCED_PRACTICE"); ("SCR_GAME_PRES", "ADVANCED_PRACTICE");
           ("SCR_REVIEW_HUB", "REVIEW_HUB"); ("SCR_PDF_VAULT", "PDFS_AND_FILES");
           ("SCR_RANKING", "LEADERBOARD"); ("SCR_MULTIPLAYER_HUB", "PRACTICE_WITH_FRIENDS");
           ("SCR_MP_SUBJ_SELECT", "PRACTICE_WITH_FRIENDS");
           ("SCR_INVITES", "PRACTICE_WITH_FRIENDS"); ("SCR_AI_CHAT", "AI_TUTOR")].
Proof.
  destruct screen as [scr|]; [|discriminate]. intros H. exists scr. split; [reflexivity|].
  unfold feature_map_get, one_of in H.
  repeat match type of H with
         | (if existsb ?f ?l then _ else _) = _ =>
             destruct (existsb f l) eqn:E;
             [ apply existsb_exists in E as (x & Hin & Hx); injection H as <-;
               apply bool_decide_eq_true_1 in Hx; subst x; simpl in Hin;
               repeat (destruct Hin as [<- | Hin]; [simpl; auto 20|]); destruct Hin
             | clear E ]
         end.
  discriminate.
Qed.

(** X10. A feature lock does block navigation: for a screen of the feature
    map, a request that is not an action, by a user who is not an
    administrator, is blocked with the feature's message as soon as the
    FEATURE row of that feature is switched on (and the query on the lock
    table does not fail). *)
Theorem feature_lock_blocks_navigation
    ADMIN_IDS faults db telegram_id action screen param feature :
  feature_map_get screen = Some feature ->
  action <> Some "ACT" ->
  In (SystemLock.mk "FEATURE" feature true) (DB.system_locks db) ->
  feature_query faults = None ->
  is_admin ADMIN_IDS telegram_id = false ->
  is_content_locked ADMIN_IDS faults db telegram_id action screen param
  = Ok (true, "🔒 " +:+ PyStr.title (PyStr.replace feature "_" " ")
              +:+ " is currently locked.").
Proof.
  intros Hmap Hact Hin Hquery Hadmin.
  assert (Heval : lock_evaluation ADMIN_IDS faults db telegram_id action screen param
                  = Ok (true, "🔒 " +:+ PyStr.title (PyStr.replace feature "_" " ")
                              +:+ " is currently locked.")).
  { unfold lock_evaluation. rewrite Hmap, Hquery.
    rewrite (bool_decide_eq_false_2 _ Hact). cbn [andb].
    destruct (first (active_lock "FEATURE" [feature]) (DB.system_locks db)) as [l|] eqn:Hl.
    - simpl. unfold locked_result. now rewrite Hadmin.
    - exfalso. unfold first in Hl. eapply find_none in Hl; [|exact Hin].
      unfold active_lock, str_eqb in Hl. simpl in Hl.
      rewrite !bool_decide_eq_true_2 in Hl by reflexivity. discriminate. }
  destruct (feature_map_screens _ _ Hmap) as (scr & -> & Hscr).
  unfold is_content_locked. rewrite Heval.
  simpl in Hscr.
  repeat (destruct Hscr as [Hscr | Hscr]; [injection Hscr as <- <-; reflexivity|]).
  destruct Hscr.
Qed.

Lemma feature_lock_blocks_navigation_witness :
  is_content_locked [] no_faults locked_practice_db 42 (Some "NAV") (Some "SCR_SURVIVAL_SETUP")
                    (Some "BIO")
  = Ok (true, "🔒 Advanced Practice is currently locked.").
Proof.
  apply (feature_lock_blocks_navigation [] no_faults locked_practice_db 42 (Some "NAV")
           (Some "SCR_SURVIVAL_SETUP") (Some "BIO") "ADVANCED_PRACTICE").
  - reflexivity.
  - discriminate.
  - simpl. auto.
  - reflexivity.
  - reflexivity.
Defined.

(** * Frames: what the handlers leave alone *)

Create HintDb keeps.

Lemma keeps_ret {A B} (f : DB.t -> B) (a : A) : keeps f (ret a).
Proof. intros db. reflexivity. Qed.

Lemma keeps_raise {A B} (f : DB.t -> B) e : keeps f (@raise A e).
Proof. intros db. reflexivity. Qed.

Lemma keeps_lift {A B} (f : DB.t -> B) (r : Res A) : keeps f (lift r).
Proof. intros db. reflexivity. Qed.

Lemma keeps_key {A B} (f : DB.t -> B) (v : option A) : keeps f (key v).
Proof. destruct v; [apply keeps_ret | apply keeps_raise]. Qed.

Lemma keeps_bind {A B C} (f : DB.t -> C) (m : M A) (k : A -> M B) :
  keeps f m -> (forall a, keeps f (k a)) -> keeps f (bind m k).
Proof.
  intros Hm Hk db. unfold bind. specialize (Hm db).
  destruct (m db) as [[a|e] db']; simpl in *; [now rewrite Hk | exact Hm].
Qed.

#[export] Hint Resolve keeps_ret keeps_raise keeps_lift keeps_key : keeps.

Ltac keeps_step :=
  first
    [ progress cbv zeta
    | apply keeps_bind; [|intros ?]
    | match goal with
      | |- keeps _ (match ?x with _ => _ end) => destruct x
      | |- keeps _ (if ?c then _ else _) => destruct c
      end
    | solve [eauto with keeps] ].

Ltac keeps_auto := repeat keeps_step.

(** Solves a frame fact of a crud function by cases on what it finds. *)
Ltac keeps_crud :=
  intros db;
  repeat match goal with
         | |- context [match ?x with _ => _ end] => destruct x
         end; reflexivity.

Section ReviewQueueFrame.

#[local] Abbreviation rq := DB.review_queue.

Lemma keeps_rq_get_or_create_user now telegram_id :
  keeps rq (get_or_create_user now telegram_id).
Proof. unfold get_or_create_user. keeps_crud. Qed.

Lemma keeps_rq_get_or_create_session user_id : keeps rq (get_or_create_session user_id).
Proof. unfold get_or_create_session. keeps_crud. Qed.

Lemma keeps_rq_update_session_state user_id screen current_param message_id quiz_state add :
  keeps rq (update_session_state user_id screen current_param message_id quiz_state add).
Proof. unfold update_session_state. keeps_crud. Qed.

Lemma keeps_rq_pop_navigation_stack user_id : keeps rq (pop_navigation_stack user_id).
Proof. unfold pop_navigation_stack. keeps_crud. Qed.

Lemma keeps_rq_update_user_streak now user_id : keeps rq (update_user_streak now user_id).
Proof. unfold update_user_streak. keeps_crud. Qed.

Lemma keeps_rq_add_xp user_id xp_amount : keeps rq (add_xp user_id xp_amount).
Proof. unfold add_xp. keeps_crud. Qed.

Lemma keeps_rq_update_phase_progress user_id unit_id subject grade phase accuracy :
  keeps rq (update_phase_progress user_id unit_id subject grade phase accuracy).
Proof. unfold update_phase_progress. keeps_crud. Qed.

Lemma keeps_rq_record_quiz_attempt user_id unit_id subject grade correct :
  keeps rq (record_quiz_attempt user_id unit_id subject grade correct).
Proof. unfold record_quiz_attempt. keeps_crud. Qed.

#[local] Hint Resolve keeps_rq_get_or_create_user keeps_rq_get_or_create_session
  keeps_rq_update_session_state keeps_rq_pop_navigation_stack keeps_rq_update_user_streak
  keeps_rq_add_xp keeps_rq_update_phase_progress keeps_rq_record_quiz_attempt : keeps.

Lemma keeps_rq_save_message_id env user_id : keeps rq (save_message_id env user_id).
Proof. unfold save_message_id. keeps_auto. Qed.

#[local] Hint Resolve keeps_rq_save_message_id : keeps.

Lemma keeps_rq_navigate_to env telegram_id screen_id param add_to_stack :
  keeps rq (navigate_to env telegram_id screen_id param add_to_stack).
Proof. unfold navigate_to. keeps_auto. Qed.

Lemma keeps_rq_show_game_summary env telegram_id reason :
  keeps rq (show_game_summary env telegram_id reason).
Proof. unfold show_game_summary. keeps_auto. Qed.

#[local] Hint Resolve keeps_rq_navigate_to keeps_rq_show_game_summary : keeps.

Lemma keeps_rq_present_game_question env telegram_id :
  keeps rq (present_game_question env telegram_id).
Proof. unfold present_game_question. keeps_auto. Qed.

Lemma keeps_rq_show_quiz_summary env telegram_id :
  keeps rq (show_quiz_summary env telegram_id).
Proof. unfold show_quiz_summary. keeps_auto. Qed.

#[local] Hint Resolve keeps_rq_present_game_question keeps_rq_show_quiz_summary : keeps.

Lemma keeps_rq_present_question env telegram_id :
  keeps rq (present_question env telegram_id).
Proof. unfold present_question. keeps_auto. Qed.

#[local] Hint Resolve keeps_rq_present_question : keeps.

Lemma keeps_rq_next_question env telegram_id : keeps rq (next_question env telegram_id).
Proof. unfold next_question. keeps_auto. Qed.

Lemma keeps_rq_replay_batch env telegram_id : keeps rq (replay_batch env telegram_id).
Proof. unfold replay_batch. keeps_auto. Qed.

Lemma keeps_rq_handle_game_answer env telegram_id selected_opt :
  keeps rq (handle_game_answer env telegram_id selected_opt).
Proof. unfold handle_game_answer. keeps_auto. Qed.

Lemma keeps_rq_go_home env telegram_id : keeps rq (go_home env telegram_id).
Proof. unfold go_home. keeps_auto. Qed.

#[local] Hint Resolve keeps_rq_go_home : keeps.

Lemma keeps_rq_go_back env telegram_id : keeps rq (go_back env telegram_id).
Proof. unfold go_back. keeps_auto. Qed.

End ReviewQueueFrame.

Lemma keeps_comp {A B C} (f : DB.t -> B) (g : B -> C) (m : M A) :
  keeps f m -> keeps (fun db => g (f db)) m.
Proof. intros H db. now rewrite H. Qed.

Lemma add_to_review_queue_run now user_id question_id status subject grade unit_name db :
  exists item db',
    add_to_review_queue now user_id question_id status subject grade unit_name db
    = (Ok item, db')
    /\ DB.users db' = DB.users db
    /\ DB.sessions db' = DB.sessions db
    /\ DB.progress db' = DB.progress db.
Proof.
  unfold add_to_review_queue. destruct (first _ _); eexists _, _; repeat split.
Qed.

Lemma user_of_frame telegram_id db db' :
  DB.users db' = DB.users db -> user_of telegram_id db' = user_of telegram_id db.
Proof. unfold user_of. now intros ->. Qed.

Lemma xp_of_user_frame telegram_id db db' :
  DB.users db' = DB.users db -> xp_of_user telegram_id db' = xp_of_user telegram_id db.
Proof. unfold xp_of_user, user_of, xp_of. now intros ->. Qed.

(** * Skipping a question (quiz_handler.skip_question) *)

(** X11. Skipping the current question appends one SKIP entry to the history,
    moves the index by one and puts the question in the review queue as
    SKIPPED (a row the question already had is restamped, not doubled); the
    score and the experience points stay as they were. *)
Theorem skip_question_effect env telegram_id db state q :
  stored_quiz_state telegram_id db = Some state ->
  py_index (QuizState.questions state) (QuizState.current_index state) = Ok q ->
  is_ok (review_grade (QuizState.grade state)) = true ->
  let db' := snd (skip_question env telegram_id db) in
  exists user grade,
    user_of telegram_id db = Some user
    /\ review_grade (QuizState.grade state) = Ok grade
    /\ stored_quiz_state telegram_id db'
       = Some (QuizState.set_current_index (QuizState.current_index state + 1)
                 (QuizState.set_history (QuizState.history state ++ [skip_entry q]) state))
    /\ xp_of_user telegram_id db' = xp_of_user telegram_id db
    /\ review_rows (User.id user) (Question.question_id q) db'
       = match review_rows (User.id user) (Question.question_id q) db with
         | [] => [ReviewQueue.mk (User.id user) (QuizState.subject state) grade
                                 (QuizState.unit_name state) (Question.question_id q)
                                 "SKIPPED" (utcnow env)]
         | r :: rest => ReviewQueue.touch "SKIPPED" (utcnow env) r :: rest
         end.
Proof.
  intros Hst Hpy Hgrade db'.
  destruct (stored_quiz_state_inv _ _ _ Hst) as (user & session & Hu & Hs & Hq).
  destruct (review_grade (QuizState.grade state)) as [grade|] eqn:Hg; [|discriminate].
  exists user, grade. split; [exact Hu|]. split; [reflexivity|].
  set (state1 := QuizState.set_history (QuizState.history state ++ [skip_entry q]) state).
  set (state2 := QuizState.set_current_index (QuizState.current_index state + 1) state1).
  destruct (add_to_review_queue_run (utcnow env) (User.id user) (Question.question_id q)
              "SKIPPED" (QuizState.subject state1) grade (QuizState.unit_name state1) db)
    as (item & db1 & Hadd & Husers & Hsessions & _).
  assert (Hrows1 : review_rows (User.id user) (Question.question_id q) db1
                   = match review_rows (User.id user) (Question.question_id q) db with
                     | [] => [ReviewQueue.mk (User.id user) (QuizState.subject state) grade
                                (QuizState.unit_name state) (Question.question_id q)
                                "SKIPPED" (utcnow env)]
                     | r :: rest => ReviewQueue.touch "SKIPPED" (utcnow env) r :: rest
                     end).
  { replace db1 with (snd (add_to_review_queue (utcnow env) (User.id user)
                             (Question.question_id q) "SKIPPED" (QuizState.subject state1)
                             grade (QuizState.unit_name state1) db))
      by now rewrite Hadd.
    apply add_to_review_queue_rows. }
  assert (Hu1 : user_of telegram_id db1 = Some user)
    by now rewrite (user_of_frame _ _ _ Husers).
  assert (Hs1 : DB.sessions db1 !! User.id user = Some session) by now rewrite Hsessions.
  set (db2 := DB.set_sessions
                (<[User.id user := session_step None None None (Some state2) false session]>
                   (DB.sessions db1)) db1).
  assert (Hrun : skip_question env telegram_id db = present_question env telegram_id db2).
  { unfold skip_question. enter Hu Hs. rewrite Hq.
    rewrite (py_index_ok_lt _ _ _ Hpy), Hpy, bind_lift_ok.
    cbn [QuizState.grade QuizState.set_history]. rewrite Hg, bind_lift_ok.
    fold state1. rewrite (bind_ok _ _ _ _ _ Hadd). fold state2.
    unfold bind, update_session_state. now rewrite Hs1. }
  subst db'. rewrite Hrun.
  assert (Hst2 : stored_quiz_state telegram_id db2 = Some state2).
  { rewrite (stored_quiz_state_found telegram_id db2 user
               (session_step None None None (Some state2) false session)).
    - reflexivity.
    - subst db2. now rewrite (user_of_frame _ db1) by reflexivity.
    - subst db2. simpl. apply lookup_insert_eq. }
  destruct (handler_inv_intro telegram_id (eq state2) db2 state2 Hst2 eq_refl)
    as (user_id & HI & Hx).
  apply (triple_present_question telegram_id user_id _ _ env) in HI. apply proj1 in HI.
  split; [|split].
  - destruct (handler_inv_stored _ _ _ _ _ HI) as (s & Hs' & <-). exact Hs'.
  - rewrite (handler_inv_xp _ _ _ _ _ HI), <- Hx.
    subst db2. rewrite (xp_of_user_frame _ db1) by reflexivity.
    now apply xp_of_user_frame.
  - unfold review_rows in *. rewrite keeps_rq_present_question.
    subst db2. simpl DB.review_queue. exact Hrows1.
Qed.

Lemma skip_question_effect_witness :
  review_rows 1 "q0" (snd (skip_question example_env 42 unit_quiz_db))
  = [ReviewQueue.mk 1 "Biology" 10 "Unit 1" "q0" "SKIPPED" 1000].
Proof.
  destruct (skip_question_effect example_env 42 unit_quiz_db unit_quiz_state
              (set_source_unit "Unit 1" (example_question "q0")))
    as (user & grade & Hu & Hg & _ & _ & H);
    [vm_compute; reflexivity | reflexivity | reflexivity |].
  vm_compute in Hu, Hg. injection Hu as <-. injection Hg as <-. exact H.
Defined.

(** * Answers and the review queue (quiz_handler.handle_answer_selection) *)

#[export] Hint Resolve keeps_rq_get_or_create_user keeps_rq_get_or_create_session
  keeps_rq_update_session_state keeps_rq_pop_navigation_stack keeps_rq_update_user_streak
  keeps_rq_add_xp keeps_rq_update_phase_progress keeps_rq_record_quiz_attempt
  keeps_rq_save_message_id keeps_rq_navigate_to keeps_rq_show_game_summary
  keeps_rq_present_game_question keeps_rq_show_quiz_summary keeps_rq_present_question
  : keeps.

Lemma runs_leads {A} (I I' J J' : DB.t -> Prop) (m : M A) (Q : A -> Prop) :
  runs I m Q I' -> leads J m J' ->
  runs (fun db => I db /\ J db) m Q (fun db => I' db /\ J' db).
Proof.
  intros Hm Hj db [HI HJ]. destruct (Hm db HI) as (a & Ha & HQ & HI').
  exists a. split; [exact Ha|]. split; [exact HQ|]. split; [exact HI' | now apply Hj].
Qed.

Lemma keeps_leads {A B} (f : DB.t -> B) (J : B -> Prop) (m : M A) :
  keeps f m -> leads (fun db => J (f db)) m (fun db => J (f db)).
Proof. intros H db HJ. now rewrite H. Qed.

(** A step that runs and leaves the review queue alone. *)
Ltac framed lem :=
  eapply runs_leads;
  [ apply lem
  | apply (keeps_leads DB.review_queue (fun rq => rq = _)); solve [eauto with keeps] ].

Lemma add_to_review_queue_table now user_id question_id status subject grade unit_name db db0 :
  DB.review_queue db = DB.review_queue db0 ->
  DB.review_queue
    (snd (add_to_review_queue now user_id question_id status subject grade unit_name db))
  = DB.review_queue
      (snd (add_to_review_queue now user_id question_id status subject grade unit_name db0)).
Proof.
  unfold add_to_review_queue. intros ->. destruct (first _ _); reflexivity.
Qed.

Lemma remove_from_review_queue_table user_id question_id db db0 :
  DB.review_queue db = DB.review_queue db0 ->
  DB.review_queue (snd (remove_from_review_queue user_id question_id db))
  = DB.review_queue (snd (remove_from_review_queue user_id question_id db0)).
Proof. unfold remove_from_review_queue. simpl. now intros ->. Qed.

Lemma runs_standard_answer_queue telegram_id user_id env selected_opt state q grade db0 :
  is_game_mode state = false ->
  py_index (QuizState.questions state) (QuizState.current_index state) = Ok q ->
  review_grade (QuizState.grade state) = Ok grade ->
  let is_correct := bool_decide (selected_opt = Some (Question.correct_answer q)) in
  runs (fun db => handler_inv telegram_id user_id (eq state)
                                (fun x => 0 <= x < 2 ^ 63 - 10) db
                  /\ DB.review_queue db = DB.review_queue db0)
       (handle_answer_selection env telegram_id selected_opt)
       (fun _ => True)
       (fun db => handler_inv telegram_id user_id (fun _ => True) (fun _ : Z => True) db
                  /\ DB.review_queue db
                     = DB.review_queue
                         (snd ((if is_correct
                                then run remove_from_review_queue user_id
                                                                  (Question.question_id q) ;;
                                     ret tt
                                else run add_to_review_queue
                                           (utcnow env) user_id (Question.question_id q)
                                           "MISTAKE" (QuizState.subject state) grade
                                           (default (QuizState.unit_name state)
                                                    (Question.source_unit q)) ;;
                                     ret tt) db0))).
Proof.
  intros Hgame Hpy Hgrade is_correct. unfold handle_answer_selection.
  eapply runs_bind; [framed (runs_get_or_create_user telegram_id user_id)|].
  intros user Hid. cbv beta in Hid. rewrite Hid.
  eapply runs_bind; [framed (runs_get_or_create_session telegram_id user_id)|].
  intros session (state' & Hq & <-). rewrite Hq.
  change (mode_is state "SPEEDRUN" || mode_is state "SURVIVAL") with (is_game_mode state).
  rewrite Hgame, Hpy.
  eapply runs_bind; [apply runs_lift|]. intros ? <-.
  eapply runs_bind; [framed (runs_record_quiz_attempt telegram_id user_id)|]. intros _ _.
  fold is_correct. rewrite Hgrade.
  set (Final := fun db : DB.t =>
         handler_inv telegram_id user_id (fun _ : QuizState.t => True) (fun _ : Z => True) db
         /\ DB.review_queue db
            = DB.review_queue
                (snd ((if is_correct
                       then run remove_from_review_queue user_id (Question.question_id q) ;;
                            ret tt
                       else run add_to_review_queue
                                  (utcnow env) user_id (Question.question_id q)
                                  "MISTAKE" (QuizState.subject state) grade
                                  (default (QuizState.unit_name state)
                                           (Question.source_unit q)) ;;
                            ret tt) db0))).
  eapply runs_bind with (Q := fun _ => True)
    (I' := fun db => handler_inv telegram_id user_id (eq state) (fun _ : Z => True) db
                     /\ DB.review_queue db
                        = DB.review_queue
                            (snd ((if is_correct
                                   then run remove_from_review_queue
                                              user_id (Question.question_id q) ;;
                                        ret tt
                                   else run add_to_review_queue
                                              (utcnow env) user_id (Question.question_id q)
                                              "MISTAKE" (QuizState.subject state) grade
                                              (default (QuizState.unit_name state)
                                                       (Question.source_unit q)) ;;
                                        ret tt) db0))).
  { destruct is_correct.
    - eapply runs_bind;
        [framed (runs_add_xp telegram_id user_id (eq state) (fun x => 0 <= x < 2 ^ 63 - 10)
                             (fun _ : Z => True) 10);
         intros x Hx; split; [apply xp_room; [exact Hx | lia] | exact Logic.I]|].
      intros _ _.
      eapply runs_bind with (Q := fun _ => True);
        [|intros _ _; apply runs_ret; exact Logic.I].
      eapply runs_leads; [apply runs_remove_from_review_queue|].
      intros db Hrq. unfold bind at 1.
      destruct (remove_from_review_queue user_id (Question.question_id q) db0) eqn:Hrem.
      assert (r = Ok tt) as -> by (unfold remove_from_review_queue in Hrem; congruence).
      cbn [snd ret].
      replace t with (snd (remove_from_review_queue user_id (Question.question_id q) db0))
        by now rewrite Hrem.
      now apply remove_from_review_queue_table.
    - eapply runs_pre with
        (I0 := fun db => handler_inv telegram_id user_id (eq state) (fun _ : Z => True) db
                         /\ DB.review_queue db = DB.review_queue db0);
        [intros db [HI Hrq]; split; [exact (handler_inv_any_xp _ _ _ _ _ HI) | exact Hrq]|].
      eapply runs_bind; [apply runs_lift|]. intros g Hg. subst g.
      eapply runs_bind with (Q := fun _ => True);
        [|intros _ _; apply runs_ret; exact Logic.I].
      eapply runs_leads; [apply runs_add_to_review_queue|].
      intros db Hrq. unfold bind at 1.
      destruct (add_to_review_queue_run (utcnow env) user_id (Question.question_id q)
                  "MISTAKE" (QuizState.subject state) grade
                  (default (QuizState.unit_name state) (Question.source_unit q)) db0)
        as (item & db1 & Hadd & _).
      rewrite Hadd. cbn [snd ret].
      replace db1 with (snd (add_to_review_queue (utcnow env) user_id
                               (Question.question_id q) "MISTAKE" (QuizState.subject state)
                               grade (default (QuizState.unit_name state)
                                              (Question.source_unit q)) db0))
        by now rewrite Hadd.
      now apply add_to_review_queue_table. }
  intros state1 _. cbv zeta.
  eapply runs_bind with (Q := fun _ => True) (I' := Final).
  { eapply runs_leads;
      [apply (runs_write_state telegram_id user_id _ (fun _ => True)); exact Logic.I
      | apply (keeps_leads DB.review_queue (fun rq => rq = _)); eauto with keeps]. }
  intros _ _.
  eapply runs_bind with (Q := fun _ => True) (I' := Final).
  { destruct (mode_is _ "CHALLENGE").
    - eapply runs_bind with (Q := fun _ => True) (I' := Final);
        [|intros _ _; now apply runs_ret].
      eapply runs_leads;
        [apply (runs_write_state telegram_id user_id _ (fun _ => True)); exact Logic.I
        | apply (keeps_leads DB.review_queue (fun rq => rq = _)); eauto with keeps].
    - now apply runs_ret. }
  intros _ _.
  eapply runs_bind with (Q := fun _ => True) (I' := Final);
    [|intros _ _; now apply runs_ret].
  eapply runs_leads;
    [apply (runs_save_message_id telegram_id user_id)
    | apply (keeps_leads DB.review_queue (fun rq => rq = _)); eauto with keeps].
Qed.

(** X12. In a standard or review quiz a right answer takes the question out of
    the review queue, and a wrong answer puts it there as a MISTAKE (a row
    the question already had is restamped, not doubled); the rows of other
    questions and other users are the ones [remove_from_review_queue] or
    [add_to_review_queue] leave.  The user's points are not negative and
    leave room for the ten of a right answer below 2^63, the limit of the
    column. *)
Theorem answer_updates_review_queue env telegram_id selected_opt db state q :
  stored_quiz_state telegram_id db = Some state ->
  is_game_mode state = false ->
  py_index (QuizState.questions state) (QuizState.current_index state) = Ok q ->
  is_ok (review_grade (QuizState.grade state)) = true ->
  0 <= xp_of_user telegram_id db < 2 ^ 63 - 10 ->
  let db' := snd (handle_answer_selection env telegram_id selected_opt db) in
  exists user grade,
    user_of telegram_id db = Some user
    /\ review_grade (QuizState.grade state) = Ok grade
    /\ (selected_opt = Some (Question.correct_answer q) ->
        DB.review_queue db'
        = DB.review_queue
            (snd (remove_from_review_queue (User.id user) (Question.question_id q) db))
        /\ review_rows (User.id user) (Question.question_id q) db' = [])
    /\ (selected_opt <> Some (Question.correct_answer q) ->
        let unit_name := default (QuizState.unit_name state) (Question.source_unit q) in
        DB.review_queue db'
        = DB.review_queue
            (snd (add_to_review_queue (utcnow env) (User.id user) (Question.question_id q)
                                      "MISTAKE" (QuizState.subject state) grade unit_name db))
        /\ review_rows (User.id user) (Question.question_id q) db'
           = match review_rows (User.id user) (Question.question_id q) db with
             | [] => [ReviewQueue.mk (User.id user) (QuizState.subject state) grade unit_name
                                     (Question.question_id q) "MISTAKE" (utcnow env)]
             | r :: rest => ReviewQueue.touch "MISTAKE" (utcnow env) r :: rest
             end).
Proof.
  intros Hst Hgame Hpy Hgrade Hxp db'.
  destruct (stored_quiz_state_inv _ _ _ Hst) as (user & session & Hu & Hs & Hq).
  destruct (review_grade (QuizState.grade state)) as [grade|] eqn:Hg; [|discriminate].
  exists user, grade. split; [exact Hu|]. split; [reflexivity|].
  destruct (handler_inv_intro telegram_id (eq state) db state Hst eq_refl)
    as (user_id & HI & Hx).
  assert (Hid : User.id user = user_id).
  { destruct HI as ((user' & Hu' & Hid) & _). congruence. }
  apply (handler_inv_weaken _ _ _ (eq state) _ (fun x => 0 <= x < 2 ^ 63 - 10)) in HI;
    [|auto|intros ? <-; now rewrite <- Hx].
  destruct (runs_standard_answer_queue telegram_id user_id env selected_opt state q grade db
              Hgame Hpy Hg db (conj HI eq_refl)) as (r & _ & _ & _ & Hrq).
  fold db' in Hrq. rewrite Hid. split.
  - intros Hright. rewrite (bool_decide_eq_true_2 _ Hright) in Hrq.
    assert (Hrq' : DB.review_queue db'
                   = DB.review_queue
                       (snd (remove_from_review_queue user_id (Question.question_id q) db)))
      by exact Hrq.
    split; [exact Hrq'|]. unfold review_rows. rewrite Hrq'. simpl.
    apply filter_filter_neg.
  - intros Hwrong unit_name. rewrite (bool_decide_eq_false_2 _ Hwrong) in Hrq.
    assert (Hrq' : DB.review_queue db'
                   = DB.review_queue
                       (snd (add_to_review_queue (utcnow env) user_id
                               (Question.question_id q) "MISTAKE" (QuizState.subject state)
                               grade unit_name db))).
    { rewrite Hrq. unfold bind.
      destruct (add_to_review_queue_run (utcnow env) user_id (Question.question_id q)
                  "MISTAKE" (QuizState.subject state) grade unit_name db)
        as (item & db1 & Hadd & _).
      subst unit_name. now rewrite Hadd. }
    split; [exact Hrq'|].
    pose proof (add_to_review_queue_rows (utcnow env) user_id (Question.question_id q)
                  "MISTAKE" (QuizState.subject state) grade unit_name db) as Hrows.
    unfold review_rows in *. now rewrite Hrq'.
Qed.

Lemma answer_updates_review_queue_witness :
  review_rows 1 "q0" (snd (handle_answer_selection example_env 42 (Some "B") unit_quiz_db))
  = [ReviewQueue.mk 1 "Biology" 10 "Unit 1" "q0" "MISTAKE" 1000].
Proof.
  destruct (answer_updates_review_queue example_env 42 (Some "B") unit_quiz_db unit_quiz_state
              (set_source_unit "Unit 1" (example_question "q0")))
    as (user & grade & Hu & Hg & _ & H);
    [vm_compute; reflexivity | reflexivity | reflexivity | reflexivity
    | vm_compute; split; [discriminate | reflexivity] |].
  vm_compute in Hu, Hg. injection Hu as <-. injection Hg as <-.
  destruct H as [_ H]; [discriminate | exact H].
Defined.

(** * Game modes: how a run ends (game_handler.handle_game_answer) *)

(** X13. In SURVIVAL the first wrong answer shows the game-over summary with
    the right option and the explanation, and writes nothing: the stored
    quiz state (index, score), the users and their points, the progress
    records and the review queue are what they were. *)
Theorem survival_wrong_answer_ends_the_run env telegram_id selected_opt db state q :
  stored_quiz_state telegram_id db = Some state ->
  QuizState.mode state = Some "SURVIVAL" ->
  py_index (QuizState.questions state) (QuizState.current_index state) = Ok q ->
  selected_opt <> game_correct_opt q ->
  exists db',
    handle_answer_selection env telegram_id selected_opt db
    = (Ok (Some (GameSum (death_reason (game_correct_opt q) q) (QuizState.score state)
                         (QuizState.score state * 20))), db')
    /\ stored_quiz_state telegram_id db' = Some state
    /\ DB.users db' = DB.users db
    /\ DB.progress db' = DB.progress db
    /\ DB.review_queue db' = DB.review_queue db.
Proof.
  intros Hst Hmode Hpy Hwrong.
  destruct (stored_quiz_state_inv _ _ _ Hst) as (user & session & Hu & Hs & Hq).
  unfold handle_answer_selection. enter Hu Hs. rewrite Hq.
  unfold mode_is. rewrite Hmode.
  rewrite (bool_decide_eq_true_2 (Some "SURVIVAL" = Some "SURVIVAL")) by reflexivity.
  rewrite orb_true_r.
  unfold handle_game_answer. enter Hu Hs. rewrite Hq, Hmode.
  unfold key at 1. rewrite bind_ret.
  change (str_eqb "SURVIVAL" "SPEEDRUN") with false. cbv iota. rewrite bind_ret.
  rewrite Hpy, bind_lift_ok. cbv zeta.
  rewrite (bool_decide_eq_false_2 _ Hwrong).
  change (str_eqb "SURVIVAL" "SURVIVAL") with true. cbv iota.
  destruct (show_game_summary_run env telegram_id (death_reason (game_correct_opt q) q)
              db user session state "SURVIVAL" Hu Hs Hq Hmode) as (session' & Hrun & H1 & _).
  rewrite Hrun. eexists. split; [reflexivity|].
  split; [|auto].
  rewrite <- H1. apply (stored_quiz_state_found _ _ user session'); [exact Hu|].
  simpl. apply lookup_insert_eq.
Qed.

Lemma survival_wrong_answer_ends_the_run_witness :
  exists db',
    handle_answer_selection example_env 42 (Some "B") survival_db
    = (Ok (Some (GameSum (death_reason (Some "A") (example_question "q0")) 0 0)), db')
    /\ stored_quiz_state 42 db' = Some survival_state.
Proof.
  destruct (survival_wrong_answer_ends_the_run example_env 42 (Some "B") survival_db
              survival_state (example_question "q0")) as (db' & H1 & H2 & _).
  - vm_compute. reflexivity.
  - reflexivity.
  - reflexivity.
  - discriminate.
  - exists db'. split; [exact H1 | exact H2].
Defined.

Lemma runs_show_game_summary_view telegram_id user_id X env reason state mode :
  QuizState.mode state = Some mode ->
  runs (handler_inv telegram_id user_id (eq state) X)
       (show_game_summary env telegram_id reason)
       (eq (Some (GameSum reason (QuizState.score state)
                          (QuizState.score state * xp_per_correct mode))))
       (handler_inv telegram_id user_id (eq state) X).
Proof.
  intros Hmode. unfold show_game_summary.
  eapply runs_bind; [apply runs_get_or_create_user|].
  intros user Hid. cbv beta in Hid. rewrite Hid.
  eapply runs_bind; [apply runs_get_or_create_session|].
  intros session (state' & Hq & <-). rewrite Hq, Hmode.
  eapply runs_bind; [apply (runs_ret _ _ (eq mode)); reflexivity|]. intros ? <-.
  eapply runs_bind; [apply runs_save_message_id|]. intros _ _.
  now apply runs_ret.
Qed.

(** The deadline test passes and the current question is answered right
    while it is the last one. *)
Lemma last_game_answer_step telegram_id user_id env selected_opt state q mode x :
  QuizState.mode state = Some mode ->
  mode = "SPEEDRUN" \/ mode = "SURVIVAL" ->
  speedrun_expired env state = Some false ->
  py_index (QuizState.questions state) (QuizState.current_index state) = Ok q ->
  selected_opt = game_correct_opt q ->
  Z.of_nat (length (QuizState.questions state)) <= QuizState.current_index state + 1 ->
  0 <= x < 2 ^ 63 - xp_per_correct mode ->
  runs (handler_inv telegram_id user_id (eq state) (eq x))
       (handle_answer_selection env telegram_id selected_opt)
       (eq (Some (GameSum "🏆 All Questions Completed!" (QuizState.score state)
                          (QuizState.score state * xp_per_correct mode))))
       (handler_inv telegram_id user_id (eq state) (eq (x + xp_per_correct mode))).
Proof.
  intros Hmode Hcase Hexp Hpy Hright Hlast Hx.
  assert (Hgame : mode_is state "SPEEDRUN" || mode_is state "SURVIVAL" = true).
  { unfold mode_is. rewrite Hmode.
    destruct Hcase as [-> | ->];
      [rewrite (bool_decide_eq_true_2 (Some "SPEEDRUN" = Some "SPEEDRUN")) by reflexivity
      |rewrite (bool_decide_eq_true_2 (Some "SURVIVAL" = Some "SURVIVAL")) by reflexivity];
      [reflexivity | apply orb_true_r]. }
  assert (Hrate : 0 <= xp_per_correct mode)
    by (unfold xp_per_correct; destruct (str_eqb mode "SURVIVAL"); lia).
  unfold handle_answer_selection.
  eapply runs_bind; [apply runs_get_or_create_user|].
  intros user Hid. cbv beta in Hid. rewrite Hid.
  eapply runs_bind; [apply runs_get_or_create_session|].
  intros session (state' & Hq & <-). rewrite Hq, Hgame. clear user Hid session Hq.
  unfold handle_game_answer.
  eapply runs_bind; [apply runs_get_or_create_user|].
  intros user Hid. cbv beta in Hid. rewrite Hid.
  eapply runs_bind; [apply runs_get_or_create_session|].
  intros session (state' & Hq & <-). rewrite Hq, Hmode.
  eapply runs_bind; [apply (runs_ret _ _ (eq mode)); reflexivity|]. intros ? <-.
  eapply runs_bind with (Q := eq false).
  { unfold speedrun_expired, mode_is in Hexp. rewrite Hmode in Hexp.
    destruct Hcase as [-> | ->].
    - change (str_eqb "SPEEDRUN" "SPEEDRUN") with true. cbv iota.
      rewrite (bool_decide_eq_true_2 (Some "SPEEDRUN" = Some "SPEEDRUN")) in Hexp
        by reflexivity.
      destruct (QuizState.start_time state) as [start_time|]; [|discriminate].
      destruct (QuizState.duration state) as [duration|]; [|discriminate].
      simpl in Hexp. injection Hexp as Hexp.
      eapply runs_bind; [apply (runs_ret _ _ (eq start_time)); reflexivity|]. intros ? <-.
      eapply runs_bind; [apply (runs_ret _ _ (eq duration)); reflexivity|]. intros ? <-.
      apply runs_ret. now rewrite Hexp.
    - change (str_eqb "SURVIVAL" "SPEEDRUN") with false. cbv iota.
      now apply runs_ret. }
  intros ? <-. rewrite Hpy.
  eapply runs_bind; [apply runs_lift|]. intros ? <-. cbv zeta.
  rewrite (bool_decide_eq_true_2 _ Hright).
  eapply runs_bind;
    [apply (runs_add_xp telegram_id user_id (eq state) (eq x)
                        (eq (x + xp_per_correct mode)));
     intros ? <-; split; [now apply xp_room | reflexivity]|].
  intros _ _. cbn [QuizState.questions QuizState.current_index QuizState.set_current_index
                   QuizState.set_last_feedback QuizState.set_score].
  replace (Z.of_nat (length (QuizState.questions state)) <=? QuizState.current_index state + 1)
    with true by (symmetry; now apply Z.leb_le).
  now apply runs_show_game_summary_view.
Qed.

(** X14. When the last question of a SPEEDRUN or SURVIVAL run is answered
    right, the points are awarded but the new score and index are not
    written: the summary shows the score before that answer, the stored
    quiz state is unchanged, and sending the same answer again awards the
    points again, as many times as it is sent (while the total stays below
    2^63, the limit of the column). *)
Theorem last_game_answer_is_not_saved env telegram_id selected_opt db state q mode n :
  stored_quiz_state telegram_id db = Some state ->
  QuizState.mode state = Some mode ->
  mode = "SPEEDRUN" \/ mode = "SURVIVAL" ->
  speedrun_expired env state = Some false ->
  py_index (QuizState.questions state) (QuizState.current_index state) = Ok q ->
  selected_opt = game_correct_opt q ->
  Z.of_nat (length (QuizState.questions state)) <= QuizState.current_index state + 1 ->
  0 <= xp_of_user telegram_id db
  < 2 ^ 63 - Z.max 1 (Z.of_nat n) * xp_per_correct mode ->
  let r := handle_answer_selection env telegram_id selected_opt db in
  let db' := quiz_run telegram_id (answers (repeat (env, selected_opt) n)) db in
  fst r = Ok (Some (GameSum "🏆 All Questions Completed!" (QuizState.score state)
                            (QuizState.score state * xp_per_correct mode)))
  /\ stored_quiz_state telegram_id (snd r) = Some state
  /\ xp_of_user telegram_id (snd r) = xp_of_user telegram_id db + xp_per_correct mode
  /\ stored_quiz_state telegram_id db' = Some state
  /\ xp_of_user telegram_id db' = xp_of_user telegram_id db + Z.of_nat n * xp_per_correct mode.
Proof.
  intros Hst Hmode Hcase Hexp Hpy Hright Hlast Hxp r db'.
  destruct (handler_inv_intro telegram_id (eq state) db state Hst eq_refl)
    as (user_id & HI & Hx).
  rewrite Hx in *.
  assert (Hrate : 0 <= xp_per_correct mode)
    by (unfold xp_per_correct; destruct (str_eqb mode "SURVIVAL"); lia).
  assert (Hstep : forall x db,
             0 <= x < 2 ^ 63 - xp_per_correct mode ->
             handler_inv telegram_id user_id (eq state) (eq x) db ->
             fst (handle_answer_selection env telegram_id selected_opt db)
             = Ok (Some (GameSum "🏆 All Questions Completed!" (QuizState.score state)
                                 (QuizState.score state * xp_per_correct mode)))
             /\ handler_inv telegram_id user_id (eq state) (eq (x + xp_per_correct mode))
                            (snd (handle_answer_selection env telegram_id selected_opt db))).
  { intros x d Hx0 Hd.
    destruct (last_game_answer_step telegram_id user_id env selected_opt state q mode x
                Hmode Hcase Hexp Hpy Hright Hlast Hx0 d Hd) as (a & Ha & <- & Hd').
    auto. }
  assert (Hone : xp_per_correct mode <= Z.max 1 (Z.of_nat n) * xp_per_correct mode)
    by (rewrite <- (Z.mul_1_l (xp_per_correct mode)) at 1;
        apply Z.mul_le_mono_nonneg_r; lia).
  assert (Hall : Z.of_nat n * xp_per_correct mode
                 <= Z.max 1 (Z.of_nat n) * xp_per_correct mode)
    by (apply Z.mul_le_mono_nonneg_r; lia).
  destruct (Hstep (xp_of user_id db) db ltac:(lia) HI) as [Hview HI1]. fold r in Hview, HI1.
  split; [exact Hview|].
  split; [destruct (handler_inv_stored _ _ _ _ _ HI1) as (s & Hs & <-); exact Hs|].
  split; [exact (handler_inv_xp _ _ _ _ _ HI1)|].
  assert (Hrun : forall n x db,
             0 <= x < 2 ^ 63 - Z.of_nat n * xp_per_correct mode ->
             handler_inv telegram_id user_id (eq state) (eq x) db ->
             handler_inv telegram_id user_id (eq state)
                         (eq (x + Z.of_nat n * xp_per_correct mode))
                         (quiz_run telegram_id (answers (repeat (env, selected_opt) n)) db)).
  { clear - Hstep Hrate. induction n as [|n IH]; intros x d Hx0 Hd.
    - simpl. now rewrite Z.add_0_r.
    - cbn [repeat answers map quiz_run quiz_step].
      replace (x + Z.of_nat (S n) * xp_per_correct mode)
        with (x + xp_per_correct mode + Z.of_nat n * xp_per_correct mode) by lia.
      apply IH; [nia|]. apply Hstep; [nia | exact Hd]. }
  specialize (Hrun n (xp_of user_id db) db ltac:(lia) HI). fold db' in Hrun.
  split; [destruct (handler_inv_stored _ _ _ _ _ Hrun) as (s & Hs & <-); exact Hs|].
  exact (handler_inv_xp _ _ _ _ _ Hrun).
Qed.

Lemma last_game_answer_is_not_saved_witness :
  xp_of_user 42 survival_last_db = 20
  /\ xp_of_user 42
       (quiz_run 42 (answers (repeat (example_env, Some "A") 3)) survival_last_db) = 80
  /\ stored_quiz_state 42
       (quiz_run 42 (answers (repeat (example_env, Some "A") 3)) survival_last_db)
     = Some survival_last_state.
Proof.
  split; [vm_compute; reflexivity|].
  destruct (last_game_answer_is_not_saved example_env 42 (Some "A") survival_last_db
              survival_last_state (example_question "q1") "SURVIVAL" 3)
    as (_ & _ & _ & Hst & Hxp).
  - vm_compute. reflexivity.
  - reflexivity.
  - now right.
  - reflexivity.
  - reflexivity.
  - reflexivity.
  - vm_compute. discriminate.
  - vm_compute. split; [discriminate | reflexivity].
  - split; [rewrite Hxp; vm_compute; reflexivity | exact Hst].
Defined.

(** * Starting and replaying a batch (quiz_handler.py) *)

Lemma write_state_run user_id db session state :
  DB.sessions db !! user_id = Some session ->
  update_session_state user_id None None None (Some state) false db
  = (Ok (with_quiz_state state session),
     DB.set_sessions (<[user_id := with_quiz_state state session]> (DB.sessions db)) db).
Proof. intros Hs. unfold update_session_state. now rewrite Hs. Qed.

Lemma present_question_run env telegram_id db user session state q :
  user_of telegram_id db = Some user ->
  DB.sessions db !! User.id user = Some session ->
  Session.quiz_state session = Some state ->
  py_index (QuizState.questions state) (QuizState.current_index state) = Ok q ->
  exists session',
    present_question env telegram_id db
    = (Ok (Some (QuizPres (if mode_is state "CHALLENGE" then "SCR_GAME_PRES"
                           else "SCR_QUIZ_PRES")
                          (QuizState.current_index state + 1)
                          (Z.of_nat (length (QuizState.questions state))) q)),
       DB.set_sessions (<[User.id user := session']> (DB.sessions db)) db)
    /\ Session.quiz_state session' = Some state
    /\ Session.navigation_stack session' = Session.navigation_stack session
    /\ Session.current session' = Session.current session.
Proof.
  intros Hu Hs Hq Hpy. unfold present_question. enter Hu Hs. rewrite Hq. cbv zeta.
  rewrite (py_index_ok_lt _ _ _ Hpy), Hpy, bind_lift_ok.
  destruct (save_message_id_run env _ _ _ Hs) as (session' & Hrun & H1 & H2 & H3).
  rewrite (bind_ok _ _ _ _ _ Hrun). unfold ret.
  exists session'. rewrite H1, Hq. auto.
Qed.

Lemma py_index_head {A} (x : A) l : py_index (x :: l) 0 = Ok x.
Proof.
  unfold py_index. cbn [length].
  replace (0 <? - Z.of_nat (S (length l))) with false by (symmetry; apply Z.ltb_ge; lia).
  replace (Z.of_nat (S (length l)) <=? 0) with false by (symmetry; apply Z.leb_gt; lia).
  reflexivity.
Qed.

Lemma py_index_second {A} (x y : A) l : py_index (x :: y :: l) 1 = Ok y.
Proof.
  unfold py_index. cbn [length].
  replace (1 <? - Z.of_nat (S (S (length l)))) with false by (symmetry; apply Z.ltb_ge; lia).
  replace (Z.of_nat (S (S (length l))) <=? 1) with false by (symmetry; apply Z.leb_gt; lia).
  reflexivity.
Qed.

(** X15. Replaying a batch sets the index and the score to zero and empties the
    history, keeps the questions and everything else of the quiz state, and
    shows the first question again.  Nothing but the session is written: the
    points earned, the progress records with their attempt counters and the
    review queue stay. *)
Theorem replay_batch_resets env telegram_id db state q questions :
  stored_quiz_state telegram_id db = Some state ->
  QuizState.questions state = q :: questions ->
  let reset := QuizState.set_history []
                 (QuizState.set_score 0 (QuizState.set_current_index 0 state)) in
  exists db',
    replay_batch env telegram_id db
    = (Ok (Some (QuizPres (if mode_is state "CHALLENGE" then "SCR_GAME_PRES"
                           else "SCR_QUIZ_PRES")
                          1 (Z.of_nat (length (QuizState.questions state))) q)), db')
    /\ stored_quiz_state telegram_id db' = Some reset
    /\ DB.users db' = DB.users db
    /\ DB.progress db' = DB.progress db
    /\ DB.review_queue db' = DB.review_queue db.
Proof.
  intros Hst Hqs reset.
  destruct (stored_quiz_state_inv _ _ _ Hst) as (user & session & Hu & Hs & Hq).
  unfold replay_batch. enter Hu Hs. rewrite Hq. cbv zeta. fold reset.
  rewrite (bind_ok _ _ _ _ _ (write_state_run _ _ _ reset Hs)).
  set (db1 := DB.set_sessions _ db).
  assert (Hpy : py_index (QuizState.questions reset) (QuizState.current_index reset) = Ok q).
  { subst reset. simpl. rewrite Hqs. apply py_index_head. }
  destruct (present_question_run env telegram_id db1 user (with_quiz_state reset session)
              reset q) as (session' & Hrun & H1 & _); auto.
  { subst db1. simpl. apply lookup_insert_eq. }
  rewrite Hrun. eexists. split; [reflexivity|]. split; [|auto].
  rewrite <- H1. apply (stored_quiz_state_found _ _ user session'); [exact Hu|].
  simpl. apply lookup_insert_eq.
Qed.

Lemma replay_batch_resets_witness :
  exists db',
    replay_batch example_env 42 finished_quiz_db
    = (Ok (Some (QuizPres "SCR_QUIZ_PRES" 1 2
                          (set_source_unit "Unit 1" (example_question "q0")))), db')
    /\ stored_quiz_state 42 db' = Some unit_quiz_state
    /\ DB.users db' = DB.users finished_quiz_db.
Proof.
  destruct (replay_batch_resets example_env 42 finished_quiz_db finished_quiz_state
              (set_source_unit "Unit 1" (example_question "q0"))
              [set_source_unit "Unit 1" (example_question "q1")])
    as (db' & H1 & H2 & H3 & _).
  - vm_compute. reflexivity.
  - reflexivity.
  - exists db'. split; [exact H1|]. split; [exact H2 | exact H3].
Defined.

Lemma split_nonempty sep s : PyStr.split sep s <> [].
Proof. destruct s as [|c s]; simpl; [discriminate|]. destruct (Ascii.eqb c sep); [discriminate|].
  destruct (PyStr.split sep s); discriminate. Qed.

Lemma split_space_second s :
  PyStr.contains " " s = true ->
  exists a b rest, PyStr.split space s = a :: b :: rest.
Proof.
  induction s as [|c s IH]; [discriminate|].
  intros H. cbn [PyStr.contains] in H. cbn [PyStr.split].
  destruct (Ascii.eqb c space) eqn:Hc.
  - pose proof (split_nonempty space s) as Hne.
    destruct (PyStr.split space s) as [|b rest]; [congruence|]. eauto.
  - assert (Hpre : String.prefix " " (String c s) = false).
    { change (String.prefix " " (String c s))
        with (if ascii_dec " " c then String.prefix "" s else false).
      destruct (ascii_dec " " c) as [<-|]; [vm_compute in Hc; discriminate | reflexivity]. }
    rewrite Hpre in H. simpl in H.
    destruct (IH H) as (a & b & rest & ->). eauto.
Qed.

(** X16. A unit quiz that starts with a non-empty question list stores a fresh
    quiz state (index and score zero, empty history, every question stamped
    with its unit, the unit id built from the subject code, the grade without
    blanks and the unit number) and shows the first question, whether or not
    the user and the session row existed before.  With no question no
    session row is changed.  The progress records and the review queue are
    not touched. *)
Theorem start_quiz_session_initial_state
    env telegram_id subject_code grade unit_name questions db :
  let r := start_quiz_session env telegram_id subject_code grade unit_name questions db in
  exists unit_num,
    (if PyStr.contains " " unit_name then py_index (PyStr.split space unit_name) 1
     else Ok "1") = Ok unit_num
    /\ (forall q rest, questions = q :: rest ->
        fst r = Ok (Some (QuizPres "SCR_QUIZ_PRES" 1 (Z.of_nat (length questions))
                                   (set_source_unit unit_name q)))
        /\ stored_quiz_state telegram_id (snd r)
           = Some (QuizState.mk None (default subject_code (subj_map_get subject_code))
                                grade unit_name
                                (subject_code +:+ "_" +:+ PyStr.replace grade " " ""
                                 +:+ "_U" +:+ unit_num)
                                (map (set_source_unit unit_name) questions)
                                0 0 [] None None None))
    /\ (questions = [] ->
        fst r = Ok None
        /\ forall user_id session,
             DB.sessions db !! user_id = Some session ->
             DB.sessions (snd r) !! user_id = Some session)
    /\ DB.progress (snd r) = DB.progress db
    /\ DB.review_queue (snd r) = DB.review_queue db.
Proof.
  intros r.
  assert (Hnum : exists unit_num,
             (if PyStr.contains " " unit_name then py_index (PyStr.split space unit_name) 1
              else Ok "1") = Ok unit_num).
  { destruct (PyStr.contains " " unit_name) eqn:Hc; [|eauto].
    destruct (split_space_second _ Hc) as (a & b & rest & ->). exists b.
    apply py_index_second. }
  destruct Hnum as [unit_num Hnum]. exists unit_num. split; [exact Hnum|].
  destruct (get_or_create_user_post (utcnow env) telegram_id db)
    as (user & db1 & Hrun1 & Hu1 & Hs1).
  assert (Hframe1 : DB.progress db1 = DB.progress db /\ DB.review_queue db1 = DB.review_queue db).
  { replace db1 with (snd (get_or_create_user (utcnow env) telegram_id db))
      by now rewrite Hrun1.
    unfold get_or_create_user. destruct (first _ _); auto. }
  assert (Hsess : exists session db2,
             get_or_create_session (User.id user) db1 = (Ok session, db2)
             /\ DB.sessions db2 !! User.id user = Some session
             /\ user_of telegram_id db2 = Some user
             /\ DB.progress db2 = DB.progress db1
             /\ DB.review_queue db2 = DB.review_queue db1
             /\ forall user_id s,
                  DB.sessions db1 !! user_id = Some s ->
                  DB.sessions db2 !! user_id = Some s).
  { unfold get_or_create_session.
    destruct (DB.sessions db1 !! User.id user) as [session|] eqn:Hs.
    - exists session, db1. auto 7.
    - eexists _, _. split; [reflexivity|]. simpl. rewrite lookup_insert_eq.
      repeat split; auto.
      intros user_id s Hs'. rewrite lookup_insert_ne; [exact Hs' | congruence]. }
  destruct Hsess as (session & db2 & Hrun2 & Hs2 & Hu2 & Hp2 & Hr2 & Hq2).
  assert (Hr : r = match questions with
                   | [] => (Ok None, db2)
                   | _ =>
                       let quiz_state :=
                         QuizState.mk None (default subject_code (subj_map_get subject_code))
                                      grade unit_name
                                      (subject_code +:+ "_" +:+ PyStr.replace grade " " ""
                                       +:+ "_U" +:+ unit_num)
                                      (map (set_source_unit unit_name) questions)
                                      0 0 [] None None None in
                       present_question env telegram_id
                         (DB.set_sessions
                            (<[User.id user := with_quiz_state quiz_state session]>
                               (DB.sessions db2)) db2)
                   end).
  { subst r. unfold start_quiz_session. cbv zeta.
    rewrite (bind_ok _ _ _ _ _ Hrun1), (bind_ok _ _ _ _ _ Hrun2), Hnum, bind_lift_ok.
    destruct questions; [reflexivity|].
    now rewrite (bind_ok _ _ _ _ _ (write_state_run _ _ _ _ Hs2)). }
  destruct Hframe1 as [Hp1 Hr1].
  destruct questions as [|q rest].
  - rewrite Hr. cbn [fst snd].
    split; [intros ? ? [=]|]. split; [|split; congruence].
    intros _. split; [reflexivity|].
    intros user_id s Hs. apply Hq2. now rewrite Hs1.
  - cbv zeta in Hr.
    match type of Hr with context [with_quiz_state ?s session] => set (state0 := s) in * end.
    set (db3 := DB.set_sessions _ db2) in Hr.
    destruct (present_question_run env telegram_id db3 user (with_quiz_state state0 session)
                state0 (set_source_unit unit_name q)) as (session' & Hrun & H1 & _).
    + exact Hu2.
    + subst db3. simpl. apply lookup_insert_eq.
    + reflexivity.
    + apply py_index_head.
    + rewrite Hr, Hrun. cbn [fst snd].
      split; [|split; [intros [=] | split; simpl; congruence]].
      intros q' rest' [= <- <-]. split.
      { unfold mode_is. subst state0. cbn [QuizState.mode QuizState.current_index
                                                QuizState.questions].
        rewrite bool_decide_eq_false_2 by discriminate.
        cbn [length]. now rewrite length_map. }
      rewrite <- H1. apply (stored_quiz_state_found _ _ user session'); [exact Hu2|].
      simpl. apply lookup_insert_eq.
Qed.


(** * Home and back (navigation.py) *)

Lemma navigate_to_run env telegram_id screen_id param add_to_stack db user session :
  user_of telegram_id db = Some user ->
  DB.sessions db !! User.id user = Some session ->
  let session' :=
    match render_result env with
    | Some message_id =>
        session_step (Some screen_id) param (Some message_id) None add_to_stack session
    | None => session
    end in
  navigate_to env telegram_id screen_id param add_to_stack db
  = (Ok (Some (Nav screen_id param)),
     DB.set_sessions (<[User.id user := session']> (DB.sessions db)) db).
Proof.
  intros Hu Hs session'. unfold navigate_to. enter Hu Hs. subst session'.
  destruct (render_result env) as [message_id|].
  - unfold bind, update_session_state. now rewrite Hs.
  - unfold ret. f_equal. destruct db. unfold DB.set_sessions. simpl in *. f_equal.
    symmetry. now apply insert_id.
Qed.

Lemma session_step_no_push scr param message_id session :
  let session' := session_step (Some scr) param message_id None false session in
  Session.navigation_stack session' = Session.navigation_stack session
  /\ Session.quiz_state session' = Session.quiz_state session
  /\ (scr <> "" -> Session.current session' = (scr, param))
  /\ (scr = "" -> Session.current session' = Session.current session).
Proof.
  unfold session_step. destruct scr as [|c scr]; simpl; destruct message_id; simpl;
    repeat split; auto; congruence.
Qed.

Lemma go_home_run env telegram_id db user session :
  user_of telegram_id db = Some user ->
  DB.sessions db !! User.id user = Some session ->
  exists db' session',
    go_home env telegram_id db = (Ok (Some (Nav "SCR_HUB" None)), db')
    /\ session_of telegram_id db' = Some session'
    /\ Session.current session' = ("SCR_HUB", None)
    /\ Session.navigation_stack session' = Session.navigation_stack session
    /\ Session.quiz_state session' = Session.quiz_state session.
Proof.
  intros Hu Hs. unfold go_home. enter Hu Hs.
  unfold bind at 1, update_session_state at 1. rewrite Hs.
  set (session1 := session_step (Some "SCR_HUB") None None None false session).
  set (db1 := DB.set_sessions _ db).
  destruct (session_step_no_push "SCR_HUB" None None session) as (Hst1 & Hq1 & Hc1 & _).
  fold session1 in Hst1, Hq1, Hc1. specialize (Hc1 ltac:(discriminate)).
  assert (Hs1 : DB.sessions db1 !! User.id user = Some session1)
    by (subst db1; simpl; apply lookup_insert_eq).
  rewrite (navigate_to_run env telegram_id "SCR_HUB" None false db1 user session1 Hu Hs1).
  eexists _, _. split; [reflexivity|]. split.
  { apply (session_of_found _ _ user); [exact Hu|]. simpl. apply lookup_insert_eq. }
  destruct (render_result env) as [message_id|]; cbv zeta iota.
  - repeat split; assumption.
  - auto.
Qed.

(** X17. [go_home] shows the hub and makes it the current screen, but it does
    not clear the navigation stack: the stored stack, like the quiz state,
    is the one from before. *)
Theorem go_home_keeps_the_stack env telegram_id db user session :
  user_of telegram_id db = Some user ->
  DB.sessions db !! User.id user = Some session ->
  exists db' session',
    go_home env telegram_id db = (Ok (Some (Nav "SCR_HUB" None)), db')
    /\ session_of telegram_id db' = Some session'
    /\ Session.current session' = ("SCR_HUB", None)
    /\ Session.navigation_stack session' = Session.navigation_stack session
    /\ Session.quiz_state session' = Session.quiz_state session.
Proof. apply go_home_run. Qed.

Lemma go_home_keeps_the_stack_witness :
  exists db' session',
    go_home example_env 42 settings_db = (Ok (Some (Nav "SCR_HUB" None)), db')
    /\ session_of 42 db' = Some session'
    /\ Session.current session' = ("SCR_HUB", None)
    /\ Session.navigation_stack session' = [("SCR_WELCOME", None)].
Proof.
  destruct (go_home_keeps_the_stack example_env 42 settings_db settings_user settings_session)
    as (db' & session' & H1 & H2 & H3 & H4 & _); [reflexivity | reflexivity |].
  exists db', session'. auto.
Defined.

(** X18. [go_back] takes the top entry off the navigation stack, makes it the
    current screen and parameter again and shows it; with an empty stack it
    goes home.  The quiz state is kept either way. *)
Theorem go_back_returns_to_the_top env telegram_id db user session :
  user_of telegram_id db = Some user ->
  DB.sessions db !! User.id user = Some session ->
  exists db' session',
    session_of telegram_id db' = Some session'
    /\ Session.quiz_state session' = Session.quiz_state session
    /\ match Session.top session with
       | Some (screen, param) =>
           go_back env telegram_id db = (Ok (Some (Nav screen param)), db')
           /\ Session.current session' = (screen, param)
           /\ Session.navigation_stack session'
              = removelast (Session.navigation_stack session)
       | None =>
           go_back env telegram_id db = (Ok (Some (Nav "SCR_HUB" None)), db')
           /\ Session.current session' = ("SCR_HUB", None)
           /\ Session.navigation_stack session' = []
       end.
Proof.
  intros Hu Hs. unfold go_back.
  rewrite (bind_ok _ _ _ _ _ (get_or_create_user_found _ _ _ _ Hu)).
  unfold bind at 1, pop_navigation_stack at 1. rewrite Hs. unfold Session.top.
  destruct (last (Session.navigation_stack session)) as [[screen param]|] eqn:Hlast.
  - set (session1 := Session.mk screen param _ _ _).
    set (db1 := DB.set_sessions _ db).
    assert (Hs1 : DB.sessions db1 !! User.id user = Some session1)
      by (subst db1; simpl; apply lookup_insert_eq).
    rewrite (navigate_to_run env telegram_id screen param false db1 user session1 Hu Hs1).
    cbv zeta.
    set (session2 := match render_result env with
                     | Some message_id =>
                         session_step (Some screen) param (Some message_id) None false session1
                     | None => session1
                     end).
    exists (DB.set_sessions (<[User.id user := session2]> (DB.sessions db1)) db1), session2.
    split.
    { apply (session_of_found _ _ user); [exact Hu|].
      cbn [DB.sessions DB.set_sessions]. apply lookup_insert_eq. }
    subst session2.
    destruct (render_result env) as [message_id|]; [|auto].
    destruct (session_step_no_push screen param (Some message_id) session1)
      as (Hst2 & Hq2 & Hc2 & Hc2').
    rewrite Hst2, Hq2. split; [reflexivity|]. split; [reflexivity|]. split; [|reflexivity].
    destruct screen as [|c screen]; [now rewrite Hc2' | now rewrite Hc2].
  - destruct (go_home_run env telegram_id db user session Hu Hs)
      as (db' & session' & H1 & H2 & H3 & H4 & H5).
    exists db', session'. split; [exact H2|]. split; [exact H5|].
    split; [|split; [exact H3|]].
    + unfold bind, pop_navigation_stack. now rewrite Hs, Hlast.
    + rewrite H4. destruct (Session.navigation_stack session) as [|e l]; [reflexivity|].
      exfalso. clear - Hlast. revert e Hlast. induction l as [|e' l IH]; intros e H.
      * discriminate.
      * apply (IH e'). exact H.
Qed.

Lemma go_back_returns_to_the_top_witness :
  exists db' session',
    go_back example_env 42 settings_db = (Ok (Some (Nav "SCR_WELCOME" None)), db')
    /\ session_of 42 db' = Some session'
    /\ Session.current session' = ("SCR_WELCOME", None)
    /\ Session.navigation_stack session' = [].
Proof.
  destruct (go_back_returns_to_the_top example_env 42 settings_db settings_user
              settings_session eq_refl eq_refl) as (db' & session' & H1 & _ & H3).
  unfold Session.top in H3. simpl in H3. destruct H3 as (Ha & Hb & Hc).
  exists db', session'. auto.
Defined.

(** * A run never changes what is being asked *)

Lemma triple_handle_answer_selection telegram_id user_id P X env selected_opt :
  stable P -> stable_history P -> (forall x n, X x -> X (x + n)) ->
  triple (handler_inv telegram_id user_id P X)
         (handle_answer_selection env telegram_id selected_opt) (fun _ => True).
Proof.
  intros HP HH HX. unfold handle_answer_selection.
  eapply triple_bind; [apply runs_triple, runs_get_or_create_user|].
  intros user Hid. cbv beta in Hid. rewrite Hid.
  eapply triple_bind; [apply runs_triple, runs_get_or_create_session|].
  intros session (state & Hq & Hstate). rewrite Hq.
  destruct (mode_is state "SPEEDRUN" || mode_is state "SURVIVAL");
    [now apply triple_handle_game_answer|].
  eapply triple_bind; [apply triple_lift|]. intros q _.
  eapply triple_bind; [apply runs_triple, runs_record_quiz_attempt|]. intros _ _.
  eapply triple_bind with (Q := P).
  { destruct (bool_decide _).
    - eapply triple_bind; [apply triple_add_xp; auto|]. intros _ _.
      eapply triple_bind; [apply runs_triple, runs_remove_from_review_queue|]. intros _ _.
      apply triple_ret. now apply (stable_score P).
    - eapply triple_bind; [apply triple_lift|]. intros grade _.
      eapply triple_bind; [apply runs_triple, runs_add_to_review_queue|]. intros _ _.
      now apply triple_ret. }
  intros state1 Hstate1. cbv zeta.
  eapply triple_bind; [apply triple_write_state; now apply HH|]. intros _ _.
  eapply triple_bind with (Q := fun _ => True).
  { destruct (mode_is _ _).
    - eapply triple_bind;
        [apply triple_write_state; apply (stable_feedback P); [exact HP | now apply HH]|].
      intros _ _. now apply triple_ret.
    - now apply triple_ret. }
  intros _ _.
  eapply triple_bind; [apply runs_triple, runs_save_message_id|]. intros _ _.
  now apply triple_ret.
Qed.

Lemma stable_same_batch state : stable (same_batch state).
Proof. intros s H. repeat split; intros; apply H. Qed.

Lemma stable_history_same_batch state : stable_history (same_batch state).
Proof. intros s h H. exact H. Qed.

Lemma same_batch_refl state : same_batch state state.
Proof. repeat split. Qed.

(** X19. Whatever the user sends during a quiz (answers, next, skip), in any
    order and whatever fails on the way, the stored quiz state stays there
    and stays of the same batch: the questions, the subject, the grade, the
    unit, the mode, the start time and the duration never change. *)
Theorem quiz_run_keeps_the_batch telegram_id ops db state :
  stored_quiz_state telegram_id db = Some state ->
  exists state',
    stored_quiz_state telegram_id (quiz_run telegram_id ops db) = Some state'
    /\ same_batch state state'.
Proof.
  intros Hst.
  destruct (handler_inv_intro telegram_id (same_batch state) db state Hst
              (same_batch_refl state)) as (user_id & HI & _).
  apply handler_inv_any_xp in HI.
  assert (Hrun : handler_inv telegram_id user_id (same_batch state) (fun _ => True)
                             (quiz_run telegram_id ops db)).
  { clear Hst. revert db HI. induction ops as [|[env op] ops IH]; intros db HI; [exact HI|].
    simpl. apply IH. destruct op as [selected_opt| |]; simpl.
    - apply (triple_handle_answer_selection telegram_id user_id _ _ env selected_opt);
        auto using stable_same_batch, stable_history_same_batch.
    - apply (triple_next_question telegram_id user_id _ _ env (stable_same_batch state) db HI).
    - apply (triple_skip_question telegram_id user_id _ _ env (stable_same_batch state)
                                  (stable_history_same_batch state) db HI). }
  exact (handler_inv_stored _ _ _ _ _ Hrun).
Qed.

Lemma quiz_run_keeps_the_batch_witness :
  exists state',
    stored_quiz_state 42 finished_quiz_db = Some state'
    /\ QuizState.questions state' = unit_quiz_questions.
Proof.
  destruct (quiz_run_keeps_the_batch 42 (right_then_next ++ right_then_next) unit_quiz_db
              unit_quiz_state) as (state' & H1 & H2 & _); [vm_compute; reflexivity|].
  exists state'. split; [exact H1 | exact H2].
Defined.

(** * The callback format (callback_router.parse_callback) *)

Lemma contains_char_cons sep c s :
  PyStr.contains (String sep "") (String c s) = false ->
  Ascii.eqb c sep = false /\ PyStr.contains (String sep "") s = false.
Proof.
  cbn [PyStr.contains].
  change (String.prefix (String sep "") (String c s))
    with (if ascii_dec sep c then String.prefix "" s else false).
  intros H. apply orb_false_iff in H as [Hp Hc]. split; [|exact Hc].
  destruct (ascii_dec sep c) as [<-|Hne].
  - destruct s; discriminate.
  - apply Ascii.eqb_neq. congruence.
Qed.

Lemma split_single sep a :
  PyStr.contains (String sep "") a = false -> PyStr.split sep a = [a].
Proof.
  induction a as [|c a IH]; intros H; [reflexivity|].
  apply contains_char_cons in H as [Hc Ha]. cbn [PyStr.split].
  now rewrite Hc, (IH Ha).
Qed.

Lemma split_skip sep a rest :
  PyStr.contains (String sep "") a = false ->
  PyStr.split sep (a +:+ String sep rest) = a :: PyStr.split sep rest.
Proof.
  induction a as [|c a IH]; intros H.
  - simpl. now rewrite Ascii.eqb_refl.
  - apply contains_char_cons in H as [Hc Ha].
    change (String c a +:+ String sep rest) with (String c (a +:+ String sep rest)).
    cbn [PyStr.split]. now rewrite Hc, (IH Ha).
Qed.

Lemma join_split sep s : py_join (String sep "") (PyStr.split sep s) = s.
Proof.
  induction s as [|c s IH]; [reflexivity|]. cbn [PyStr.split].
  destruct (Ascii.eqb_spec c sep) as [->|Hne].
  - pose proof (split_nonempty sep s) as Hs.
    cbn [py_join]. destruct (PyStr.split sep s) as [|p parts]; [congruence|].
    rewrite IH. reflexivity.
  - pose proof (split_nonempty sep s) as Hs.
    destruct (PyStr.split sep s) as [|p parts]; [congruence|].
    rewrite <- IH. destruct parts; reflexivity.
Qed.

(** X20. A callback is read back as it was built: an action and a screen
    without a bar, joined by bars with any parameter, come back as the three
    parts, and the parameter keeps the bars it contains; without a parameter
    or without a screen the missing parts are [None].  Conversely, whatever
    the data, the action is never [None], and joining the parts that were
    read with bars gives the data back. *)
Theorem parse_callback_round_trip action screen param data :
  PyStr.contains "|" action = false ->
  PyStr.contains "|" screen = false ->
  parse_callback (action +:+ "|" +:+ screen +:+ "|" +:+ param)
  = (Some action, Some screen, Some param)
  /\ parse_callback (action +:+ "|" +:+ screen) = (Some action, Some screen, None)
  /\ parse_callback action = (Some action, None, None)
  /\ match parse_callback data with
     | (Some a, Some s, Some p) => data = a +:+ "|" +:+ s +:+ "|" +:+ p
     | (Some a, Some s, None) => data = a +:+ "|" +:+ s
     | (Some a, None, None) => data = a
     | _ => False
     end.
Proof.
  intros Ha Hs. unfold parse_callback.
  change "|" with (String bar "") in *.
  split; [|split; [|split]].
  - change (action +:+ String bar "" +:+ screen +:+ String bar "" +:+ param)
      with (action +:+ String bar (screen +:+ String bar param)).
    rewrite (split_skip _ _ _ Ha), (split_skip _ _ _ Hs).
    pose proof (split_nonempty bar param) as Hp.
    destruct (PyStr.split bar param) as [|p parts] eqn:Hsplit; [congruence|].
    cbn [length drop]. simpl Nat.ltb. cbv iota. cbn [lookup list_lookup].
    now rewrite <- Hsplit, join_split.
  - change (action +:+ String bar "" +:+ screen) with (action +:+ String bar screen).
    now rewrite (split_skip _ _ _ Ha), (split_single _ _ Hs).
  - now rewrite (split_single _ _ Ha).
  - pose proof (join_split bar data) as Hjoin.
    pose proof (split_nonempty bar data) as Hne.
    destruct (PyStr.split bar data) as [|a [|s [|p parts]]]; [congruence | | |].
    + simpl. now symmetry.
    + simpl. now symmetry.
    + cbn [length drop]. simpl Nat.ltb. cbv iota. cbn [lookup list_lookup].
      rewrite <- Hjoin. reflexivity.
Qed.

Lemma parse_callback_round_trip_witness :
  parse_callback "ACT|QUIZ|START_RANDOM_QUIZ|12"
  = (Some "ACT", Some "QUIZ", Some "START_RANDOM_QUIZ|12").
Proof.
  apply (parse_callback_round_trip "ACT" "QUIZ" "START_RANDOM_QUIZ|12" "");
    reflexivity.
Defined.

(** * NAV callbacks (callback_router.handle_navigation) *)








(** X22. A [ROOT] parameter opens a screen without a parameter, and without
    pushing the screen the user leaves, unless the target is one of the six
    set-up screens, which push it as usual. *)
Theorem root_navigation_does_not_push env bank telegram_id screen db user session :
  user_of telegram_id db = Some user ->
  DB.sessions db !! User.id user = Some session ->
  is_Some (render_result env) ->
  screen <> "" ->
  ~ In screen ["SCR_HUB"; "HOME"; "BACK"] ->
  let r := handle_navigation env bank telegram_id screen (Some "ROOT") db in
  exists session',
    fst r = Ok (Some (Nav screen None))
    /\ session_of telegram_id (snd r) = Some session'
    /\ Session.current session' = (screen, None)
    /\ Session.quiz_state session' = Session.quiz_state session
    /\ Session.navigation_stack session'
       = if existsb (str_eqb screen) game_screens
            && negb (str_eqb (Session.current_screen session) screen)
         then push_previous session
         else Session.navigation_stack session.
Proof.
  intros Hu Hs [message_id Hrender] Hne Hspecial r. subst r.
  assert (Hq : forall s, In s ["SCR_HUB"; "HOME"; "BACK"] -> str_eqb screen s = false).
  { intros s Hin. unfold str_eqb. apply bool_decide_eq_false_2. intros ->. auto. }
  unfold handle_navigation.
  rewrite (bool_decide_eq_false_2 (Some "ROOT" = Some "CURR_CONTEXT")) by discriminate.
  rewrite andb_false_r.
  assert (Hsync : (if str_eqb screen "SCR_UNITS"
                   then match truthy (Some "ROOT") with
                        | Some p => if PyStr.contains ":" p
                                    then sync_user_grade env telegram_id p else ret tt
                        | None => ret tt
                        end
                   else ret tt) = ret tt)
    by (destruct (str_eqb screen "SCR_UNITS"); reflexivity).
  rewrite Hsync, bind_ret.
  rewrite !Hq by (simpl; auto). cbn [orb andb].
  rewrite (bool_decide_eq_false_2 (Some "ROOT" = Some "BACK")) by discriminate.
  assert (Hparts : quiz_start_parts screen (Some "ROOT") = None)
    by (unfold quiz_start_parts; destruct (str_eqb screen "SCR_QUIZ_PRES"); reflexivity).
  rewrite Hparts. cbv zeta.
  rewrite (bool_decide_eq_true_2 (Some "ROOT" = Some "ROOT")) by reflexivity.
  cbn [negb orb].
  rewrite (navigate_to_run env telegram_id screen None _ db user session Hu Hs).
  rewrite Hrender. cbn [fst snd].
  eexists. split; [reflexivity|]. split.
  { apply (session_of_found _ _ user); [exact Hu|].
    cbn [DB.sessions DB.set_sessions]. apply lookup_insert_eq. }
  rewrite session_step_stack.
  unfold session_step. destruct screen as [|c screen]; [congruence|].
  cbn [truthy Session.current Session.current_screen Session.current_param
       Session.quiz_state].
  repeat split.
Qed.

Lemma root_navigation_does_not_push_witness :
  exists session',
    session_of 42 (snd (handle_navigation example_env (fun _ _ _ => []) 42 "SCR_STATS"
                                          (Some "ROOT") settings_db)) = Some session'
    /\ Session.current session' = ("SCR_STATS", None)
    /\ Session.navigation_stack session' = [("SCR_WELCOME", None)].
Proof.
  destruct (root_navigation_does_not_push example_env (fun _ _ _ => []) 42 "SCR_STATS"
              settings_db settings_user settings_session)
    as (session' & _ & H1 & H2 & _ & H3).
  - reflexivity.
  - reflexivity.
  - eexists. reflexivity.
  - discriminate.
  - intros [H | [H | [H | []]]]; discriminate.
  - exists session'. split; [exact H1|]. split; [exact H2 | exact H3].
Defined.

(** * The BALANCED phase is never unlocked by a quiz *)

Section ProgressFrame.

#[local] Abbreviation pr := DB.progress.

Lemma keeps_pr_get_or_create_user now telegram_id :
  keeps pr (get_or_create_user now telegram_id).
Proof. unfold get_or_create_user. keeps_crud. Qed.

Lemma keeps_pr_get_or_create_session user_id : keeps pr (get_or_create_session user_id).
Proof. unfold get_or_create_session. keeps_crud. Qed.

Lemma keeps_pr_update_session_state user_id screen current_param message_id quiz_state add :
  keeps pr (update_session_state user_id screen current_param message_id quiz_state add).
Proof. unfold update_session_state. keeps_crud. Qed.

Lemma keeps_pr_update_user_streak now user_id : keeps pr (update_user_streak now user_id).
Proof. unfold update_user_streak. keeps_crud. Qed.

Lemma keeps_pr_add_xp user_id xp_amount : keeps pr (add_xp user_id xp_amount).
Proof. unfold add_xp. keeps_crud. Qed.

Lemma keeps_pr_add_to_review_queue now user_id question_id status subject grade unit_name :
  keeps pr (add_to_review_queue now user_id question_id status subject grade unit_name).
Proof. unfold add_to_review_queue. keeps_crud. Qed.

Lemma keeps_pr_remove_from_review_queue user_id question_id :
  keeps pr (remove_from_review_queue user_id question_id).
Proof. unfold remove_from_review_queue. keeps_crud. Qed.

#[local] Hint Resolve keeps_pr_get_or_create_user keeps_pr_get_or_create_session
  keeps_pr_update_session_state keeps_pr_update_user_streak keeps_pr_add_xp
  keeps_pr_add_to_review_queue keeps_pr_remove_from_review_queue : keeps.

Lemma keeps_pr_save_message_id env user_id : keeps pr (save_message_id env user_id).
Proof. unfold save_message_id. keeps_auto. Qed.

#[local] Hint Resolve keeps_pr_save_message_id : keeps.

Lemma keeps_pr_navigate_to env telegram_id screen_id param add_to_stack :
  keeps pr (navigate_to env telegram_id screen_id param add_to_stack).
Proof. unfold navigate_to. keeps_auto. Qed.

Lemma keeps_pr_show_game_summary env telegram_id reason :
  keeps pr (show_game_summary env telegram_id reason).
Proof. unfold show_game_summary. keeps_auto. Qed.

#[local] Hint Resolve keeps_pr_navigate_to keeps_pr_show_game_summary : keeps.

Lemma keeps_pr_present_game_question env telegram_id :
  keeps pr (present_game_question env telegram_id).
Proof. unfold present_game_question. keeps_auto. Qed.

#[local] Hint Resolve keeps_pr_present_game_question : keeps.

Lemma keeps_pr_handle_game_answer env telegram_id selected_opt :
  keeps pr (handle_game_answer env telegram_id selected_opt).
Proof. unfold handle_game_answer. keeps_auto. Qed.

End ProgressFrame.

#[export] Hint Resolve keeps_pr_get_or_create_user keeps_pr_get_or_create_session
  keeps_pr_update_session_state keeps_pr_update_user_streak keeps_pr_add_xp
  keeps_pr_add_to_review_queue keeps_pr_remove_from_review_queue keeps_pr_save_message_id
  keeps_pr_navigate_to keeps_pr_show_game_summary keeps_pr_present_game_question
  keeps_pr_handle_game_answer : keeps.

Section BalancedNeverUnlocked.

Variable rows0 : list Progress.t.

#[local] Abbreviation Within := (fun db => balanced_unlocks_within rows0 (DB.progress db)).

Lemma preserves_within_keeps {A} (m : M A) : keeps DB.progress m -> preserves Within m.
Proof. intros H db HI. now rewrite H. Qed.

Lemma first_update_first_cases {A} (p q : A -> bool) (f : A -> A) rows x :
  (forall r, p (f r) = p r) ->
  first p (update_first q f rows) = Some x ->
  first p rows = Some x \/ exists r, first p rows = Some r /\ x = f r.
Proof.
  intros Hp. unfold first. induction rows as [|r rows IH]; simpl; [discriminate|].
  destruct (q r) eqn:Hq; simpl.
  - rewrite Hp. destruct (p r); [intros [= <-]; eauto | auto].
  - destruct (p r); [auto | exact IH].
Qed.

Lemma first_app_cases {A} (p : A -> bool) rows y x :
  first p (rows ++ [y]) = Some x ->
  first p rows = Some x \/ (first p rows = None /\ x = y).
Proof.
  unfold first. induction rows as [|r rows IH]; simpl.
  - destruct (p y); [intros [= <-]; auto | discriminate].
  - destruct (p r); auto.
Qed.

Lemma within_update user_id unit_id (f : Progress.t -> Progress.t) rows p1 :
  first (is_progress user_id unit_id) rows = Some p1 ->
  (forall u n, is_progress u n (f p1) = is_progress u n p1) ->
  Progress.unlocked_balanced (f p1) = Progress.unlocked_balanced p1 ->
  balanced_unlocks_within rows0 rows ->
  balanced_unlocks_within rows0 (update_first (is_progress user_id unit_id) f rows).
Proof.
  intros H1 Hkey Hflag HI u n p Hp Hb.
  assert (Hsame : first (is_progress u n) rows = Some p
                  \/ (first (is_progress u n) rows = Some p1 /\ p = f p1)).
  { clear - Hp Hkey H1. unfold first in *. induction rows as [|r rows IH]; simpl in *;
      [discriminate|].
    destruct (is_progress user_id unit_id r) eqn:Hq; simpl in Hp.
    - injection H1 as ->. rewrite Hkey in Hp.
      destruct (is_progress u n p1); [injection Hp as <-; auto | auto].
    - destruct (is_progress u n r); [auto | now apply IH]. }
  destruct Hsame as [Hsame | [Hr ->]].
  - exact (HI u n p Hsame Hb).
  - rewrite Hflag in Hb. exact (HI u n p1 Hr Hb).
Qed.

Lemma within_append fresh rows :
  Progress.unlocked_balanced fresh = false ->
  balanced_unlocks_within rows0 rows -> balanced_unlocks_within rows0 (rows ++ [fresh]).
Proof.
  intros Hfresh HI u n p Hp Hb.
  apply first_app_cases in Hp as [Hp | [_ ->]]; [exact (HI u n p Hp Hb) | congruence].
Qed.

Lemma phase_step_derived_balanced accuracy p :
  Progress.unlocked_balanced (phase_step (derived_phase accuracy) accuracy p)
  = Progress.unlocked_balanced p.
Proof.
  unfold phase_step, set_phase_accuracy, derived_phase, PHASE_UNLOCK_THRESHOLD.
  destruct (95 <=? accuracy)%float; [reflexivity|].
  destruct (80 <=? accuracy)%float eqn:H80; simpl.
  - reflexivity.
  - reflexivity.
Qed.

Lemma is_progress_phase_step u n phase accuracy p :
  is_progress u n (phase_step phase accuracy p) = is_progress u n p.
Proof.
  unfold phase_step, set_phase_accuracy, is_progress.
  repeat match goal with |- context [if ?c then _ else _] => destruct c end; reflexivity.
Qed.

Lemma within_update_phase_progress user_id unit_id subject grade accuracy :
  preserves Within
    (update_phase_progress user_id unit_id subject grade (derived_phase accuracy) accuracy).
Proof.
  intros db HI. unfold update_phase_progress.
  destruct (first (is_progress user_id unit_id) (DB.progress db)) as [p1|] eqn:H1; simpl.
  - apply (within_update _ _ _ _ p1 H1); [|apply phase_step_derived_balanced|exact HI].
    intros u n. apply is_progress_phase_step.
  - apply within_append; [|exact HI]. now rewrite phase_step_derived_balanced.
Qed.

Lemma within_record_quiz_attempt user_id unit_id subject grade correct :
  preserves Within (record_quiz_attempt user_id unit_id subject grade correct).
Proof.
  intros db HI. unfold record_quiz_attempt.
  destruct (first (is_progress user_id unit_id) (DB.progress db)) as [p1|] eqn:H1.
  - destruct (attempt_step correct p1) as [p'|e] eqn:Hstep; [|exact HI]. simpl.
    destruct (attempt_step_fields _ _ _ Hstep) as (_ & _ & Hu & Hn & _ & Hb & _).
    apply (within_update _ _ (fun _ => p') _ p1 H1); [|exact Hb|exact HI].
    intros u n. unfold is_progress. now rewrite Hu, Hn.
  - destruct (attempt_step correct (new_progress user_id unit_id subject grade))
      as [p'|e] eqn:Hstep; [|exact HI]. simpl.
    destruct (attempt_step_fields _ _ _ Hstep) as (_ & _ & _ & _ & _ & Hb & _).
    apply within_append; [|exact HI]. now rewrite Hb.
Qed.

#[local] Hint Resolve within_update_phase_progress within_record_quiz_attempt : preserves.

Ltac within_step :=
  first
    [ progress cbv zeta
    | apply preserves_bind; [|intros ?]
    | match goal with
      | |- preserves _ (match ?x with _ => _ end) => destruct x
      | |- preserves _ (if ?c then _ else _) => destruct c
      end
    | solve [eauto with preserves]
    | solve [apply preserves_within_keeps; eauto with keeps] ].

Lemma within_show_quiz_summary env telegram_id :
  preserves Within (show_quiz_summary env telegram_id).
Proof. unfold show_quiz_summary. repeat within_step. Qed.

#[local] Hint Resolve within_show_quiz_summary : preserves.

Lemma within_present_question env telegram_id :
  preserves Within (present_question env telegram_id).
Proof. unfold present_question. repeat within_step. Qed.

#[local] Hint Resolve within_present_question : preserves.

Lemma within_quiz_step env telegram_id op :
  preserves Within (quiz_step env telegram_id op).
Proof.
  destruct op; simpl.
  - unfold handle_answer_selection. repeat within_step.
  - unfold next_question. repeat within_step.
  - unfold skip_question. repeat within_step.
Qed.

Lemma within_replay_batch env telegram_id :
  preserves Within (replay_batch env telegram_id).
Proof. unfold replay_batch. repeat within_step. Qed.

Lemma within_start_quiz_session env telegram_id subject_code grade unit_name questions :
  preserves Within (start_quiz_session env telegram_id subject_code grade unit_name questions).
Proof. unfold start_quiz_session. repeat within_step. Qed.

End BalancedNeverUnlocked.

Lemma balanced_unlocked_within user_id unit_id db0 db :
  balanced_unlocks_within (DB.progress db0) (DB.progress db) ->
  balanced_unlocked user_id unit_id db0 = false ->
  balanced_unlocked user_id unit_id db = false.
Proof.
  unfold balanced_unlocked, progress_of. intros HI H0.
  destruct (first (is_progress user_id unit_id) (DB.progress db)) as [p|] eqn:Hp; [|reflexivity].
  destruct (Progress.unlocked_balanced p) eqn:Hb; [|reflexivity].
  destruct (HI user_id unit_id p Hp Hb) as (p0 & Hp0 & Hb0).
  rewrite Hp0 in H0. congruence.
Qed.

Lemma within_refl rows : balanced_unlocks_within rows rows.
Proof. intros u n p Hp Hb. eauto. Qed.

Lemma within_quiz_run rows0 telegram_id ops db :
  balanced_unlocks_within rows0 (DB.progress db) ->
  balanced_unlocks_within rows0 (DB.progress (quiz_run telegram_id ops db)).
Proof.
  revert db. induction ops as [|[env op] ops IH]; intros db HI; [exact HI|].
  simpl. apply IH. now apply (within_quiz_step rows0 env telegram_id op).
Qed.

(** X23. The BALANCED phase is never unlocked by a quiz: a record whose
    BALANCED flag is off keeps it off through any sequence of answers, next
    and skip requests (summaries included), through a replay of the batch
    and through the start of a unit quiz.  The summary records an accuracy
    below 80 as BASELINE, and anything from 80 up as BALANCED or
    EXAM_BIASED, so the BASELINE threshold is never met. *)
Theorem quiz_never_unlocks_balanced user_id unit_id db :
  balanced_unlocked user_id unit_id db = false ->
  (forall telegram_id ops,
      balanced_unlocked user_id unit_id (quiz_run telegram_id ops db) = false)
  /\ (forall env telegram_id,
         balanced_unlocked user_id unit_id (snd (replay_batch env telegram_id db)) = false)
  /\ (forall env telegram_id subject_code grade unit_name questions,
         balanced_unlocked user_id unit_id
           (snd (start_quiz_session env telegram_id subject_code grade unit_name questions db))
         = false).
Proof.
  intros H0. split; [|split]; intros.
  - apply (balanced_unlocked_within _ _ db); [|exact H0].
    apply within_quiz_run, within_refl.
  - apply (balanced_unlocked_within _ _ db); [|exact H0].
    apply (within_replay_batch (DB.progress db)), within_refl.
  - apply (balanced_unlocked_within _ _ db); [|exact H0].
    apply (within_start_quiz_session (DB.progress db)), within_refl.
Qed.

Lemma quiz_never_unlocks_balanced_witness :
  balanced_unlocked 1 "BIO_Grade10_U1" (quiz_run 42 [(example_env, NextQuestion)] nine_of_ten_db)
  = false.
Proof.
  destruct (quiz_never_unlocks_balanced 1 "BIO_Grade10_U1" nine_of_ten_db) as [H _].
  - vm_compute. reflexivity.
  - exact (H 42 [(example_env, NextQuestion)]).
Defined.

(** * SPEEDRUN: an answer in the grace period *)

Lemma runs_speedrun_grace telegram_id user_id env selected_opt state q start_time duration x :
  QuizState.mode state = Some "SPEEDRUN" ->
  QuizState.start_time state = Some start_time ->
  QuizState.duration state = Some duration ->
  float_gt_int (time_time env - start_time)%float (duration + 2) = false ->
  float_gt_int (time_present env - start_time)%float duration = true ->
  py_index (QuizState.questions state) (QuizState.current_index state) = Ok q ->
  QuizState.current_index state + 1 < Z.of_nat (length (QuizState.questions state)) ->
  0 <= x < 2 ^ 63 - 15 ->
  let right := bool_decide (selected_opt = game_correct_opt q) in
  let state' :=
    QuizState.set_current_index (QuizState.current_index state + 1)
      (if right
       then QuizState.set_last_feedback "✅"
              (QuizState.set_score (QuizState.score state + 1) state)
       else QuizState.set_last_feedback "❌" state) in
  runs (handler_inv telegram_id user_id (eq state) (eq x))
       (handle_answer_selection env telegram_id selected_opt)
       (eq (Some (GameSum "⏱️ Time's up!" (QuizState.score state')
                          (QuizState.score state' * 15))))
       (handler_inv telegram_id user_id (eq state')
                    (eq (x + if right then 15 else 0))).
Proof.
  intros Hmode Hstart Hdur Hgrace Hlate Hpy Hmore Hx right state'.
  assert (Hgame : mode_is state "SPEEDRUN" || mode_is state "SURVIVAL" = true).
  { unfold mode_is. rewrite Hmode.
    now rewrite (bool_decide_eq_true_2 (Some "SPEEDRUN" = Some "SPEEDRUN")) by reflexivity. }
  assert (Hmode' : QuizState.mode state' = Some "SPEEDRUN")
    by (unfold state'; destruct right; exact Hmode).
  assert (Hnext : (Z.of_nat (length (QuizState.questions state))
                   <=? QuizState.current_index state + 1) = false) by (apply Z.leb_gt; lia).
  assert (Hend : forall X,
             runs (handler_inv telegram_id user_id (eq state') X)
                  (present_game_question env telegram_id)
                  (eq (Some (GameSum "⏱️ Time's up!" (QuizState.score state')
                                     (QuizState.score state' * 15))))
                  (handler_inv telegram_id user_id (eq state') X)).
  { intros X. unfold present_game_question.
    eapply runs_bind; [apply runs_get_or_create_user|].
    intros user Hid. cbv beta in Hid. rewrite Hid.
    eapply runs_bind; [apply runs_get_or_create_session|].
    intros session (s & Hq & <-). rewrite Hq, Hmode'.
    eapply runs_bind; [apply (runs_ret _ _ (eq "SPEEDRUN")); reflexivity|]. intros ? <-.
    change (str_eqb "SPEEDRUN" "SPEEDRUN") with true. cbv iota.
    eapply runs_bind with (Q := eq true).
    { replace (QuizState.start_time state') with (Some start_time)
        by (unfold state'; destruct right; now rewrite <- Hstart).
      replace (QuizState.duration state') with (Some duration)
        by (unfold state'; destruct right; now rewrite <- Hdur).
      eapply runs_bind; [apply (runs_ret _ _ (eq start_time)); reflexivity|]. intros ? <-.
      eapply runs_bind; [apply (runs_ret _ _ (eq duration)); reflexivity|]. intros ? <-.
      apply runs_ret. now rewrite Hlate. }
    intros ? <-.
    exact (runs_show_game_summary_view telegram_id user_id X env _ state' "SPEEDRUN" Hmode'). }
  unfold handle_answer_selection.
  eapply runs_bind; [apply runs_get_or_create_user|].
  intros user Hid. cbv beta in Hid. rewrite Hid.
  eapply runs_bind; [apply runs_get_or_create_session|].
  intros session (s & Hq & <-). rewrite Hq, Hgame. clear user Hid session Hq.
  unfold handle_game_answer.
  eapply runs_bind; [apply runs_get_or_create_user|].
  intros user Hid. cbv beta in Hid. rewrite Hid.
  eapply runs_bind; [apply runs_get_or_create_session|].
  intros session (s & Hq & <-). rewrite Hq, Hmode.
  eapply runs_bind; [apply (runs_ret _ _ (eq "SPEEDRUN")); reflexivity|]. intros ? <-.
  change (str_eqb "SPEEDRUN" "SPEEDRUN") with true. cbv iota.
  eapply runs_bind with (Q := eq false).
  { rewrite Hstart, Hdur.
    eapply runs_bind; [apply (runs_ret _ _ (eq start_time)); reflexivity|]. intros ? <-.
    eapply runs_bind; [apply (runs_ret _ _ (eq duration)); reflexivity|]. intros ? <-.
    apply runs_ret. now rewrite Hgrace. }
  intros ? <-. rewrite Hpy.
  eapply runs_bind; [apply runs_lift|]. intros ? <-. cbv zeta.
  fold right. unfold state'. destruct right.
  - eapply runs_bind;
      [apply (runs_add_xp telegram_id user_id (eq state) (eq x) (eq (x + 15)));
       intros ? <-; split;
       [change (xp_per_correct "SPEEDRUN") with 15; apply xp_room; [exact Hx | lia]
       |reflexivity]|].
    intros _ _. cbn [QuizState.questions QuizState.current_index QuizState.set_current_index
                     QuizState.set_last_feedback QuizState.set_score].
    rewrite Hnext.
    eapply runs_bind; [apply (runs_write_state _ _ _ (eq state')); reflexivity|].
    intros _ _. apply Hend.
  - change (str_eqb "SPEEDRUN" "SURVIVAL") with false. cbv iota.
    cbn [QuizState.questions QuizState.current_index QuizState.set_current_index
         QuizState.set_last_feedback QuizState.set_score].
    rewrite Hnext, Z.add_0_r.
    eapply runs_bind; [apply (runs_write_state _ _ _ (eq state')); reflexivity|].
    intros _ _. apply Hend.
Qed.

(** X24. A SPEEDRUN answer that arrives after the duration but within the
    two seconds of grace is still scored: the score, the index and (for a
    right answer) 15 points are written.  The question that would follow
    is not shown, because the presentation has no grace: the time's-up
    summary comes back with the new score.  (The user's points are not
    negative and leave room for the 15 below 2^63, the limit of the
    column.) *)
Theorem speedrun_grace_answer_counts_then_run_ends
    env telegram_id selected_opt db state q start_time duration :
  stored_quiz_state telegram_id db = Some state ->
  QuizState.mode state = Some "SPEEDRUN" ->
  QuizState.start_time state = Some start_time ->
  QuizState.duration state = Some duration ->
  float_gt_int (time_time env - start_time)%float (duration + 2) = false ->
  float_gt_int (time_present env - start_time)%float duration = true ->
  py_index (QuizState.questions state) (QuizState.current_index state) = Ok q ->
  QuizState.current_index state + 1 < Z.of_nat (length (QuizState.questions state)) ->
  0 <= xp_of_user telegram_id db < 2 ^ 63 - 15 ->
  let right := bool_decide (selected_opt = game_correct_opt q) in
  let score := QuizState.score state + (if right then 1 else 0) in
  exists db' state',
    handle_answer_selection env telegram_id selected_opt db
    = (Ok (Some (GameSum "⏱️ Time's up!" score (score * 15))), db')
    /\ stored_quiz_state telegram_id db' = Some state'
    /\ QuizState.score state' = score
    /\ QuizState.current_index state' = QuizState.current_index state + 1
    /\ xp_of_user telegram_id db' = xp_of_user telegram_id db + (if right then 15 else 0).
Proof.
  intros Hst Hmode Hstart Hdur Hgrace Hlate Hpy Hmore Hxp right score.
  destruct (handler_inv_intro telegram_id (eq state) db state Hst eq_refl)
    as (user_id & HI & Hx).
  rewrite Hx in *.
  destruct (runs_speedrun_grace telegram_id user_id env selected_opt state q start_time
              duration _ Hmode Hstart Hdur Hgrace Hlate Hpy Hmore Hxp db HI)
    as (a & Ha & <- & HI').
  fold right in Ha, HI'.
  destruct (handle_answer_selection env telegram_id selected_opt db) as [r db'].
  simpl in Ha, HI'. subst r.
  destruct (handler_inv_stored _ _ _ _ _ HI') as (state' & Hst' & <-).
  exists db'. eexists. split; [|split; [exact Hst'|]].
  - unfold score. destruct right; simpl; [reflexivity | now rewrite Z.add_0_r].
  - split; [unfold score; destruct right; simpl; [reflexivity | now rewrite Z.add_0_r]|].
    split; [reflexivity|]. exact (handler_inv_xp _ _ _ _ _ HI').
Qed.

Lemma speedrun_grace_answer_counts_then_run_ends_witness :
  exists db' state',
    handle_answer_selection grace_env 42 (Some "A") speedrun_db
    = (Ok (Some (GameSum "⏱️ Time's up!" 1 15)), db')
    /\ stored_quiz_state 42 db' = Some state'
    /\ QuizState.score state' = 1
    /\ QuizState.current_index state' = 1
    /\ xp_of_user 42 db' = 15.
Proof.
  apply (speedrun_grace_answer_counts_then_run_ends grace_env 42 (Some "A") speedrun_db
           speedrun_state (example_question "q0") 1700000000%float 60).
  - vm_compute. reflexivity.
  - reflexivity.
  - reflexivity.
  - reflexivity.
  - vm_compute. reflexivity.
  - vm_compute. reflexivity.
  - reflexivity.
  - simpl. lia.
  - vm_compute. split; [discriminate | reflexivity].
Defined.

(** * Flagged questions (crud.flag_question) *)

Lemma first_update_first_const {A} (p : A -> bool) (x : A) rows r :
  first p rows = Some r -> p x = true ->
  first p (update_first p (fun _ => x) rows) = Some x.
Proof.
  unfold first. intros H Hx. induction rows as [|a rows IH]; simpl in *; [discriminate|].
  destruct (p a) eqn:Ha; simpl.
  - now rewrite Hx.
  - rewrite Ha. now apply IH.
Qed.

Lemma first_app {A} (p : A -> bool) rows rows' :
  first p (rows ++ rows')
  = match first p rows with Some x => Some x | None => first p rows' end.
Proof.
  unfold first. induction rows as [|a rows IH]; simpl; [reflexivity|].
  now destruct (p a).
Qed.

Lemma flag_question_same now question_id reason rows :
  exists f,
    first (is_flagged question_id) (snd (flag_question now question_id reason rows)) = Some f
    /\ FlaggedQuestion.flag_count f
       = default 0 (FlaggedQuestion.flag_count <$> first (is_flagged question_id) rows) + 1
    /\ FlaggedQuestion.reasons f
       = default [] (FlaggedQuestion.reasons <$> first (is_flagged question_id) rows)
         ++ [reason].
Proof.
  unfold flag_question.
  destruct (first (is_flagged question_id) rows) as [f0|] eqn:H0; cbn [snd].
  - exists (FlaggedQuestion.mk (FlaggedQuestion.question_id f0)
                                (FlaggedQuestion.flag_count f0 + 1)
                                (FlaggedQuestion.reasons f0 ++ [reason]) now).
    split; [|split; reflexivity].
    apply (first_update_first_const _ _ _ f0 H0).
    unfold is_flagged, first in *. apply find_some in H0 as [_ H0]. exact H0.
  - exists (FlaggedQuestion.mk question_id 1 [reason] now).
    split; [|split; reflexivity].
    apply first_app_new; [exact H0|]. unfold is_flagged, str_eqb. cbn.
    now apply bool_decide_eq_true_2.
Qed.

Lemma flag_question_other now question_id reason other rows :
  other <> question_id ->
  first (is_flagged other) (snd (flag_question now question_id reason rows))
  = first (is_flagged other) rows.
Proof.
  intros Hne. unfold flag_question.
  assert (Hno : forall f, is_flagged question_id f = true -> is_flagged other f = false).
  { intros f Hf. unfold is_flagged, str_eqb in *. apply bool_decide_eq_true_1 in Hf.
    apply bool_decide_eq_false_2. congruence. }
  destruct (first (is_flagged question_id) rows) as [f0|] eqn:H0; simpl.
  - assert (Hf0 : is_flagged question_id f0 = true)
      by (unfold first in H0; now apply find_some in H0 as [_ H0]).
    unfold first in *. clear H0.
    induction rows as [|a rows IH]; simpl; [reflexivity|].
    destruct (is_flagged question_id a) eqn:Ha; simpl.
    + rewrite (Hno a Ha).
      replace (is_flagged other _) with false; [reflexivity|].
      symmetry. apply Hno. unfold is_flagged in *. simpl. exact Hf0.
    + now rewrite IH.
  - rewrite first_app. destruct (first (is_flagged other) rows); [reflexivity|].
    unfold first. simpl. rewrite Hno; [reflexivity|].
    unfold is_flagged, str_eqb. simpl. now apply bool_decide_eq_true_2.
Qed.

Lemma reasons_for_cons question_id now qid reason flags :
  reasons_for question_id ((now, qid, reason) :: flags)
  = if str_eqb qid question_id then reason :: reasons_for question_id flags
    else reasons_for question_id flags.
Proof. unfold reasons_for. cbn [List.filter fst snd]. now destruct (str_eqb qid question_id). Qed.

(** X25. The flag count of a question is the number of times it was
    flagged: after any sequence of flags, on this and on other questions,
    the row of a question has its earlier count plus the number of its new
    flags, and its earlier reasons followed by the new ones in the order
    given (count 0 and no reasons when it had no row); it has a row after
    the run exactly when it had one before or was flagged in the run. *)
Theorem flag_count_is_the_number_of_flags question_id flags rows :
  let before := first (is_flagged question_id) rows in
  let after := first (is_flagged question_id) (flag_run flags rows) in
  let new := reasons_for question_id flags in
  default 0 (FlaggedQuestion.flag_count <$> after)
  = default 0 (FlaggedQuestion.flag_count <$> before) + Z.of_nat (length new)
  /\ default [] (FlaggedQuestion.reasons <$> after)
     = default [] (FlaggedQuestion.reasons <$> before) ++ new
  /\ (is_Some after <-> is_Some before \/ new <> []).
Proof.
  revert rows. induction flags as [|[[now qid] reason] flags IH]; intros rows; cbv zeta.
  - simpl. rewrite Z.add_0_r, app_nil_r. split; [reflexivity|]. split; [reflexivity|].
    split; [auto | intros [H | H]; [exact H | now destruct H]].
  - cbn [flag_run]. specialize (IH (snd (flag_question now qid reason rows))).
    cbv zeta in IH. destruct IH as (IH1 & IH2 & IH3).
    rewrite reasons_for_cons. unfold str_eqb.
    destruct (decide (qid = question_id)) as [->|Hne].
    + rewrite (bool_decide_eq_true_2 _ eq_refl). cbn [length].
      destruct (flag_question_same now question_id reason rows) as (f & Hf & Hc & Hr).
      rewrite Hf in IH1, IH2, IH3. simpl in IH1, IH2.
      rewrite IH1, IH2, Hc, Hr, <- app_assoc. split; [lia|]. split; [reflexivity|].
      split; [intros _; right; discriminate | intros _; apply IH3; left; eauto].
    + rewrite (bool_decide_eq_false_2 _ Hne).
      rewrite (flag_question_other now qid reason question_id rows) in IH1, IH2, IH3
        by congruence.
      auto.
Qed.
